(** * ChatLawAI backend: consultation state machine, classifier, extractor
      and question generator of [backend/app.py], embedded and verified.

    Modelling conventions.
    - A Python [str] is a [string]: a sequence of 8-bit characters.  The
      model covers ASCII text; the only non-ASCII characters of the source
      (the rupee sign of the money pattern and the rules of the report
      bodies) are carried as their UTF-8 bytes.  [lower], [upper], [strip]
      and the character classes of the patterns act on ASCII as Python does.
    - [KnowledgeGraph.entities] is a [defaultdict(list)] whose iteration
      order is observed (the subtype detector joins all its values), so it
      is an insertion-ordered association list.  [context] and the session
      store are only read and written by key: they are [gmap]s.
    - Mutation is explicit state passing.  A session [dict] that the source
      mutates in place is the value stored under its identifier.
    - The wall clock read by the report builders and the identifier drawn by
      [uuid.uuid4] are inputs of the functions that use them.
    - A Python [float] is an IEEE 754 binary64 number: the primitive
      [float] of Rocq, with its division and comparison.
    - Logging and the lock have no effect on the values computed and are
      left out. *)

From Stdlib Require Import String Ascii List ZArith QArith Qminmax Qabs Bool Lia.
From Stdlib Require Import PrimFloat FloatOps Uint63.
From stdpp Require Import base option list gmap strings.

Local Open Scope string_scope.
Local Open Scope list_scope.

(** ** Python string primitives *)

Module Py.

Definition in_range (lo hi : N) (c : ascii) : bool :=
  (lo <=? N_of_ascii c)%N && (N_of_ascii c <=? hi)%N.

Definition is_upper (c : ascii) : bool := in_range 65 90 c.
Definition is_lower (c : ascii) : bool := in_range 97 122 c.
Definition is_digit (c : ascii) : bool := in_range 48 57 c.

(** [\w] on ASCII: letters, digits and the underscore. *)
Definition is_word (c : ascii) : bool :=
  is_upper c || is_lower c || is_digit c || (N_of_ascii c =? 95)%N.

(** [str.isspace] and [\s] on ASCII: TAB..CR, FS..US and the space. *)
Definition is_space (c : ascii) : bool :=
  in_range 9 13 c || in_range 28 32 c.

Definition lower_char (c : ascii) : ascii :=
  if is_upper c then ascii_of_N (N_of_ascii c + 32) else c.

Definition upper_char (c : ascii) : ascii :=
  if is_lower c then ascii_of_N (N_of_ascii c - 32) else c.

Fixpoint map_string (f : ascii -> ascii) (s : string) : string :=
  match s with
  | EmptyString => EmptyString
  | String c s' => String (f c) (map_string f s')
  end.

(** [s.lower()] and [s.upper()]. *)
Definition lower (s : string) : string := map_string lower_char s.
Definition upper (s : string) : string := map_string upper_char s.

Fixpoint lstrip (s : string) : string :=
  match s with
  | EmptyString => EmptyString
  | String c s' => if is_space c then lstrip s' else s
  end.

(** Drops trailing white space: a character is kept when something
    that is kept follows it, or when it is not white space itself. *)
Fixpoint rstrip (s : string) : string :=
  match s with
  | EmptyString => EmptyString
  | String c s' =>
      match rstrip s' with
      | EmptyString => if is_space c then EmptyString else String c EmptyString
      | r => String c r
      end
  end.

(** [s.strip()]. *)
Definition strip (s : string) : string := rstrip (lstrip s).

(** Truth value of a [str]: non-empty. *)
Definition truthy (s : string) : bool :=
  match s with EmptyString => false | String _ _ => true end.

(** [needle in hay] on strings. *)
Fixpoint contains (needle hay : string) : bool :=
  if String.prefix needle hay then true
  else match hay with
       | EmptyString => false
       | String _ hay' => contains needle hay'
       end.

(** [x in l] on a list of strings. *)
Definition mem (x : string) (l : list string) : bool :=
  existsb (String.eqb x) l.

(** [sep.join(l)]. *)
Definition join (sep : string) (l : list string) : string := String.concat sep l.

(** [list(dict.fromkeys(l))]: keys are inserted in order, and a key
    that is already there keeps its place. *)
Definition fromkeys (l : list string) : list string :=
  fold_left (fun acc x => if mem x acc then acc else acc ++ [x]) l [].

(** [sum(1 for kw in keywords if kw in q)]. *)
Definition count_in (keywords : list string) (q : string) : Z :=
  fold_left (fun n kw => if contains kw q then n + 1 else n)%Z keywords 0%Z.

End Py.

(** ** Insertion-ordered dictionaries with [str] keys *)

Module Dict.

Section Ordered.
Context {V : Type}.

Fixpoint get (d : list (string * V)) (k : string) : option V :=
  match d with
  | [] => None
  | (k', v) :: d' => if String.eqb k k' then Some v else get d' k
  end.

(** [d[k] = v]: overwrite in place, or append a new key. *)
Fixpoint set (d : list (string * V)) (k : string) (v : V) : list (string * V) :=
  match d with
  | [] => [(k, v)]
  | (k', v') :: d' =>
      if String.eqb k k' then (k', v) :: d' else (k', v') :: set d' k v
  end.

(** [d.get(k, dflt)]. *)
Definition get_or (d : list (string * V)) (k : string) (dflt : V) : V :=
  match get d k with Some v => v | None => dflt end.

Definition keys (d : list (string * V)) : list string := map fst d.
Definition values (d : list (string * V)) : list V := map snd d.

End Ordered.

(** [d[k]] on a [defaultdict(list)]: a missing key is created with the
    empty list before it is read. *)
Definition touch (d : list (string * list string)) (k : string)
  : list (string * list string) :=
  match get d k with Some _ => d | None => d ++ [(k, [])] end.

End Dict.

(** ** Knowledge graph *)

Record KnowledgeGraph := mkKG {
  entities : list (string * list string);
  relations : list string;
  context : gmap string string
}.

(** [KnowledgeGraph()] *)
Definition KnowledgeGraph_init : KnowledgeGraph :=
  {| entities := []; relations := []; context := ∅ |}.

(** [KnowledgeGraph.add_entity].  The guard reads
    [self.entities[entity_type]], which creates the key; the value
    tested for membership is [value], the value appended is
    [value.strip()]. *)
Definition add_entity (kg : KnowledgeGraph) (entity_type value : string)
  : KnowledgeGraph :=
  if Py.truthy value && Py.truthy (Py.strip value) then
    let ents := Dict.touch (entities kg) entity_type in
    let cur := Dict.get_or ents entity_type [] in
    if negb (Py.mem value cur) then
      {| entities := Dict.set ents entity_type (cur ++ [Py.strip value]);
         relations := relations kg;
         context := context kg |}
    else
      {| entities := ents; relations := relations kg; context := context kg |}
  else kg.

(** [KnowledgeGraph.set_context] *)
Definition set_context (kg : KnowledgeGraph) (key value : string)
  : KnowledgeGraph :=
  {| entities := entities kg;
     relations := relations kg;
     context := <[key := value]> (context kg) |}.

(** [kg.context.get(key, dflt)] *)
Definition context_get (kg : KnowledgeGraph) (key dflt : string) : string :=
  default dflt (context kg !! key).

(** The list [parts] that [get_summary] builds: one part per entity type
    that has values, with its first three values, then the first 200
    characters of the situation when there is one. *)
Definition summary_parts (kg : KnowledgeGraph) : list string :=
  map (fun '(entity_type, values) =>
         Py.upper entity_type +:+ ": " +:+ Py.join ", " (take 3 values))
      (List.filter (fun '(_, values) => match values with [] => false | _ :: _ => true end)
                   (entities kg))
  ++ match context kg !! "situation" with
     | Some situation =>
         if Py.truthy situation
         then ["SITUATION: " +:+ substring 0 200 situation]
         else []
     | None => []
     end.

(** [KnowledgeGraph.get_summary] *)
Definition get_summary (kg : KnowledgeGraph) : string :=
  match summary_parts kg with
  | [] => "Knowledge graph empty"
  | parts => Py.join " | " parts
  end.

(** ** Smart classifier agent *)

Module Py_max.

(** [max(l)] on a sequence of integers.  Python raises [ValueError] on
    an empty sequence; the model returns 0 there and every use passes the
    values of a constant, non-empty table. *)
Definition max_int (l : list Z) : Z :=
  match l with
  | [] => 0%Z
  | x :: l' => fold_left Z.max l' x
  end.

(** One comparison of [max(l, key=key)]: the best so far is replaced
    only by an element whose key is strictly greater. *)
Definition pick (key : string -> Z) (best y : string) : string :=
  if (key best <? key y)%Z then y else best.

(** [max(l, key=key)]: the first element whose key is maximal.  The
    empty sequence ([ValueError] in Python) gives [dflt]. *)
Definition max_key (key : string -> Z) (l : list string) (dflt : string) : string :=
  match l with
  | [] => dflt
  | x :: l' => fold_left (pick key) l' x
  end.

End Py_max.

Definition case_keywords : list (string * list string) :=
  [ ("criminal", ["theft";"stolen";"robbery";"assault";"murder";"rape";"dacoity";"fir";"police";"crime";"burglar";"pickpocket";"extortion";"blackmail"]);
    ("family", ["divorce";"marriage";"custody";"alimony";"maintenance";"dowry";"wife";"husband";"domestic";"separation";"child";"guardian"]);
    ("property", ["land";"boundary";"inheritance";"encroachment";"tenant";"landlord";"eviction";"deed";"title";"plot";"mutation"]);
    ("contract", ["agreement";"breach";"contract";"payment";"outstanding";"invoice";"debt";"loan";"delivery";"default"]) ].

(** The [scores] dictionary built by the loop of [initial_classify]. *)
Definition classify_scores (query : string) : list (string * Z) :=
  let q := Py.lower query in
  map (fun '(case_type, keywords) => (case_type, Py.count_in keywords q))
      case_keywords.

Module Py_float.

(** [float(n)], the conversion that [n / 5.0] applies to an [int].  It is
    exact below [2^53]; the model is that of Python for [0 <= n < 2^63],
    and the counts of the classifier are at most 14. *)
Definition of_int (n : Z) : float := PrimFloat.of_uint63 (Uint63.of_Z n).

(** [min(a, b)]: the first argument, unless the second is less. *)
Definition min (a b : float) : float := if PrimFloat.ltb b a then b else a.

End Py_float.

(** [SmartClassifierAgent.initial_classify]. *)
Definition initial_classify (query : string) : string * float :=
  let scores := classify_scores query in
  if (Py_max.max_int (Dict.values scores) =? 0)%Z then ("general", 0.5%float)
  else
    let best_type :=
      Py_max.max_key (fun k => Dict.get_or scores k 0%Z) (Dict.keys scores) "general" in
    let confidence :=
      Py_float.min (Py_float.of_int (Dict.get_or scores best_type 0%Z) / 5)%float 1%float in
    (best_type, confidence).

(** ** Regular expressions of the extractor

    A backtracking matcher for the fragment of [re] the source uses:
    character classes, [\b], concatenation, ordered alternation, greedy
    bounded repetition and greedy [*] on a class.  [run r prev s k]
    matches [r] at the head of [s], [prev] being the character before
    it, and hands what is left to [k]; a failing [k] makes the matcher
    try its next choice, as the engine of Python does. *)

Module Re.

Inductive re : Type :=
| Eps
| Cls (p : ascii -> bool)
| Bnd
| Cat (a b : re)
| Alt (a b : re)
| Rep (a : re) (lo extra : nat)
| Many (p : ascii -> bool).

Definition word_before (prev : option ascii) : bool :=
  match prev with Some c => Py.is_word c | None => false end.

Definition word_after (s : string) : bool :=
  match s with String c _ => Py.is_word c | EmptyString => false end.

Fixpoint run (r : re) (prev : option ascii) (s : string)
    (k : option ascii -> string -> option string) {struct r} : option string :=
  match r with
  | Eps => k prev s
  | Cls p =>
      match s with
      | String c s' => if p c then k (Some c) s' else None
      | EmptyString => None
      end
  | Bnd => if xorb (word_before prev) (word_after s) then k prev s else None
  | Cat a b => run a prev s (fun prev' s' => run b prev' s' k)
  | Alt a b =>
      match run a prev s k with
      | Some rest => Some rest
      | None => run b prev s k
      end
  | Rep a lo extra =>
      let more :=
        fix more (n : nat) (prev : option ascii) (s : string) : option string :=
          match n with
          | O => k prev s
          | S n' =>
              match run a prev s (more n') with
              | Some rest => Some rest
              | None => k prev s
              end
          end in
      let need :=
        fix need (n : nat) (prev : option ascii) (s : string) : option string :=
          match n with
          | O => more extra prev s
          | S n' => run a prev s (need n')
          end in
      need lo prev s
  | Many p =>
      let many :=
        fix many (prev : option ascii) (s : string) : option string :=
          match s with
          | String c s' =>
              if p c then
                match many (Some c) s' with
                | Some rest => Some rest
                | None => k prev s
                end
              else k prev s
          | EmptyString => k prev s
          end in
      many prev s
  end.

(** Length of the match of [r] at the head of [s], if there is one. *)
Definition match_here (r : re) (prev : option ascii) (s : string) : option nat :=
  match run r prev s (fun _ rest => Some rest) with
  | Some rest => Some (String.length s - String.length rest)%nat
  | None => None
  end.

(** Left-to-right scan for non-overlapping matches; [skip] counts the
    characters of the last match that are still to be passed. *)
Fixpoint scan (r : re) (prev : option ascii) (s : string) (skip : nat)
  : list string :=
  match s with
  | EmptyString =>
      match skip, match_here r prev EmptyString with
      | O, Some _ => [EmptyString]
      | _, _ => []
      end
  | String c s' =>
      match skip with
      | S n => scan r (Some c) s' n
      | O =>
          match match_here r prev s with
          | Some (S n) => substring 0 (S n) s :: scan r (Some c) s' n
          | Some O => EmptyString :: scan r (Some c) s' 0
          | None => scan r (Some c) s' 0
          end
      end
  end.

(** [re.findall(r, text)] for a pattern without capturing groups. *)
Definition findall (r : re) (text : string) : list string := scan r None text 0.

Definition seq (l : list re) : re := fold_right Cat Eps l.

Fixpoint alts (l : list re) : re :=
  match l with
  | [] => Cls (fun _ => false)
  | [a] => a
  | a :: l' => Alt a (alts l')
  end.

Definition chr (c : ascii) : re := Cls (Ascii.eqb c).

(** A literal; with [ignore_case] ([re.I]) letters match in both cases. *)
Fixpoint lit (ignore_case : bool) (s : string) : re :=
  match s with
  | EmptyString => Eps
  | String c s' =>
      Cat (Cls (fun x => if ignore_case
                         then Ascii.eqb (Py.lower_char x) (Py.lower_char c)
                         else Ascii.eqb x c))
          (lit ignore_case s')
  end.

(** [p+] *)
Definition plus (p : ascii -> bool) : re := Cat (Cls p) (Many p).

End Re.

(** ** Entity extraction agent *)

Definition dash_or_slash (c : ascii) : bool :=
  Ascii.eqb c "-"%char || Ascii.eqb c "/"%char.

Definition digit_or_comma (c : ascii) : bool :=
  Py.is_digit c || Ascii.eqb c ","%char.

(** [\b\d{1,2}[\-/]\d{1,2}[\-/]\d{2,4}\b] *)
Definition date_re : Re.re :=
  Re.seq [ Re.Bnd; Re.Rep (Re.Cls Py.is_digit) 1 1; Re.Cls dash_or_slash;
           Re.Rep (Re.Cls Py.is_digit) 1 1; Re.Cls dash_or_slash;
           Re.Rep (Re.Cls Py.is_digit) 2 2; Re.Bnd ].

Definition month_names : list string :=
  ["January";"February";"March";"April";"May";"June";"July";"August";
   "September";"October";"November";"December"].

(** [\b(?:January|...|December)\s+\d{1,2}(?:,\s*\d{4})?] with [re.I] *)
Definition month_re : Re.re :=
  Re.seq [ Re.Bnd; Re.alts (map (Re.lit true) month_names);
           Re.plus Py.is_space; Re.Rep (Re.Cls Py.is_digit) 1 1;
           Re.Rep (Re.seq [ Re.chr ","; Re.Many Py.is_space;
                            Re.Rep (Re.Cls Py.is_digit) 4 0 ]) 0 1 ].

(** [\b(?:Rs\.?|₹)\s*[\d,]+\b] *)
Definition value_re : Re.re :=
  Re.seq [ Re.Bnd;
           Re.Alt (Re.Cat (Re.lit false "Rs") (Re.Rep (Re.chr ".") 0 1))
                  (Re.lit false "₹");
           Re.Many Py.is_space; Re.plus digit_or_comma; Re.Bnd ].

(** [\b[A-Z][a-z]+(?:\s+[A-Z][a-z]+){0,2}\b] *)
Definition location_re : Re.re :=
  Re.seq [ Re.Bnd; Re.Cls Py.is_upper; Re.plus Py.is_lower;
           Re.Rep (Re.seq [ Re.plus Py.is_space; Re.Cls Py.is_upper;
                            Re.plus Py.is_lower ]) 0 2;
           Re.Bnd ].

Definition item_keywords : list string :=
  ["phone";"laptop";"car";"house";"land";"jewelry";"money";"document";
   "agreement";"FIR";"complaint"].

(** The dictionary [out] of [extract] before the final deduplication. *)
Definition extract_raw (text : string) : list (string * list string) :=
  let out : list (string * list string) :=
    [("dates", []); ("locations", []); ("values", []); ("items", []); ("parties", [])] in
  let out := Dict.set out "dates" (take 3 (Re.findall date_re text)) in
  let months := Re.findall month_re text in
  let out := Dict.set out "dates" (Dict.get_or out "dates" [] ++ months) in
  let out := Dict.set out "values" (take 3 (Re.findall value_re text)) in
  let caps := Re.findall location_re text in
  let out := Dict.set out "locations" (take 4 caps) in
  let out :=
    Dict.set out "items"
      (take 4 (List.filter
                 (fun kw => Py.contains (Py.lower kw) (Py.lower text))
                 item_keywords)) in
  out.

(** [EntityExtractionAgent.extract] *)
Definition extract (text : string) : list (string * list string) :=
  map (fun '(k, v) => (k, Py.fromkeys v)) (extract_raw text).

(** ** Adaptive question generator *)

Definition OFFENSE_KEYWORDS : list (string * list string) :=
  [ ("murder",  ["murder";"killed";"homicide";"stabbed";"shot";"strangled";"burned";"ipc 302";"302"]);
    ("theft",   ["theft";"stolen";"pickpocket";"burglary";"phone was stolen";"ipc 379";"379"]);
    ("robbery", ["robbery";"dacoity";"snatched";"armed";"weapon";"force";"ipc 392";"392";"395";"396"]);
    ("assault", ["assault";"beat";"injury";"attack";"fight";"ipc 323";"324";"325";"326"]) ].

(** A template set: topics in declared order, each with its questions. *)
Definition template_set : Type := list (string * list string).

Definition QUESTION_TEMPLATES : list (string * template_set) :=
  [ ("murder",
     [ ("time",       ["When did the incident occur?"; "Approximate time of death known?"]);
       ("location",   ["Where did the incident happen?"; "Where was the body found?"]);
       ("relationship",["What was the relationship between accused and victim?"; "Any prior dispute?"]);
       ("weapon",     ["What weapon was used? (knife/firearm/blunt object)"; "Was the weapon recovered?"]);
       ("evidence",   ["Post-mortem report available?"; "Any CCTV or eyewitnesses?"]);
       ("police",     ["FIR filed? Which police station?"; "Any arrests made?"]) ]);
    ("robbery",
     [ ("time",     ["When did the robbery occur?"]);
       ("location", ["Where exactly did it happen? (street / shop / home)"]);
       ("force",    ["Was a weapon or threat used?"; "Any injuries?"]);
       ("property", ["What items or money were taken?"]);
       ("evidence", ["Any CCTV or witnesses?"; "Police informed? FIR filed?"]) ]);
    ("theft",
     [ ("time",     ["When was the item last seen?"; "When did you notice it missing?"]);
       ("location", ["Where was the theft location?"]);
       ("property", ["What item was stolen? (model/serial/IMEI)"]);
       ("evidence", ["CCTV or witnesses?"; "Proof of ownership available?"]);
       ("police",   ["FIR filed? Which station?"]) ]);
    ("assault",
     [ ("time",     ["When did the assault occur?"]);
       ("location", ["Where did it happen?"]);
       ("injury",   ["What injuries occurred? Medical report available?"]);
       ("cause",    ["Was there a dispute or trigger?"]);
       ("evidence", ["CCTV or witnesses?"; "Any hospital or police report?"]) ]);
    ("property",
     [ ("type",     ["What type of property dispute? (land/house/inheritance/tenant)"]);
       ("location", ["Where is the property located? (address/survey number)"]);
       ("ownership",["Do you have ownership documents? (sale deed/title deed)"]);
       ("dispute",  ["What is the exact nature of the dispute?"]);
       ("timeline", ["When did the dispute start?"]);
       ("parties",  ["Who are the other parties involved?"]);
       ("documents",["Do you have: mutation records, property tax receipts, court orders?"]) ]);
    ("family",
     [ ("type",     ["What is the family matter? (divorce/custody/maintenance/inheritance)"]);
       ("marriage", ["When and where did the marriage take place?"]);
       ("duration", ["How long have you been married/separated?"]);
       ("children", ["Do you have children? If yes, their ages?"]);
       ("grounds",  ["What are the grounds for divorce/dispute?"]);
       ("attempts", ["Have you tried mediation or counseling?"]);
       ("documents",["Do you have: marriage certificate, proof of income, other relevant documents?"]) ]);
    ("contract",
     [ ("type",     ["What type of agreement? (sale/loan/service/employment)"]);
       ("date",     ["When was the contract signed?"]);
       ("amount",   ["What is the contract value/amount involved?"]);
       ("breach",   ["How has the contract been breached?"]);
       ("timeline", ["When did the breach occur?"]);
       ("written",  ["Do you have a written agreement?"]);
       ("remedy",   ["What remedy are you seeking? (refund/specific performance/damages)"]) ]);
    ("general",
     [ ("issue",    ["Please describe your legal issue in detail"]);
       ("parties",  ["Who are the parties involved?"]);
       ("timeline", ["When did this issue arise?"]);
       ("documents",["Do you have any relevant documents?"]);
       ("urgency",  ["Is this matter urgent?"]) ]) ].

(** The scores of the four offense subtypes on the lower-cased text,
    in the order of [OFFENSE_KEYWORDS]. *)
Definition offense_scores (text : string) : list (string * Z) :=
  let t := Py.lower text in
  map (fun '(subtype, keywords) => (subtype, Py.count_in keywords t))
      OFFENSE_KEYWORDS.

(** One turn of the loop of [detect_crime_subtype]. *)
Definition better (acc : string * Z) (entry : string * Z) : string * Z :=
  let '(best, best_score) := acc in
  let '(subtype, score) := entry in
  if (best_score <? score)%Z then (subtype, score) else (best, best_score).

(** [AdaptiveQuestionGenerator.detect_crime_subtype] *)
Definition detect_crime_subtype (text : string) : string :=
  fst (fold_left better (offense_scores text) ("theft", 0%Z)).

(** [x or y] on an optional string: [x] when it is there and not empty. *)
Definition or_else (x : option string) (y : string) : string :=
  match x with
  | Some s => if Py.truthy s then s else y
  | None => y
  end.

(** The template set [generate_next] resolves.  [QUESTION_TEMPLATES['theft']]
    and [QUESTION_TEMPLATES['general']] are keys of the constant table. *)
Definition resolve_templates (case_type : string) (kg : KnowledgeGraph)
  : template_set :=
  let situation := context_get kg "situation" EmptyString in
  if String.eqb case_type "criminal" then
    let subtype :=
      or_else (context kg !! "criminal_subtype") (detect_crime_subtype situation) in
    Dict.get_or QUESTION_TEMPLATES subtype (Dict.get_or QUESTION_TEMPLATES "theft" [])
  else
    Dict.get_or QUESTION_TEMPLATES case_type (Dict.get_or QUESTION_TEMPLATES "general" []).

(** [q not in asked] *)
Definition not_asked (asked : list string) (q : string) : bool :=
  negb (Py.mem q asked).

(** The loop over [templates.items()]: the first topic that has a
    question not in [asked] gives its first such question. *)
Fixpoint first_missing (templates : template_set) (asked : list string)
  : option string :=
  match templates with
  | [] => None
  | (category, questions) :: rest =>
      match List.filter (not_asked asked) questions with
      | q :: _ => Some q
      | [] => first_missing rest asked
      end
  end.

(** [AdaptiveQuestionGenerator.generate_next] *)
Definition generate_next (case_type : string) (kg : KnowledgeGraph)
    (asked : list string) : option string :=
  first_missing (resolve_templates case_type kg) asked.

(** ** Analyzer

    [now] is the text [datetime.now().strftime('%Y-%m-%d %H:%M:%S')]
    gives when the report is built. *)

Definition nl : string := String (ascii_of_nat 10) EmptyString.

(** [AIAnalyzer._generate_template_report] *)
Definition _generate_template_report (now case_type subtype situation facts : string)
  : string :=
  let steps :=
    if String.eqb case_type "criminal" then
      "1. File FIR immediately at the nearest police station
2. Collect and preserve all evidence (photos, documents, CCTV)
3. Get witness statements recorded
4. Obtain medical examination report if injuries present
5. Consult a criminal lawyer for detailed legal strategy"
    else if String.eqb case_type "family" then
      "1. Attempt mediation/counseling first if applicable
2. Gather all relevant documents (marriage certificate, financial records)
3. Document any incidents with dates and evidence
4. Consult a family law specialist
5. Consider filing petition in family court if mediation fails"
    else
      "1. Gather all relevant documents and evidence
2. Document timeline of events
3. Identify witnesses if any
4. Consult appropriate legal specialist
5. File case in appropriate court if required" in
  "═══════════════════════════════════════════════════
LEGAL CONSULTATION REPORT
═══════════════════════════════════════════════════

Case Type: " +:+
  Py.upper case_type +:+
  "
Subtype: " +:+
  subtype +:+
  "
Generated: " +:+
  now +:+
  "

─────────────────────────────────────────────────
CLIENT STATEMENT:
" +:+
  situation +:+
  "

─────────────────────────────────────────────────
FACTS EXTRACTED:
" +:+
  (if Py.truthy facts then facts else "Limited information available") +:+
  "

─────────────────────────────────────────────────
LEGAL ANALYSIS:

Based on the information provided, this appears to be a " +:+
  case_type +:+
  " 
matter requiring immediate attention.

RECOMMENDED LEGAL STEPS:
" +:+
  steps +:+
  "

IMPORTANT NOTES:
• Act promptly - legal timelines are strict
• Document everything thoroughly
• Preserve all evidence
• Consult a qualified lawyer immediately for case-specific advice

─────────────────────────────────────────────────
DISCLAIMER:
This is a preliminary analysis based on limited information.
Please consult a qualified legal professional for authoritative advice.
═══════════════════════════════════════════════════".

(** [AIAnalyzer._analyze_robbery_case] *)
Definition _analyze_robbery_case (now situation : string)
    (dates locations values items : list string) (facts : string) : string :=
  let analysis :=
    ["CASE OVERVIEW:";
     "This is a robbery case under IPC Section 390-392 (Robbery and Dacoity)."]
    ++ match dates with
       | d :: _ => ["The incident occurred on " +:+ d +:+ ". Time is crucial - report immediately."]
       | [] => []
       end
    ++ match locations with
       | l :: _ => ["Location: " +:+ l +:+ ". Evidence collection at the crime scene is vital."]
       | [] => []
       end
    ++ match values with
       | v :: _ => ["Value involved: " +:+ v +:+ ". Higher amounts may lead to more severe charges."]
       | [] => []
       end
    ++ match items with
       | _ :: _ => ["Items taken: " +:+ Py.join ", " items +:+ ". Document with purchase receipts/serial numbers."]
       | [] => []
       end
    ++
    [nl +:+ "APPLICABLE LAWS:";
     "• IPC Section 390: Definition of Robbery (theft with force/threat)";
     "• IPC Section 392: Punishment for robbery (up to 10 years + fine)";
     "• If weapon used: IPC Section 397 (robbery with deadly weapon) - up to 14 years";
     "• If injury caused: Enhanced punishment under relevant sections";
     nl +:+ "IMMEDIATE ACTIONS REQUIRED:";
     "1. File FIR immediately at the nearest police station (jurisdiction based on crime location)";
     "2. Provide detailed description of perpetrators if seen";
     "3. Request police to preserve CCTV footage from the area";
     "4. Get medical examination done if any injuries sustained";
     "5. Prepare list of stolen items with proof of ownership";
     "6. Identify and contact witnesses immediately";
     nl +:+ "EVIDENCE TO COLLECT:";
     "• CCTV footage from crime scene and surrounding areas";
     "• Witness statements (get written statements if possible)";
     "• Photos of crime scene and any damage";
     "• Medical reports if injuries present";
     "• Purchase receipts/serial numbers of stolen items";
     "• Bank statements showing cash withdrawal (if cash stolen)";
     nl +:+ "LEGAL TIMELINE:";
     "• FIR should be filed within 24 hours for best results";
     "• CCTV footage may be overwritten after 7-30 days";
     "• Witness memory fades - record statements quickly";
     nl +:+ "NEXT STEPS:";
     "1. File FIR today if not already done";
     "2. Engage a criminal lawyer to follow up on investigation";
     "3. Monitor police investigation progress";
     "4. Be prepared to identify accused if caught";
     "5. Keep all evidence organized for trial"] in
  "═══════════════════════════════════════════════════
LEGAL CONSULTATION REPORT - ROBBERY CASE
═══════════════════════════════════════════════════

Case Type: CRIMINAL - ROBBERY
Generated: " +:+
  now +:+
  "

─────────────────────────────────────────────────
CLIENT STATEMENT:
" +:+
  situation +:+
  "

─────────────────────────────────────────────────
FACTS COLLECTED:
" +:+
  (if Py.truthy facts then facts else "Limited information - answer all questions for detailed analysis") +:+
  "

─────────────────────────────────────────────────
LEGAL ANALYSIS:

" +:+
  Py.join nl analysis +:+
  "

─────────────────────────────────────────────────
CRITICAL REMINDERS:
⚠ Time is of the essence - evidence deteriorates quickly
⚠ FIR must be filed immediately
⚠ This is a serious offense - professional legal representation recommended
⚠ Cooperate fully with police investigation

─────────────────────────────────────────────────
DISCLAIMER:
This is a preliminary legal analysis based on the information provided.
For case-specific advice and representation, please consult a qualified
criminal lawyer immediately. Laws and procedures may vary by state.
═══════════════════════════════════════════════════".

(** [AIAnalyzer._analyze_theft_case] *)
Definition _analyze_theft_case (now situation : string)
    (dates locations values items : list string) (facts : string) : string :=
  _generate_template_report now "criminal" "theft" situation facts.

(** [AIAnalyzer._analyze_murder_case] *)
Definition _analyze_murder_case (now situation : string)
    (dates locations : list string) (facts : string) : string :=
  _generate_template_report now "criminal" "murder" situation facts.

(** [AIAnalyzer._analyze_assault_case] *)
Definition _analyze_assault_case (now situation : string)
    (dates locations : list string) (facts : string) : string :=
  _generate_template_report now "criminal" "assault" situation facts.

(** [AIAnalyzer._analyze_property_case] *)
Definition _analyze_property_case (now situation : string)
    (dates locations values : list string) (facts : string) : string :=
  let analysis :=
    ["CASE OVERVIEW:";
     "This is a property dispute case under relevant civil/property laws."]
    ++ match locations with
       | l :: _ => ["Property location: " +:+ l +:+ ". Survey records and mutation documents are crucial."]
       | [] => []
       end
    ++ match values with
       | v :: _ => ["Estimated value: " +:+ v +:+ ". Property valuation report recommended."]
       | [] => []
       end
    ++
    [nl +:+ "APPLICABLE LAWS:";
     "• Transfer of Property Act, 1882";
     "• Indian Succession Act, 1925 (if inheritance dispute)";
     "• Specific Relief Act, 1963 (for specific performance)";
     "• Registration Act, 1908 (for property registration)";
     "• State-specific Land Revenue Acts";
     nl +:+ "IMMEDIATE ACTIONS REQUIRED:";
     "1. Collect all property documents (sale deed, title deed, mutation records)";
     "2. Get property survey done to verify boundaries";
     "3. Check encumbrance certificate from sub-registrar office";
     "4. Verify ownership chain - trace back 30 years minimum";
     "5. Check for any pending litigation on the property";
     "6. Document any illegal occupation or encroachment with photos/videos";
     nl +:+ "DOCUMENTS TO COLLECT:";
     "• Sale/Purchase deed";
     "• Title deed and ownership chain";
     "• Mutation records (7/12 extract, khasra, etc.)";
     "• Property tax receipts";
     "• Encumbrance certificate";
     "• Survey/plot plan";
     "• Building plan approval (if applicable)";
     "• Will/succession certificate (if inheritance case)";
     nl +:+ "RESOLUTION OPTIONS:";
     "1. Negotiation and settlement (fastest and cheapest)";
     "2. Mediation through court or private mediator";
     "3. Civil suit in appropriate court";
     "4. Partition suit (if co-owned property)";
     "5. Injunction to prevent alienation/damage";
     nl +:+ "NEXT STEPS:";
     "1. Consult a property lawyer with all documents";
     "2. Get legal opinion on ownership status";
     "3. Attempt amicable settlement first";
     "4. If settlement fails, file appropriate civil suit";
     "5. Apply for interim injunction if urgent"] in
  "═══════════════════════════════════════════════════
LEGAL CONSULTATION REPORT - PROPERTY DISPUTE
═══════════════════════════════════════════════════

Case Type: PROPERTY DISPUTE
Generated: " +:+
  now +:+
  "

─────────────────────────────────────────────────
CLIENT STATEMENT:
" +:+
  situation +:+
  "

─────────────────────────────────────────────────
FACTS COLLECTED:
" +:+
  (if Py.truthy facts then facts else "Limited information - answer all questions for detailed analysis") +:+
  "

─────────────────────────────────────────────────
LEGAL ANALYSIS:

" +:+
  Py.join nl analysis +:+
  "

─────────────────────────────────────────────────
CRITICAL REMINDERS:
⚠ Property disputes can take years - document everything
⚠ Verify all documents before making any payment
⚠ Get title search done by professional lawyer
⚠ Do not make any physical changes to disputed property

─────────────────────────────────────────────────
DISCLAIMER:
This is a preliminary legal analysis based on the information provided.
Property laws vary by state. Please consult a qualified property lawyer
for case-specific advice and representation.
═══════════════════════════════════════════════════".

(** [AIAnalyzer._analyze_family_case] *)
Definition _analyze_family_case (now situation : string) (dates : list string)
    (facts : string) : string :=
  _generate_template_report now "family" "family" situation facts.

(** [AIAnalyzer._analyze_contract_case] *)
Definition _analyze_contract_case (now situation : string)
    (dates values : list string) (facts : string) : string :=
  _generate_template_report now "contract" "contract" situation facts.

(** [AIAnalyzer._generate_enhanced_report] *)
Definition _generate_enhanced_report (now case_type subtype situation facts : string)
    (kg : KnowledgeGraph) : string :=
  let dates := Dict.get_or (entities kg) "dates" [] in
  let locations := Dict.get_or (entities kg) "locations" [] in
  let values := Dict.get_or (entities kg) "values" [] in
  let items := Dict.get_or (entities kg) "items" [] in
  if String.eqb case_type "criminal" && String.eqb subtype "robbery" then
    _analyze_robbery_case now situation dates locations values items facts
  else if String.eqb case_type "criminal" && String.eqb subtype "theft" then
    _analyze_theft_case now situation dates locations values items facts
  else if String.eqb case_type "criminal" && String.eqb subtype "murder" then
    _analyze_murder_case now situation dates locations facts
  else if String.eqb case_type "criminal" && String.eqb subtype "assault" then
    _analyze_assault_case now situation dates locations facts
  else if String.eqb case_type "property" then
    _analyze_property_case now situation dates locations values facts
  else if String.eqb case_type "family" then
    _analyze_family_case now situation dates facts
  else if String.eqb case_type "contract" then
    _analyze_contract_case now situation dates values facts
  else
    _generate_template_report now case_type subtype situation facts.

(** The [fact_text] of [analyze]: one line per entity type that has values. *)
Definition fact_text (kg : KnowledgeGraph) : string :=
  Py.join nl
    (map (fun '(k, v) => Py.upper k +:+ ": " +:+ Py.join ", " v)
         (List.filter (fun '(k, v) => match v with [] => false | _ :: _ => true end)
                      (entities kg))).

(** [AIAnalyzer.analyze] *)
Definition analyze (now case_type : string) (kg : KnowledgeGraph) : string :=
  let situation := context_get kg "situation" EmptyString in
  let subtype :=
    if String.eqb case_type "criminal"
    then context_get kg "criminal_subtype" "Unknown"
    else case_type in
  _generate_enhanced_report now case_type subtype situation (fact_text kg) kg.

(** ** Agentic legal system: the session store and its two operations *)

Record Session := mkSession {
  query_history : list string;
  kg : KnowledgeGraph;
  case_type : string;
  turns_done : Z;
  max_turns : Z;
  asked_questions : list string;
  finished : bool
}.

(** The dictionaries the two operations return; a field that is [None]
    is a key that is absent or holds [None]. *)
Record Response := mkResponse {
  session_id : option string;
  next_action : string;
  question : option string;
  partial_report : option string;
  report : option string;
  structured : option (list (string * string))
}.

Inductive Exception : Type :=
| KeyError (msg : string)
| HTTPException (status_code : Z) (detail : string).

(** The two nested loops that feed [extracted] to [kg.add_entity]. *)
Definition add_extracted (g : KnowledgeGraph)
    (extracted : list (string * list string)) : KnowledgeGraph :=
  fold_left
    (fun g '(k, vals) => fold_left (fun g v => add_entity g k v) vals g)
    extracted g.

(** [AgenticLegalSystem.start_session]; [sid] is [str(uuid.uuid4())]. *)
Definition start_session (now sid : string) (sessions : gmap string Session)
    (query : string) (maxt : Z) : gmap string Session * Response :=
  let '(ct, conf) := initial_classify query in
  let g := set_context KnowledgeGraph_init "situation" query in
  let g := set_context g "case_type" ct in
  let g := set_context g "criminal_subtype" (detect_crime_subtype query) in
  let g := add_extracted g (extract query) in
  let final :=
    (<[sid := {| query_history := [query]; kg := g; case_type := ct;
                 turns_done := 0; max_turns := maxt; asked_questions := [];
                 finished := true |}]> sessions,
     {| session_id := Some sid; next_action := "final"; question := None;
        partial_report := Some (analyze now ct g); report := None;
        structured := None |}) in
  match generate_next ct g [] with
  | Some q =>
      if Py.truthy q && (0 <? maxt)%Z then
        (<[sid := {| query_history := [query]; kg := g; case_type := ct;
                     turns_done := 0; max_turns := maxt;
                     asked_questions := [] ++ [q]; finished := false |}]> sessions,
         {| session_id := Some sid; next_action := "ask"; question := Some q;
            partial_report := Some (analyze now ct g); report := None;
            structured := None |})
      else final
  | None => final
  end.

(** The knowledge graph of a session after an answer: the entities
    extracted from the answer are added, then [criminal_subtype] is
    detected again from the situation and all entity values. *)
Definition absorb_answer (g : KnowledgeGraph) (answer : string) : KnowledgeGraph :=
  let g := add_extracted g (extract answer) in
  set_context g "criminal_subtype"
    (detect_crime_subtype
       (context_get g "situation" EmptyString +:+ " " +:+
        Py.join " " (concat (Dict.values (entities g))))).

(** [AgenticLegalSystem.answer_session].  The session dictionary is
    mutated in place, so the store holds the new state on every path
    that passes the lookup. *)
Definition answer_session (now : string) (sessions : gmap string Session)
    (sid answer : string) : gmap string Session * (Exception + Response) :=
  match sessions !! sid with
  | None => (sessions, inl (KeyError "session not found"))
  | Some state =>
      let history := query_history state ++ [answer] in
      let turns := (turns_done state + 1)%Z in
      let g := absorb_answer (kg state) answer in
      let rep := analyze now (case_type state) g in
      let final :=
        (<[sid := {| query_history := history; kg := g;
                     case_type := case_type state; turns_done := turns;
                     max_turns := max_turns state;
                     asked_questions := asked_questions state;
                     finished := true |}]> sessions,
         inr {| session_id := None; next_action := "final"; question := None;
                partial_report := None; report := Some rep;
                structured := Some [] |}) in
      if (turns <? max_turns state)%Z then
        match generate_next (case_type state) g (asked_questions state) with
        | Some q =>
            if Py.truthy q then
              (<[sid := {| query_history := history; kg := g;
                           case_type := case_type state; turns_done := turns;
                           max_turns := max_turns state;
                           asked_questions := asked_questions state ++ [q];
                           finished := finished state |}]> sessions,
               inr {| session_id := None; next_action := "ask";
                      question := Some q; partial_report := Some rep;
                      report := None; structured := None |})
            else final
        | None => final
        end
      else final
  end.

(** What [consult_answer] sends back. *)
Inductive Payload : Type :=
| AskPayload (question : string) (partial_report : option string)
| FinalPayload (session_id report : string)
    (structured : list (string * string)) (timestamp : string).

(** The route [/consult/answer]: the [KeyError] of [answer_session] is
    caught and becomes the 404 response.  [iso_now] is
    [datetime.now().isoformat()]. *)
Definition consult_answer (now iso_now : string) (sessions : gmap string Session)
    (req_session_id req_answer : string)
  : gmap string Session * (Exception + Payload) :=
  match answer_session now sessions req_session_id req_answer with
  | (sessions', inl (KeyError _)) =>
      (sessions', inl (HTTPException 404 "session not found"))
  | (sessions', inl e) => (sessions', inl e)
  | (sessions', inr out) =>
      if String.eqb (next_action out) "ask" then
        match question out with
        | Some q => (sessions', inr (AskPayload q (partial_report out)))
        | None => (sessions', inl (KeyError "question"))
        end
      else
        match report out with
        | Some r =>
            (sessions',
             inr (FinalPayload req_session_id r (default [] (structured out)) iso_now))
        | None => (sessions', inl (KeyError "report"))
        end
  end.

(** The body of a request to [/consult/start]; [max_turns] may be
    [None]. *)
Record ConsultationStartRequest := mkStartRequest {
  req_query : string;
  req_max_turns : option Z
}.

Record ConsultationStartResponse := mkStartResponse {
  resp_session_id : string;
  resp_next_action : string;
  resp_question : option string;
  resp_partial_report : option string
}.

(** [req.max_turns or 7]: [None] and [0] both give 7. *)
Definition max_turns_or_7 (m : option Z) : Z :=
  match m with
  | Some n => if (n =? 0)%Z then 7%Z else n
  | None => 7%Z
  end.

(** The route [/consult/start]; [sid] is the identifier that
    [start_session] draws. *)
Definition consult_start (now sid : string) (sessions : gmap string Session)
    (req : ConsultationStartRequest)
  : gmap string Session * (Exception + ConsultationStartResponse) :=
  if negb (Py.truthy (req_query req)) || negb (Py.truthy (Py.strip (req_query req)))
  then (sessions, inl (HTTPException 400 "Query is required"))
  else
    let '(sessions', out) :=
      start_session now sid sessions (Py.strip (req_query req))
                    (max_turns_or_7 (req_max_turns req)) in
    match session_id out with
    | Some id =>
        (sessions',
         inr {| resp_session_id := id; resp_next_action := next_action out;
                resp_question := question out;
                resp_partial_report := partial_report out |})
    | None => (sessions', inl (KeyError "session_id"))
    end.

(** * Vocabulary of the statements *)

(** [needle] stands somewhere in [hay]. *)
Definition occurs (needle hay : string) : Prop :=
  exists pre post, hay = pre +:+ needle +:+ post.

(** [keyword_matches q keywords n]: [n] is the number of the [keywords]
    that stand somewhere in [q], a keyword counting once for each time it
    is listed. *)
Inductive keyword_matches (q : string) : list string -> Z -> Prop :=
| matches_nil : keyword_matches q [] 0%Z
| matches_hit (kw : string) (kws : list string) (n : Z) :
    occurs kw q -> keyword_matches q kws n -> keyword_matches q (kw :: kws) (n + 1)%Z
| matches_miss (kw : string) (kws : list string) (n : Z) :
    ~ occurs kw q -> keyword_matches q kws n -> keyword_matches q (kw :: kws) n.

(** The rational number that a finite float stands for: sign, mantissa
    and power of two. *)
Definition float_value (x : float) : Q :=
  match Prim2SF x with
  | SpecFloat.S754_finite s m e => (if s then -1 else 1) * inject_Z (Z.pos m) * 2 ^ e
  | _ => 0
  end.

(** All the questions of a template set, topic after topic. *)
Definition all_questions (t : template_set) : list string := concat (map snd t).

(** How many questions of [l] are not in [asked]. *)
Definition unasked (asked l : list string) : nat :=
  length (List.filter (not_asked asked) l).

(** Deduplication that keeps the first occurrence of every value: the
    head stays, and its later copies are removed from what follows. *)
Fixpoint first_seen (l : list string) : list string :=
  match l with
  | [] => []
  | x :: l' => x :: List.filter (fun y => negb (String.eqb y x)) (first_seen l')
  end.

(** The item keywords found in [text], before the cap. *)
Definition items_found (text : string) : list string :=
  List.filter (fun kw => Py.contains (Py.lower kw) (Py.lower text)) item_keywords.

(** What [extract] returns when no rule finds anything. *)
Definition no_entities : list (string * list string) :=
  [("dates", []); ("locations", []); ("values", []); ("items", []); ("parties", [])].

(** No question of the template set is the empty string. *)
Definition well_formed (t : template_set) : bool :=
  forallb Py.truthy (all_questions t).

(** The session after an answer, with the asked list and the flag
    the branch taken decides. *)
Definition answered (st : Session) (answer : string)
    (asked : list string) (fin : bool) : Session :=
  {| query_history := query_history st ++ [answer];
     kg := absorb_answer (kg st) answer;
     case_type := case_type st;
     turns_done := turns_done st + 1;
     max_turns := max_turns st;
     asked_questions := asked;
     finished := fin |}.

(** The consultation of [test_full_flow.py]: a query, then three answers,
    on a store that starts empty. *)
Module Scenario.

Definition clock : string := "2025-01-15 10:30:00".
Definition sid : string := "7c9e6679-7425-40de-944b-e07fc1f90ae7".

Definition store0 : gmap string Session :=
  fst (start_session clock sid ∅ "robbery happened yesterday at my shop" 3).
Definition store1 : gmap string Session :=
  fst (answer_session clock store0 sid "around 5pm yesterday").
Definition store2 : gmap string Session :=
  fst (answer_session clock store1 sid "in my electronics shop").
Definition store3 : gmap string Session :=
  fst (answer_session clock store2 sid "yes knife was used").

End Scenario.



Definition has_values (kv : string * list string) : bool :=
  match snd kv with [] => false | _ :: _ => true end.

(** A value as [add_entity] stores it: not empty, no outer white space. *)
Definition clean (v : string) : Prop := Py.strip v = v /\ Py.truthy v = true.

(** A call on a knowledge graph. *)
Inductive KGCall : Type :=
| AddEntity (entity_type value : string)
| SetContext (key value : string).

Definition run_call (g : KnowledgeGraph) (c : KGCall) : KnowledgeGraph :=
  match c with
  | AddEntity entity_type value => add_entity g entity_type value
  | SetContext key value => set_context g key value
  end.

Definition run_calls (g : KnowledgeGraph) (calls : list KGCall) : KnowledgeGraph :=
  fold_left run_call calls g.

Definition entry_ok (kv : string * list string) : Prop :=
  snd kv <> [] /\ Forall clean (snd kv).

(** Keys are unique, no type has an empty list, every value is clean. *)
Definition entities_ok (d : list (string * list string)) : Prop :=
  List.NoDup (Dict.keys d) /\ Forall entry_ok d.

(** Whether a call adds a value that has no outer white space. *)
Definition trimmed_call (c : KGCall) : Prop :=
  match c with
  | AddEntity _ value => Py.strip value = value
  | SetContext _ _ => True
  end.

Definition lists_nodup (d : list (string * list string)) : Prop :=
  Forall (fun kv => List.NoDup (snd kv)) d.

Definition case_types : list string :=
  ["criminal"; "family"; "property"; "contract"; "general"].

Definition subtypes : list string := ["murder"; "theft"; "robbery"; "assault"].

(** Every template set of the table opens with a question. *)
Definition opens (t : template_set) : bool :=
  match first_missing t [] with Some _ => true | None => false end.

(** The calls of [add_entity] that the two loops over [extracted] make. *)
Definition calls_of (extracted : list (string * list string)) : list KGCall :=
  concat (map (fun kv => map (AddEntity (fst kv)) (snd kv)) extracted).

Definition is_add (c : KGCall) : Prop :=
  match c with AddEntity _ _ => True | SetContext _ _ => False end.

(** Every list of [d] starts with the list [d0] has for the same type. *)
Definition grows_from (d0 d : list (string * list string)) : Prop :=
  forall entity_type,
    exists added,
      Dict.get_or d entity_type [] = Dict.get_or d0 entity_type [] ++ added.

(** The character before the position reached after [m]. *)
Fixpoint last_char (prev : option ascii) (m : string) : option ascii :=
  match m with
  | EmptyString => prev
  | String c m' => last_char (Some c) m'
  end.

Fixpoint all_chars (p : ascii -> bool) (m : string) : bool :=
  match m with
  | EmptyString => true
  | String c m' => p c && all_chars p m'
  end.

(** [n] matches in a row, each starting where the one before ended. *)
Fixpoint reps (one : option ascii -> string -> string -> Prop) (n : nat)
    (prev : option ascii) (m rest : string) : Prop :=
  match n with
  | O => m = EmptyString
  | S n' =>
      exists m1 m2,
        m = m1 +:+ m2 /\ one prev m1 (m2 +:+ rest) /\
        reps one n' (last_char prev m1) m2 rest
  end.

(** [den r prev m rest]: the pattern [r] can match the text [m] when the
    character before is [prev] and the text after is [rest]. *)
Fixpoint den (r : Re.re) (prev : option ascii) (m rest : string) : Prop :=
  match r with
  | Re.Eps => m = EmptyString
  | Re.Cls p => exists c, m = String c EmptyString /\ p c = true
  | Re.Bnd =>
      m = EmptyString /\ xorb (Re.word_before prev) (Re.word_after rest) = true
  | Re.Cat a b =>
      exists m1 m2,
        m = m1 +:+ m2 /\ den a prev m1 (m2 +:+ rest) /\
        den b (last_char prev m1) m2 rest
  | Re.Alt a b => den a prev m rest \/ den b prev m rest
  | Re.Rep a lo extra =>
      exists n, (lo <= n <= lo + extra)%nat /\ reps (den a) n prev m rest
  | Re.Many p => all_chars p m = true
  end.

(** The two loops of a bounded repetition and the loop of [*], as
    functions of the matcher of the repeated pattern. *)
Definition matcher : Type :=
  option ascii -> string -> (option ascii -> string -> option string) -> option string.

Section Loops.

Variable one : matcher.
Variable k : option ascii -> string -> option string.

Fixpoint more_of (n : nat) (prev : option ascii) (s : string) : option string :=
  match n with
  | O => k prev s
  | S n' =>
      match one prev s (more_of n') with
      | Some rest => Some rest
      | None => k prev s
      end
  end.

Variable extra : nat.

Fixpoint need_of (n : nat) (prev : option ascii) (s : string) : option string :=
  match n with
  | O => more_of extra prev s
  | S n' => one prev s (need_of n')
  end.

Variable p : ascii -> bool.

Fixpoint many_of (prev : option ascii) (s : string) : option string :=
  match s with
  | String c s' =>
      if p c then
        match many_of (Some c) s' with
        | Some rest => Some rest
        | None => k prev s
        end
      else k prev s
  | EmptyString => k prev s
  end.

End Loops.

(** A matcher that only succeeds through its continuation, on a text
    that the pattern can match. *)
Definition sound (one : matcher) (d : option ascii -> string -> string -> Prop) : Prop :=
  forall prev s k res,
    one prev s k = Some res ->
    exists m s', s = m +:+ s' /\ d prev m s' /\ k (last_char prev m) s' = Some res.

Fixpoint nullable (r : Re.re) : bool :=
  match r with
  | Re.Eps | Re.Bnd | Re.Many _ => true
  | Re.Cls _ => false
  | Re.Cat a b => nullable a && nullable b
  | Re.Alt a b => nullable a || nullable b
  | Re.Rep a lo _ => Nat.eqb lo 0 || nullable a
  end.

Fixpoint firsts (r : Re.re) (c : ascii) : bool :=
  match r with
  | Re.Eps | Re.Bnd => false
  | Re.Cls p | Re.Many p => p c
  | Re.Cat a b => firsts a c || (nullable a && firsts b c)
  | Re.Alt a b => firsts a c || firsts b c
  | Re.Rep a _ _ => firsts a c
  end.

Fixpoint lasts (r : Re.re) (c : ascii) : bool :=
  match r with
  | Re.Eps | Re.Bnd => false
  | Re.Cls p | Re.Many p => p c
  | Re.Cat a b => lasts b c || (nullable b && lasts a c)
  | Re.Alt a b => lasts a c || lasts b c
  | Re.Rep a _ _ => lasts a c
  end.

(** No character that [f] accepts is white space. *)
Definition never_space (f : ascii -> bool) : bool :=
  forallb (fun n => negb (f (ascii_of_nat n) && Py.is_space (ascii_of_nat n)))
          (seq 0 256).

(** A pattern that cannot match the empty text and can neither start nor
    end a match on white space. *)
Definition tight (r : Re.re) : bool :=
  negb (nullable r) && never_space (firsts r) && never_space (lasts r).

(** Where each value of [extract] comes from. *)
Definition sourced (text k v : string) : Prop :=
  if String.eqb k "items"
  then In v item_keywords /\ Py.contains (Py.lower v) (Py.lower text) = true
  else Py.contains v text = true.

(** The graph that [start_session] builds from the query. *)
Definition start_graph (query : string) : KnowledgeGraph :=
  let g := set_context KnowledgeGraph_init "situation" query in
  let g := set_context g "case_type" (fst (initial_classify query)) in
  let g := set_context g "criminal_subtype" (detect_crime_subtype query) in
  add_extracted g (extract query).

(** The session that [start_session] stores. *)
Definition started (query : string) (maxt : Z) (asked : list string) (fin : bool)
  : Session :=
  {| query_history := [query]; kg := start_graph query;
     case_type := fst (initial_classify query); turns_done := 0;
     max_turns := maxt; asked_questions := asked; finished := fin |}.

(** A call of one of the two operations of the store. *)
Inductive Call : Type :=
| Start (now sid query : string) (maxt : Z)
| Answer (now sid answer : string).

Definition step (sessions : gmap string Session) (c : Call) : gmap string Session :=
  match c with
  | Start now sid query maxt => fst (start_session now sid sessions query maxt)
  | Answer now sid answer => fst (answer_session now sessions sid answer)
  end.

(** The store after a sequence of calls on the empty store. *)
Definition store_after (calls : list Call) : gmap string Session :=
  fold_left step calls ∅.

Definition counts_ok (st : Session) : Prop :=
  turns_done st = (Z.of_nat (length (query_history st)) - 1)%Z /\
  List.NoDup (asked_questions st) /\
  (length (asked_questions st) <= length (query_history st))%nat /\
  (Z.of_nat (length (asked_questions st)) <= Z.max 0 (max_turns st))%Z /\
  (finished st = false -> (turns_done st < max_turns st)%Z).

Definition typed_ok (st : Session) : Prop :=
  exists query later,
    query_history st = query :: later /\
    context (kg st) !! "situation" = Some query /\
    case_type st = fst (initial_classify query) /\
    exists s, context (kg st) !! "criminal_subtype" = Some s /\ In s subtypes.

Definition graph_ok (st : Session) : Prop :=
  entities_ok (entities (kg st)) /\ lists_nodup (entities (kg st)).

Definition session_ok (st : Session) : Prop :=
  counts_ok st /\ typed_ok st /\ graph_ok st.

Definition store_ok (sessions : gmap string Session) : Prop :=
  forall sid st, sessions !! sid = Some st -> session_ok st.

(** A sequence of answers to one session, each with the clock text of
    its report. *)
Definition answer_all (sessions : gmap string Session) (sid : string)
    (answers : list (string * string)) : gmap string Session :=
  fold_left (fun s a => fst (answer_session (fst a) s sid (snd a))) answers sessions.

Definition short_run : list Call :=
  [ Start Scenario.clock Scenario.sid "my phone was stolen near Lake Road" 2;
    Answer Scenario.clock Scenario.sid "a laptop and my phone, on 12/03/2021";
    Answer Scenario.clock Scenario.sid "no" ].

(** * Properties *)

(** ** Strings and lists of strings *)

Lemma mem_true_iff (x : string) (l : list string) :
  Py.mem x l = true <-> In x l.
Proof.
  unfold Py.mem. rewrite existsb_exists. split.
  - intros (y & Hy & Heq). apply String.eqb_eq in Heq. now subst.
  - intros H. exists x. split; [assumption | apply String.eqb_refl].
Qed.

Lemma mem_false_iff (x : string) (l : list string) :
  Py.mem x l = false <-> ~ In x l.
Proof.
  rewrite <- mem_true_iff. destruct (Py.mem x l); split; intros; congruence.
Qed.

Lemma mem_snoc (y x : string) (acc : list string) :
  Py.mem y (acc ++ [x]) = Py.mem y acc || String.eqb y x.
Proof.
  unfold Py.mem. rewrite existsb_app. simpl. rewrite orb_false_r. reflexivity.
Qed.

Lemma prefix_append (n b : string) : String.prefix n (n +:+ b) = true.
Proof.
  induction n as [|c n IH]; simpl; [destruct b; reflexivity|].
  destruct (ascii_dec c c); [exact IH | congruence].
Qed.

Lemma prefix_append_l (n a b : string) :
  String.prefix n a = true -> String.prefix n (a +:+ b) = true.
Proof.
  revert a. induction n as [|c n IH]; intros a; simpl.
  - intros _. destruct (a +:+ b); reflexivity.
  - destruct a as [|x a]; simpl; [discriminate|].
    destruct (ascii_dec c x); [apply IH | discriminate].
Qed.

Lemma contains_cons (n : string) (c : ascii) (h : string) :
  Py.contains n (String c h) =
  if String.prefix n (String c h) then true else Py.contains n h.
Proof. reflexivity. Qed.

Lemma contains_prefix (n h : string) :
  String.prefix n h = true -> Py.contains n h = true.
Proof.
  intros H. destruct h.
  - change (Py.contains n "") with (if String.prefix n "" then true else false).
    rewrite H. reflexivity.
  - rewrite contains_cons, H. reflexivity.
Qed.

Lemma contains_append_r (n a b : string) :
  Py.contains n b = true -> Py.contains n (a +:+ b) = true.
Proof.
  intros H. induction a as [|c a IH]; [exact H|].
  change (String c a +:+ b) with (String c (a +:+ b)).
  rewrite contains_cons, IH.
  destruct (String.prefix n (String c (a +:+ b))); reflexivity.
Qed.

Lemma contains_append_l (n a b : string) :
  Py.contains n a = true -> Py.contains n (a +:+ b) = true.
Proof.
  induction a as [|c a IH].
  - change (Py.contains n "") with (if String.prefix n "" then true else false).
    destruct (String.prefix n "") eqn:E; [|discriminate]. intros _.
    apply contains_prefix. exact (prefix_append_l n "" b E).
  - rewrite contains_cons. destruct (String.prefix n (String c a)) eqn:E.
    + intros _. apply contains_prefix. exact (prefix_append_l n _ b E).
    + intros H. change (String c a +:+ b) with (String c (a +:+ b)).
      rewrite contains_cons, (IH H).
      destruct (String.prefix n (String c (a +:+ b))); reflexivity.
Qed.

Lemma contains_here (n b : string) : Py.contains n (n +:+ b) = true.
Proof. apply contains_prefix, prefix_append. Qed.

Lemma contains_refl (n : string) : Py.contains n n = true.
Proof.
  apply contains_prefix. induction n as [|c n IH]; simpl; [reflexivity|].
  destruct (ascii_dec c c); [exact IH | congruence].
Qed.

Lemma count_step_nonneg (q : string) (keywords : list string) (n : Z) :
  (0 <= n)%Z ->
  (0 <= fold_left (fun n kw => if Py.contains kw q then n + 1 else n)%Z keywords n)%Z.
Proof.
  revert n. induction keywords as [|kw kws IH]; intros n Hn; simpl.
  - exact Hn.
  - apply IH. destruct (Py.contains kw q); lia.
Qed.

Lemma count_in_nonneg (keywords : list string) (q : string) :
  (0 <= Py.count_in keywords q)%Z.
Proof. unfold Py.count_in. apply count_step_nonneg. lia. Qed.

Lemma prefix_occurs (n h : string) :
  String.prefix n h = true -> exists post, h = n +:+ post.
Proof.
  revert h. induction n as [|c n IH]; intros h.
  - intros _. exists h. reflexivity.
  - destruct h as [|x h]; simpl; [discriminate|].
    destruct (ascii_dec c x) as [->|]; [|discriminate].
    intros H. destruct (IH h H) as (post & ->). exists post. reflexivity.
Qed.

(** [kw in q] of Python holds exactly when [kw] stands somewhere in [q]. *)
Lemma contains_occurs (n h : string) : Py.contains n h = true <-> occurs n h.
Proof.
  split.
  - induction h as [|c h IH].
    + change (Py.contains n "") with (if String.prefix n "" then true else false).
      destruct (String.prefix n "") eqn:E; [|discriminate]. intros _.
      destruct (prefix_occurs _ _ E) as (post & Hp).
      exists EmptyString, post. exact Hp.
    + rewrite contains_cons. destruct (String.prefix n (String c h)) eqn:E.
      * intros _. destruct (prefix_occurs _ _ E) as (post & Hp).
        exists EmptyString, post. exact Hp.
      * intros H. destruct (IH H) as (pre & post & ->).
        exists (String c pre), post. reflexivity.
  - intros (pre & post & ->). apply contains_append_r, contains_here.
Qed.

Lemma count_step_shift (q : string) (keywords : list string) (n : Z) :
  fold_left (fun n kw => if Py.contains kw q then n + 1 else n)%Z keywords n =
  (n + Py.count_in keywords q)%Z.
Proof.
  unfold Py.count_in. revert n.
  induction keywords as [|kw kws IH]; intros n; cbn [fold_left].
  - lia.
  - rewrite (IH (if Py.contains kw q then n + 1 else n)%Z).
    rewrite (IH (if Py.contains kw q then 0 + 1 else 0)%Z).
    destruct (Py.contains kw q); lia.
Qed.

Lemma count_in_cons (kw : string) (kws : list string) (q : string) :
  Py.count_in (kw :: kws) q =
  ((if Py.contains kw q then 1 else 0) + Py.count_in kws q)%Z.
Proof.
  unfold Py.count_in at 1. cbn [fold_left]. rewrite count_step_shift.
  destruct (Py.contains kw q); reflexivity.
Qed.

(** The sum that the loop builds is the number of keywords that occur. *)
Lemma count_in_matches (keywords : list string) (q : string) :
  keyword_matches q keywords (Py.count_in keywords q).
Proof.
  induction keywords as [|kw kws IH].
  - constructor.
  - rewrite count_in_cons. destruct (Py.contains kw q) eqn:E.
    + rewrite Z.add_comm. apply matches_hit; [|exact IH].
      apply contains_occurs. exact E.
    + rewrite Z.add_0_l. apply matches_miss; [|exact IH].
      intros H. apply contains_occurs in H. congruence.
Qed.

Lemma count_in_le_length (keywords : list string) (q : string) :
  (Py.count_in keywords q <= Z.of_nat (length keywords))%Z.
Proof.
  induction keywords as [|kw kws IH]; [reflexivity|].
  rewrite count_in_cons. cbn [length]. destruct (Py.contains kw q); lia.
Qed.

Lemma dict_get_map {A B : Type} (f : A -> B) (d : list (string * A)) (k : string) :
  Dict.get (map (fun '(k', v) => (k', f v)) d) k = option_map f (Dict.get d k).
Proof.
  induction d as [|[k' v] d IH]; [reflexivity|].
  cbn [map Dict.get]. destruct (String.eqb k k'); [reflexivity | exact IH].
Qed.

(** ** Knowledge graph: [add_entity] *)

Lemma dict_get_set_same {V : Type} (d : list (string * V)) (k : string) (v : V) :
  Dict.get (Dict.set d k v) k = Some v.
Proof.
  induction d as [|[k' v'] d IH]; simpl.
  - rewrite String.eqb_refl. reflexivity.
  - destruct (String.eqb k k') eqn:E; simpl; rewrite E; [reflexivity | exact IH].
Qed.

Lemma dict_get_app_new {V : Type} (d : list (string * V)) (k : string) (v : V) :
  Dict.get d k = None -> Dict.get (d ++ [(k, v)]) k = Some v.
Proof.
  induction d as [|[k' v'] d IH]; simpl.
  - intros _. rewrite String.eqb_refl. reflexivity.
  - destruct (String.eqb k k'); [discriminate | exact IH].
Qed.

Lemma dict_touch_known (d : list (string * list string)) (k : string) (l : list string) :
  Dict.get d k = Some l -> Dict.touch d k = d.
Proof. unfold Dict.touch. intros ->. reflexivity. Qed.

(** A value that is empty or all white space leaves the graph as it is. *)
Lemma add_entity_blank (g : KnowledgeGraph) (entity_type value : string) :
  Py.truthy (Py.strip value) = false -> add_entity g entity_type value = g.
Proof.
  intros H. unfold add_entity. rewrite H, andb_false_r. reflexivity.
Qed.

Lemma dict_get_touch (d : list (string * list string)) (k : string) :
  Dict.get (Dict.touch d k) k = Some (Dict.get_or d k []).
Proof.
  unfold Dict.touch, Dict.get_or.
  destruct (Dict.get d k) as [l|] eqn:E; [exact E | apply dict_get_app_new, E].
Qed.

(** A value that is in the list of its type as it stands is not added. *)
Lemma add_entity_present (g : KnowledgeGraph) (entity_type value : string)
    (l : list string) :
  Dict.get (entities g) entity_type = Some l ->
  Py.mem value l = true ->
  add_entity g entity_type value = g.
Proof.
  intros Hget Hmem. unfold add_entity.
  destruct (Py.truthy value && Py.truthy (Py.strip value)); [|reflexivity].
  rewrite (dict_touch_known _ _ _ Hget). unfold Dict.get_or. rewrite Hget, Hmem.
  destruct g; reflexivity.
Qed.

(** After a call on a value without outer white space, the value is in
    the list of its type. *)
Lemma add_entity_trimmed_present (g : KnowledgeGraph) (entity_type value : string) :
  Py.strip value = value ->
  Py.truthy value = true ->
  exists l,
    Dict.get (entities (add_entity g entity_type value)) entity_type = Some l /\
    Py.mem value l = true.
Proof.
  intros Hstrip Htruthy. unfold add_entity. rewrite Hstrip, Htruthy. cbn [andb].
  set (ents := Dict.touch (entities g) entity_type).
  set (cur := Dict.get_or ents entity_type []).
  destruct (Py.mem value cur) eqn:Hmem; cbn [negb entities].
  - exists cur. split; [|exact Hmem]. subst cur ents.
    rewrite dict_get_touch. unfold Dict.get_or at 2. rewrite dict_get_touch.
    reflexivity.
  - exists (cur ++ [value]). split; [apply dict_get_set_same|].
    rewrite mem_snoc, String.eqb_refl. apply orb_true_r.
Qed.

(** On a value without outer white space the second of two equal calls
    changes nothing. *)
Lemma add_entity_trimmed_twice (g : KnowledgeGraph) (entity_type value : string) :
  Py.strip value = value ->
  add_entity (add_entity g entity_type value) entity_type value =
  add_entity g entity_type value.
Proof.
  intros Hstrip. destruct (Py.truthy value) eqn:Htruthy.
  - destruct (add_entity_trimmed_present g entity_type value Hstrip Htruthy)
      as (l & Hget & Hmem).
    exact (add_entity_present _ _ _ l Hget Hmem).
  - unfold add_entity. rewrite Htruthy. reflexivity.
Qed.

(** C2.  [add_entity] tests the raw value for membership and appends
    the trimmed one.  Adding [" phone"] twice to the empty graph changes
    the state both times and leaves the list of [items] with a duplicate. *)
Theorem add_entity_untrimmed_twice :
  let g1 := add_entity KnowledgeGraph_init "items" " phone" in
  let g2 := add_entity g1 "items" " phone" in
  entities g1 = [("items", ["phone"])] /\
  entities g2 = [("items", ["phone"; "phone"])] /\
  g2 <> g1 /\
  ~ List.NoDup (Dict.get_or (entities g2) "items" []).
Proof.
  cbv zeta. split; [reflexivity|]. split; [reflexivity|]. split.
  - intros H. apply (f_equal entities) in H. vm_compute in H. discriminate H.
  - vm_compute. intros H. inversion H as [|x l Hx Hl]; subst.
    apply Hx. left. reflexivity.
Qed.

(** ** Classifier *)

Section FirstMaximum.

Variable key : string -> Z.

Lemma fold_pick_split (l done_pre done_post : list string) (best : string) :
  Forall (fun y => key y < key best)%Z done_pre ->
  Forall (fun y => key y <= key best)%Z done_post ->
  exists pre post,
    done_pre ++ best :: done_post ++ l = pre ++ fold_left (Py_max.pick key) l best :: post /\
    Forall (fun y => key y < key (fold_left (Py_max.pick key) l best))%Z pre /\
    Forall (fun y => key y <= key (fold_left (Py_max.pick key) l best))%Z post.
Proof.
  revert done_pre done_post best.
  induction l as [|y l IH]; intros done_pre done_post best Hpre Hpost; simpl.
  - exists done_pre, done_post. rewrite app_nil_r. auto.
  - unfold Py_max.pick at 2 4 6. destruct (Z.ltb_spec (key best) (key y)) as [Hlt|Hge].
    + destruct (IH (done_pre ++ best :: done_post) [] y) as (pre & post & E & H1 & H2).
      * apply Forall_app. split.
        -- eapply Forall_impl; [exact Hpre|]. simpl. intros; lia.
        -- constructor; [exact Hlt|].
           eapply Forall_impl; [exact Hpost|]. simpl. intros; lia.
      * constructor.
      * exists pre, post. split; [|auto].
        rewrite <- E. simpl. rewrite <- !app_assoc. reflexivity.
    + destruct (IH done_pre (done_post ++ [y]) best) as (pre & post & E & H1 & H2).
      * exact Hpre.
      * apply Forall_app. split; [exact Hpost|]. constructor; [lia|constructor].
      * exists pre, post. split; [|auto].
        rewrite <- E. rewrite <- !app_assoc. reflexivity.
Qed.

(** [max(l, key=key)] on a non-empty list is the first element whose
    key is maximal. *)
Lemma max_key_first_maximal (x : string) (l : list string) (dflt : string) :
  exists pre post,
    x :: l = pre ++ Py_max.max_key key (x :: l) dflt :: post /\
    Forall (fun y => key y < key (Py_max.max_key key (x :: l) dflt))%Z pre /\
    Forall (fun y => key y <= key (Py_max.max_key key (x :: l) dflt))%Z post.
Proof.
  destruct (fold_pick_split l [] [] x) as (pre & post & E & H1 & H2);
    [constructor | constructor |].
  exists pre, post. simpl in E. auto.
Qed.

End FirstMaximum.

Lemma fold_max_ge (l : list Z) (x : Z) :
  (x <= fold_left Z.max l x)%Z /\ Forall (fun y => y <= fold_left Z.max l x)%Z l.
Proof.
  revert x. induction l as [|y l IH]; intros x; simpl.
  - split; [lia | constructor].
  - destruct (IH (Z.max x y)) as [H1 H2]. split; [lia|].
    constructor; [lia | exact H2].
Qed.

Lemma fold_max_in (l : list Z) (x : Z) : In (fold_left Z.max l x) (x :: l).
Proof.
  revert x. induction l as [|y l IH]; intros x; simpl.
  - left; reflexivity.
  - destruct (IH (Z.max x y)) as [H|H].
    + rewrite <- H.
      destruct (Z.max_spec x y) as [[_ E]|[_ E]]; rewrite E; simpl; auto.
    + right. right. exact H.
Qed.

Lemma max_key_upper (key : string -> Z) (x : string) (l : list string) (dflt : string) :
  In (Py_max.max_key key (x :: l) dflt) (x :: l) /\
  Forall (fun y => key y <= key (Py_max.max_key key (x :: l) dflt))%Z (x :: l).
Proof.
  destruct (max_key_first_maximal key x l dflt) as (pre & post & E & H1 & H2).
  split.
  - rewrite E at 2. apply in_or_app. right. left. reflexivity.
  - rewrite E at 1. apply Forall_app. split.
    + eapply Forall_impl; [exact H1|]. simpl. intros; lia.
    + constructor; [lia | exact H2].
Qed.

(** Splits a [Forall] over a list that is written out. *)
Ltac split_Forall H :=
  repeat (let H1 := fresh H in
          pose proof (Forall_inv H) as H1;
          apply Forall_inv_tail in H;
          cbv beta in H1).

Lemma classify_scores_shape (query : string) :
  exists a b c d : Z,
    (0 <= a /\ 0 <= b /\ 0 <= c /\ 0 <= d)%Z /\
    classify_scores query =
      [("criminal", a); ("family", b); ("property", c); ("contract", d)].
Proof.
  unfold classify_scores, case_keywords. cbn [map].
  do 4 eexists. split; [|reflexivity].
  repeat split; apply count_in_nonneg.
Qed.

Lemma classify_scores_count (query c : string) (keywords : list string) :
  Dict.get case_keywords c = Some keywords ->
  Dict.get_or (classify_scores query) c 0%Z = Py.count_in keywords (Py.lower query).
Proof.
  intros H. unfold Dict.get_or, classify_scores. cbv zeta.
  rewrite (dict_get_map (fun keywords => Py.count_in keywords (Py.lower query))), H.
  reflexivity.
Qed.

(** No keyword list has more than 14 entries, so no score is above 14. *)
Lemma classify_top_bound (query : string) :
  (Py_max.max_int (Dict.values (classify_scores query)) <= 14)%Z.
Proof.
  unfold classify_scores, case_keywords. cbv zeta. cbn [map].
  unfold Dict.values. cbn [map snd Py_max.max_int fold_left].
  repeat apply Z.max_lub;
    (etransitivity; [apply count_in_le_length | vm_compute; discriminate]).
Qed.

(** The float computed from a count between 1 and 14 lies in [[0, 1]] and
    is the binary64 number next to the rational [min(count/5, 1)]. *)
Lemma confidence_rounds (n : Z) :
  (0 < n <= 14)%Z ->
  let x := Py_float.min (Py_float.of_int n / 5)%float 1%float in
  PrimFloat.leb 0%float x = true /\ PrimFloat.leb x 1%float = true /\
  (Qabs (float_value x - Qmin (inject_Z n / 5) 1) <= 1 # 18014398509481984)%Q.
Proof.
  intros Hn.
  assert (H : (n = 1 \/ n = 2 \/ n = 3 \/ n = 4 \/ n = 5 \/ n = 6 \/ n = 7 \/
               n = 8 \/ n = 9 \/ n = 10 \/ n = 11 \/ n = 12 \/ n = 13 \/ n = 14)%Z)
    by lia.
  repeat (destruct H as [->|H];
          [vm_compute; split; [reflexivity | split; [reflexivity | discriminate]]|]).
  subst n. vm_compute. split; [reflexivity | split; [reflexivity | discriminate]].
Qed.

(** C6.  [initial_classify] scores the four categories in declaration
    order, the score of a category being the number of its keywords that
    stand somewhere in the lower-cased query.  When the highest count is
    zero the result is [("general", 0.5)]; otherwise the category returned
    is the first one that reaches the highest count and the confidence is
    the float [min(count/5.0, 1.0)], which is the binary64 number next to
    the rational [min(count/5, 1)].  The empty query gives
    [("general", 0.5)], and the confidence always lies in [[0, 1]]. *)
Theorem initial_classify_first_maximal (query : string) :
  let scores := classify_scores query in
  let score := fun c => Dict.get_or scores c 0%Z in
  let top := Py_max.max_int (Dict.values scores) in
  let result := initial_classify query in
  Dict.keys scores = ["criminal"; "family"; "property"; "contract"] /\
  Dict.keys case_keywords = Dict.keys scores /\
  (forall c keywords,
     Dict.get case_keywords c = Some keywords ->
     keyword_matches (Py.lower query) keywords (score c)) /\
  Forall (fun c => 0 <= score c <= top)%Z (Dict.keys scores) /\
  (top = 0%Z <-> Forall (fun c => score c = 0%Z) (Dict.keys scores)) /\
  ((top = 0%Z /\ result = ("general", 0.5%float)) \/
   ((0 < top)%Z /\
    exists pre post,
      Dict.keys scores = pre ++ fst result :: post /\
      score (fst result) = top /\
      Forall (fun c => score c < top)%Z pre /\
      snd result = Py_float.min (Py_float.of_int top / 5)%float 1%float /\
      (Qabs (float_value (snd result) - Qmin (inject_Z top / 5) 1)
       <= 1 # 18014398509481984)%Q)) /\
  initial_classify EmptyString = ("general", 0.5%float) /\
  PrimFloat.leb 0%float (snd result) = true /\
  PrimFloat.leb (snd result) 1%float = true.
Proof.
  intros scores score top result.
  destruct (classify_scores_shape query) as (a & b & c & d & (Ha & Hb & Hc & Hd) & E).
  assert (Hkeys : Dict.keys scores = ["criminal"; "family"; "property"; "contract"])
    by (subst scores; rewrite E; reflexivity).
  assert (Htop : top = Z.max (Z.max (Z.max a b) c) d)
    by (subst top scores; rewrite E; reflexivity).
  assert (Hs : score "criminal" = a /\ score "family" = b /\
               score "property" = c /\ score "contract" = d)
    by (subst score scores; rewrite E; repeat split; reflexivity).
  destruct Hs as (Hsa & Hsb & Hsc & Hsd).
  pose proof (classify_top_bound query) as Hbound. fold scores in Hbound. fold top in Hbound.
  split; [exact Hkeys|].
  split; [rewrite Hkeys; reflexivity|].
  split.
  { intros c' keywords Hget. subst score. cbv beta. subst scores.
    rewrite (classify_scores_count _ _ _ Hget). apply count_in_matches. }
  rewrite Hkeys.
  split.
  { repeat constructor; rewrite ?Hsa, ?Hsb, ?Hsc, ?Hsd; lia. }
  split.
  { split.
    - intros H0. repeat constructor; rewrite ?Hsa, ?Hsb, ?Hsc, ?Hsd; lia.
    - intros HF. split_Forall HF. lia. }
  assert (Hres : result =
            if (top =? 0)%Z then ("general", 0.5%float)
            else (Py_max.max_key score (Dict.keys scores) "general",
                  Py_float.min
                    (Py_float.of_int
                       (score (Py_max.max_key score (Dict.keys scores) "general")) / 5)%float
                    1%float))
    by reflexivity.
  rewrite Hkeys in Hres.
  destruct (max_key_first_maximal score "criminal" ["family"; "property"; "contract"] "general")
    as (pre & post & Esplit & Hpre & Hpost).
  destruct (max_key_upper score "criminal" ["family"; "property"; "contract"] "general")
    as (Hin & Hup).
  set (best := Py_max.max_key score ["criminal"; "family"; "property"; "contract"] "general") in *.
  assert (Hbest : score best = top).
  { split_Forall Hup.
    destruct Hin as [Hin|[Hin|[Hin|[Hin|[]]]]]; rewrite <- Hin in *; lia. }
  rewrite Hbest in Hres.
  split; [|split; [reflexivity|]].
  - destruct (Z.eqb_spec top 0) as [H0|Hn0].
    + left. split; [exact H0 | exact Hres].
    + right. split; [lia|]. exists pre, post. rewrite Hres. cbn [fst snd].
      split; [exact Esplit|]. split; [exact Hbest|]. split.
      * rewrite <- Hbest. exact Hpre.
      * split; [reflexivity|]. apply confidence_rounds. lia.
  - rewrite Hres. destruct (Z.eqb_spec top 0) as [H0|Hn0]; cbn [snd].
    + split; reflexivity.
    + destruct (confidence_rounds top) as (Hlo & Hhi & _); [lia|].
      split; [exact Hlo | exact Hhi].
Qed.

(** A query with three criminal keywords, one of them in capitals, and
    one family keyword. *)
Lemma initial_classify_first_maximal_witness :
  let query := "Theft and robbery: my husband called the POLICE" in
  keyword_matches (Py.lower query)
    ["theft";"stolen";"robbery";"assault";"murder";"rape";"dacoity";"fir";"police";
     "crime";"burglar";"pickpocket";"extortion";"blackmail"] 3 /\
  keyword_matches (Py.lower query)
    ["divorce";"marriage";"custody";"alimony";"maintenance";"dowry";"wife";"husband";
     "domestic";"separation";"child";"guardian"] 1 /\
  initial_classify query = ("criminal", (3 / 5)%float).
Proof.
  intros query.
  destruct (initial_classify_first_maximal query) as (_ & _ & Hcount & _).
  split; [|split].
  - exact (Hcount "criminal" _ eq_refl).
  - exact (Hcount "family" _ eq_refl).
  - vm_compute. reflexivity.
Defined.

(** ** Question generator: the offense subtype *)

(** The loop of [detect_crime_subtype] from a state [(b, s)]: either no
    entry beats [s] and the state is kept, or the result is the first
    entry that reaches the highest score, which is above [s]. *)
Lemma fold_better_first_maximal (l : list (string * Z)) (b : string) (s : Z) :
  (Forall (fun e => snd e <= s)%Z l /\ fold_left better l (b, s) = (b, s)) \/
  (exists pre e post,
     l = pre ++ e :: post /\ fold_left better l (b, s) = e /\ (s < snd e)%Z /\
     Forall (fun e' => snd e' < snd e)%Z pre /\
     Forall (fun e' => snd e' <= snd e)%Z post).
Proof.
  revert b s. induction l as [|[k v] l IH]; intros b s.
  - left. split; [constructor | reflexivity].
  - cbn [fold_left better]. destruct (Z.ltb_spec s v) as [Hlt|Hge].
    + right. destruct (IH k v) as [[Hall Hres] | (pre & e & post & El & Hres & Hgt & Hpre & Hpost)].
      * exists [], (k, v), l. cbn [snd app].
        split; [reflexivity|]. split; [exact Hres|].
        split; [exact Hlt|]. split; [constructor | exact Hall].
      * exists ((k, v) :: pre), e, post.
        split; [rewrite El; reflexivity|]. split; [exact Hres|].
        split; [lia|]. split; [|exact Hpost].
        constructor; [exact Hgt | exact Hpre].
    + destruct (IH b s) as [[Hall Hres] | (pre & e & post & El & Hres & Hgt & Hpre & Hpost)].
      * left. split; [|exact Hres]. constructor; [exact Hge | exact Hall].
      * right. exists ((k, v) :: pre), e, post.
        split; [rewrite El; reflexivity|]. split; [exact Hres|].
        split; [exact Hgt|]. split; [|exact Hpost].
        constructor; [cbn [snd]; lia | exact Hpre].
Qed.

Lemma offense_scores_shape (text : string) :
  exists a b c d : Z,
    (0 <= a /\ 0 <= b /\ 0 <= c /\ 0 <= d)%Z /\
    offense_scores text =
      [("murder", a); ("theft", b); ("robbery", c); ("assault", d)].
Proof.
  unfold offense_scores, OFFENSE_KEYWORDS. cbn [map].
  do 4 eexists. split; [|reflexivity].
  repeat split; apply count_in_nonneg.
Qed.

(** C5, as the code has it.  The subtypes are scored in the order murder,
    theft, robbery, assault.  When every score is zero the result is
    ["theft"]; otherwise it is the first subtype, in that order, that
    reaches the highest score: no earlier subtype scores as much and no
    later one scores more. *)
Theorem detect_crime_subtype_first_maximal (text : string) :
  let scores := offense_scores text in
  Dict.keys scores = ["murder"; "theft"; "robbery"; "assault"] /\
  ((Forall (fun e => snd e = 0%Z) scores /\ detect_crime_subtype text = "theft") \/
   (exists pre e post,
      scores = pre ++ e :: post /\
      detect_crime_subtype text = fst e /\
      (0 < snd e)%Z /\
      Forall (fun e' => snd e' < snd e)%Z pre /\
      Forall (fun e' => snd e' <= snd e)%Z post)).
Proof.
  intros scores.
  destruct (offense_scores_shape text) as (a & b & c & d & (Ha & Hb & Hc & Hd) & E).
  split; [subst scores; rewrite E; reflexivity|].
  unfold detect_crime_subtype. fold scores.
  destruct (fold_better_first_maximal scores "theft" 0)
    as [[Hall Hres] | (pre & e & post & El & Hres & Hgt & Hpre & Hpost)].
  - left. rewrite Hres. split; [|reflexivity].
    subst scores. rewrite E in *. split_Forall Hall. cbn [snd] in *.
    repeat constructor; cbn [snd]; lia.
  - right. exists pre, e, post. rewrite Hres. auto.
Qed.

(** C5, counterexample.  On ["murder robbery"] the subtypes murder and
    robbery tie for the highest score, and the result is ["murder"], not
    ["theft"]. *)
Lemma detect_crime_subtype_tie_is_not_theft :
  offense_scores "murder robbery" =
    [("murder", 1%Z); ("theft", 0%Z); ("robbery", 1%Z); ("assault", 0%Z)] /\
  detect_crime_subtype "murder robbery" = "murder" /\
  detect_crime_subtype "murder robbery" <> "theft".
Proof.
  split; [vm_compute; reflexivity|]. split; [vm_compute; reflexivity|].
  vm_compute. discriminate.
Qed.

(** ** Question generator: the next question *)

Section Unasked.

Variable asked : list string.

Lemma find_head_filter (l : list string) :
  match List.filter (not_asked asked) l with
  | q :: _ => Some q
  | [] => None
  end = find (not_asked asked) l.
Proof.
  induction l as [|x l IH]; [reflexivity|]. simpl.
  destruct (not_asked asked x); [reflexivity | exact IH].
Qed.

Lemma find_app_first (l1 l2 : list string) :
  find (not_asked asked) (l1 ++ l2) =
  match find (not_asked asked) l1 with
  | Some q => Some q
  | None => find (not_asked asked) l2
  end.
Proof.
  induction l1 as [|x l1 IH]; [reflexivity|]. simpl.
  destruct (not_asked asked x); [reflexivity | exact IH].
Qed.

Lemma first_missing_find (t : template_set) :
  first_missing t asked = find (not_asked asked) (all_questions t).
Proof.
  induction t as [|[category questions] rest IH]; [reflexivity|].
  unfold all_questions. cbn [first_missing map snd concat].
  rewrite find_app_first, <- find_head_filter.
  destruct (List.filter (not_asked asked) questions); [exact IH | reflexivity].
Qed.

Lemma find_fresh_split (l : list string) (q : string) :
  find (not_asked asked) l = Some q ->
  ~ In q asked /\
  exists pre post, l = pre ++ q :: post /\ Forall (fun x => In x asked) pre.
Proof.
  induction l as [|x l IH]; [discriminate|]. simpl.
  destruct (not_asked asked x) eqn:Hx.
  - intros [= <-]. split.
    + apply mem_false_iff. unfold not_asked in Hx.
      destruct (Py.mem x asked); [discriminate | reflexivity].
    + exists [], l. split; [reflexivity | constructor].
  - intros H. destruct (IH H) as (Hq & pre & post & E & Hpre). split; [exact Hq|].
    exists (x :: pre), post. split; [rewrite E; reflexivity|].
    constructor; [|exact Hpre]. apply mem_true_iff. unfold not_asked in Hx.
    destruct (Py.mem x asked); [reflexivity | discriminate].
Qed.

Lemma find_fresh_none (l : list string) :
  find (not_asked asked) l = None <-> Forall (fun x => In x asked) l.
Proof.
  induction l as [|x l IH]; simpl.
  - split; [constructor | reflexivity].
  - unfold not_asked at 1. destruct (Py.mem x asked) eqn:Hx; simpl.
    + rewrite IH. split.
      * intros H. constructor; [apply mem_true_iff; exact Hx | exact H].
      * intros H. exact (Forall_inv_tail H).
    + split; [discriminate|]. intros H. apply Forall_inv in H.
      apply mem_true_iff in H. congruence.
Qed.

End Unasked.

Lemma unasked_zero (asked l : list string) :
  unasked asked l = 0%nat <-> find (not_asked asked) l = None.
Proof.
  unfold unasked. induction l as [|x l IH]; simpl; [tauto|].
  destruct (not_asked asked x); simpl; [split; discriminate | exact IH].
Qed.

Lemma unasked_mono (asked asked' l : list string) :
  incl asked asked' -> (unasked asked' l <= unasked asked l)%nat.
Proof.
  intros Hincl. unfold unasked, not_asked. induction l as [|x l IH]; simpl; [lia|].
  destruct (Py.mem x asked) eqn:Hx; simpl.
  - apply mem_true_iff in Hx. apply Hincl in Hx. apply mem_true_iff in Hx.
    rewrite Hx. simpl. exact IH.
  - destruct (Py.mem x asked'); simpl; lia.
Qed.

Lemma unasked_decreases (asked asked' l : list string) (q : string) :
  incl asked asked' -> In q l -> ~ In q asked -> In q asked' ->
  (unasked asked' l < unasked asked l)%nat.
Proof.
  intros Hincl Hq Hno Hyes. unfold unasked, not_asked.
  induction l as [|x l IH]; simpl; [destruct Hq|].
  pose proof (unasked_mono asked asked' l Hincl) as Hmono.
  unfold unasked, not_asked in Hmono.
  destruct Hq as [->|Hq].
  - apply mem_false_iff in Hno. apply mem_true_iff in Hyes.
    rewrite Hno, Hyes. simpl. lia.
  - specialize (IH Hq).
    destruct (Py.mem x asked) eqn:Hx; simpl.
    + apply mem_true_iff in Hx. apply Hincl in Hx. apply mem_true_iff in Hx.
      rewrite Hx. simpl. exact IH.
    + destruct (Py.mem x asked'); simpl; lia.
Qed.

Lemma unasked_le_length (asked l : list string) : (unasked asked l <= length l)%nat.
Proof.
  unfold unasked. induction l as [|x l IH]; simpl; [lia|].
  destruct (not_asked asked x); simpl; lia.
Qed.

(** C3.  [generate_next] returns the first question of the resolved
    template set, in declared order, that is not in [asked]: the result
    is never in [asked] and every question before it is; it returns
    [None] exactly when every question of the set is in [asked].  Along
    any growing sequence of asked lists that takes in each question
    returned, the result is [None] from step [length T] on, [T] being the
    questions of the set. *)
Theorem generate_next_first_unasked
    (ct : string) (g : KnowledgeGraph) (asked : list string) :
  let T := all_questions (resolve_templates ct g) in
  generate_next ct g asked = find (not_asked asked) T /\
  (forall q, generate_next ct g asked = Some q ->
     ~ In q asked /\
     exists pre post, T = pre ++ q :: post /\ Forall (fun x => In x asked) pre) /\
  (generate_next ct g asked = None <-> Forall (fun q => In q asked) T) /\
  (forall hist : nat -> list string,
     (forall i, incl (hist i) (hist (S i))) ->
     (forall i q, generate_next ct g (hist i) = Some q -> In q (hist (S i))) ->
     forall j, (length T <= j)%nat -> generate_next ct g (hist j) = None).
Proof.
  intros T.
  assert (Hfind : forall a, generate_next ct g a = find (not_asked a) T)
    by (intros a; apply first_missing_find).
  split; [apply Hfind|]. split; [|split].
  - intros q Hq. rewrite Hfind in Hq. exact (find_fresh_split asked T q Hq).
  - rewrite Hfind. apply find_fresh_none.
  - intros hist Hgrow Htake.
    assert (Hm : forall i, (unasked (hist i) T <= length T - i)%nat).
    { induction i as [|i IH].
      - pose proof (unasked_le_length (hist 0%nat) T). lia.
      - destruct (generate_next ct g (hist i)) as [q|] eqn:Hq.
        + pose proof (Htake i q Hq) as Hin. rewrite Hfind in Hq.
          destruct (find_fresh_split (hist i) T q Hq) as (Hno & pre & post & E & _).
          assert (HqT : In q T)
            by (rewrite E; apply in_or_app; right; left; reflexivity).
          pose proof (unasked_decreases (hist i) (hist (S i)) T q (Hgrow i) HqT Hno Hin).
          lia.
        + rewrite Hfind in Hq. apply unasked_zero in Hq.
          pose proof (unasked_mono (hist i) (hist (S i)) T (Hgrow i)). lia. }
    intros j Hj. rewrite Hfind. apply unasked_zero.
    specialize (Hm j). lia.
Qed.

(** The five questions of the general template set, asked one after
    the other: the sixth call returns [None]. *)
Lemma generate_next_first_unasked_witness :
  let T := all_questions (resolve_templates "general" KnowledgeGraph_init) in
  length T = 5%nat /\
  generate_next "general" KnowledgeGraph_init (take 0 T) =
    Some "Please describe your legal issue in detail" /\
  generate_next "general" KnowledgeGraph_init (take 5 T) = None.
Proof.
  intros T.
  destruct (generate_next_first_unasked "general" KnowledgeGraph_init (take 0 T))
    as (_ & _ & _ & Hlast).
  split; [reflexivity|]. split; [vm_compute; reflexivity|].
  apply (Hlast (fun i => take i T)).
  - intros i. do 6 (destruct i as [|i]; [vm_compute; tauto|]).
    vm_compute. tauto.
  - intros i. do 5 (destruct i as [|i]; [vm_compute; intros q [= <-]; tauto|]).
    vm_compute. intros q [=].
  - vm_compute. lia.
Defined.

(** ** Extraction *)

Lemma filter_filter_bool {A : Type} (f h : A -> bool) (l : list A) :
  List.filter f (List.filter h l) = List.filter (fun x => h x && f x) l.
Proof.
  induction l as [|x l IH]; [reflexivity|]. simpl.
  destruct (h x); simpl; [destruct (f x)|]; rewrite IH; reflexivity.
Qed.

Lemma fromkeys_from (l acc : list string) :
  fold_left (fun acc x => if Py.mem x acc then acc else acc ++ [x]) l acc =
  acc ++ List.filter (fun y => negb (Py.mem y acc)) (first_seen l).
Proof.
  revert acc. induction l as [|x l IH]; intros acc.
  - simpl. rewrite app_nil_r. reflexivity.
  - cbn [fold_left first_seen List.filter]. destruct (Py.mem x acc) eqn:Hx.
    + rewrite IH. cbn [negb]. f_equal. rewrite filter_filter_bool.
      apply filter_ext. intros y.
      destruct (String.eqb_spec y x) as [->|Hne]; cbn [negb andb].
      * rewrite Hx. reflexivity.
      * reflexivity.
    + rewrite IH. cbn [negb]. rewrite <- app_assoc. cbn [app]. do 2 f_equal.
      rewrite filter_filter_bool. apply filter_ext. intros y.
      rewrite mem_snoc, negb_orb. apply andb_comm.
Qed.

(** [list(dict.fromkeys(l))] keeps the first occurrence of every value. *)
Lemma fromkeys_first_seen (l : list string) : Py.fromkeys l = first_seen l.
Proof.
  unfold Py.fromkeys. rewrite fromkeys_from. cbn [app].
  rewrite <- (filter_ext (fun _ => true)) by reflexivity.
  induction (first_seen l) as [|x r IH]; [reflexivity|].
  simpl. f_equal. exact IH.
Qed.

Lemma first_seen_In (l : list string) (x : string) : In x (first_seen l) <-> In x l.
Proof.
  induction l as [|y l IH]; [reflexivity|]. cbn [first_seen]. simpl.
  rewrite filter_In, IH.
  destruct (String.eqb_spec x y) as [->|Hne]; simpl.
  - split; [intros _; left; reflexivity | intros _; left; reflexivity].
  - split.
    + intros [->|[H _]]; [congruence | right; exact H].
    + intros [->|H]; [congruence | right; split; [exact H | reflexivity]].
Qed.

Lemma first_seen_NoDup (l : list string) : List.NoDup (first_seen l).
Proof.
  induction l as [|x l IH]; cbn [first_seen]; constructor.
  - rewrite filter_In. intros [_ H].
    rewrite String.eqb_refl in H. discriminate H.
  - apply List.NoDup_filter. exact IH.
Qed.

Lemma first_seen_length (l : list string) : (length (first_seen l) <= length l)%nat.
Proof.
  induction l as [|x l IH]; cbn [first_seen length]; [lia|].
  pose proof (filter_length_le (fun y => negb (String.eqb y x)) (first_seen l)). lia.
Qed.

Lemma extract_raw_shape (text : string) :
  extract_raw text =
    [ ("dates", take 3 (Re.findall date_re text) ++ Re.findall month_re text);
      ("locations", take 4 (Re.findall location_re text));
      ("values", take 3 (Re.findall value_re text));
      ("items", take 4 (items_found text));
      ("parties", []) ].
Proof.
  unfold extract_raw, items_found.
  generalize (Re.findall date_re text) (Re.findall month_re text)
             (Re.findall value_re text) (Re.findall location_re text)
             (List.filter (fun kw => Py.contains (Py.lower kw) (Py.lower text))
                          item_keywords).
  intros numeric months money places things. reflexivity.
Qed.

Lemma extract_shape (text : string) :
  extract text =
    [ ("dates", first_seen (take 3 (Re.findall date_re text) ++ Re.findall month_re text));
      ("locations", first_seen (take 4 (Re.findall location_re text)));
      ("values", first_seen (take 3 (Re.findall value_re text)));
      ("items", first_seen (take 4 (items_found text)));
      ("parties", []) ].
Proof.
  unfold extract. rewrite extract_raw_shape. cbn [map].
  rewrite !fromkeys_first_seen. reflexivity.
Qed.

(** C8.  Every list [extract] returns is the first-seen deduplication of
    what its rule found, so it has no duplicate.  The caps are applied
    before the deduplication: three numeric dates (the month-name dates
    are appended without a cap), three money values, four locations and
    four items; the lists of values, locations and items returned are
    within these caps.  The empty text, and any text on which no rule
    finds anything, gives five empty lists. *)
Theorem extract_deduplicated_and_capped (text : string) :
  let numeric := take 3 (Re.findall date_re text) in
  let months := Re.findall month_re text in
  let money := take 3 (Re.findall value_re text) in
  let places := take 4 (Re.findall location_re text) in
  let things := take 4 (items_found text) in
  let out := extract text in
  out = [ ("dates", first_seen (numeric ++ months));
          ("locations", first_seen places);
          ("values", first_seen money);
          ("items", first_seen things);
          ("parties", []) ] /\
  Forall (fun kv => List.NoDup (snd kv)) out /\
  (length numeric <= 3 /\ length money <= 3 /\
   length places <= 4 /\ length things <= 4)%nat /\
  (length (Dict.get_or out "values" []) <= 3 /\
   length (Dict.get_or out "locations" []) <= 4 /\
   length (Dict.get_or out "items" []) <= 4)%nat /\
  extract EmptyString = no_entities /\
  (Re.findall date_re text = [] -> Re.findall month_re text = [] ->
   Re.findall value_re text = [] -> Re.findall location_re text = [] ->
   items_found text = [] -> out = no_entities).
Proof.
  intros numeric months money places things out.
  assert (Hout : out = [ ("dates", first_seen (numeric ++ months));
                         ("locations", first_seen places);
                         ("values", first_seen money);
                         ("items", first_seen things);
                         ("parties", []) ]) by apply extract_shape.
  assert (Hcaps : (length numeric <= 3 /\ length money <= 3 /\
                   length places <= 4 /\ length things <= 4)%nat).
  { subst numeric money places things. rewrite !length_take. lia. }
  split; [exact Hout|]. split; [|split; [exact Hcaps|split; [|split]]].
  - rewrite Hout. repeat constructor; cbn [snd]; apply first_seen_NoDup.
  - assert (Hv : Dict.get_or out "values" [] = first_seen money)
      by (rewrite Hout; reflexivity).
    assert (Hl : Dict.get_or out "locations" [] = first_seen places)
      by (rewrite Hout; reflexivity).
    assert (Hi : Dict.get_or out "items" [] = first_seen things)
      by (rewrite Hout; reflexivity).
    rewrite Hv, Hl, Hi.
    pose proof (first_seen_length money). pose proof (first_seen_length places).
    pose proof (first_seen_length things). lia.
  - vm_compute. reflexivity.
  - intros H1 H2 H3 H4 H5. rewrite Hout.
    subst numeric months money places things.
    rewrite H1, H2, H3, H4, H5. reflexivity.
Qed.

(** A text on which no rule finds anything. *)
Lemma extract_deduplicated_and_capped_witness :
  extract "nothing to report so far" = no_entities.
Proof.
  destruct (extract_deduplicated_and_capped "nothing to report so far")
    as (_ & _ & _ & _ & _ & Hnone).
  apply Hnone; vm_compute; reflexivity.
Defined.

(** Two texts: a repeated date is kept once, and month-name dates come
    on top of the three numeric ones. *)
Example extract_sample :
  extract "On 12/03/2021 near Connaught Place my phone and Rs. 5,000 were taken; FIR filed on March 5, 2021 and again on 12/03/2021" =
    [ ("dates", ["12/03/2021"; "March 5, 2021"]);
      ("locations", ["On"; "Connaught Place"; "Rs"; "March"]);
      ("values", ["Rs. 5,000"]);
      ("items", ["phone"; "FIR"]);
      ("parties", []) ] /\
  Dict.get (extract "1/2/2020 3/4/2021 5/6/2022 7/8/2023 May 1 June 2 July 3") "dates" =
    Some ["1/2/2020"; "3/4/2021"; "5/6/2022"; "May 1"; "June 2"; "July 3"].
Proof. split; vm_compute; reflexivity. Qed.

(** C10.  The dictionary [extract] returns has the five keys dates,
    locations, values, items and parties, in this order, and the list
    under [parties] is empty for every text. *)
Theorem extract_parties_always_empty (text : string) :
  Dict.keys (extract text) = ["dates"; "locations"; "values"; "items"; "parties"] /\
  Dict.get (extract text) "parties" = Some [].
Proof.
  rewrite extract_shape. split; reflexivity.
Qed.

(** ** Reports *)

Lemma append_truthy (a b : string) :
  Py.truthy a = true -> a +:+ b <> EmptyString.
Proof. destruct a; [discriminate | intros _; discriminate]. Qed.

Lemma append_cancel_l (a b c : string) : a +:+ b = a +:+ c -> b = c.
Proof.
  induction a as [|x a IH]; simpl; [trivial|].
  intros [= H]. exact (IH H).
Qed.

Lemma length_append (a b : string) :
  String.length (a +:+ b) = (String.length a + String.length b)%nat.
Proof. induction a as [|x a IH]; simpl; [reflexivity | now rewrite IH]. Qed.

Lemma append_cancel_r (a b s : string) : a +:+ s = b +:+ s -> a = b.
Proof.
  intros H.
  assert (Hlen : String.length a = String.length b).
  { apply (f_equal String.length) in H. rewrite !length_append in H. lia. }
  revert b H Hlen. induction a as [|x a IH]; intros [|y b] H Hlen; simpl in *;
    try discriminate; [reflexivity|].
  injection H as -> H. f_equal. apply IH; [exact H | lia].
Qed.

Lemma generate_template_report_truthy (now ct subtype situation facts : string) :
  _generate_template_report now ct subtype situation facts <> EmptyString.
Proof. unfold _generate_template_report. apply append_truthy. reflexivity. Qed.

(** The dispatch of [_generate_enhanced_report] ends in one of three
    builders; a relation between two reports built at two clock texts
    holds as soon as it holds for each builder. *)
Lemma generate_enhanced_report_cases (R : string -> string -> Prop)
    (now1 now2 ct subtype situation facts : string) (g : KnowledgeGraph) :
  (forall d l v i,
     R (_analyze_robbery_case now1 situation d l v i facts)
       (_analyze_robbery_case now2 situation d l v i facts)) ->
  (forall d l v,
     R (_analyze_property_case now1 situation d l v facts)
       (_analyze_property_case now2 situation d l v facts)) ->
  (forall c s,
     R (_generate_template_report now1 c s situation facts)
       (_generate_template_report now2 c s situation facts)) ->
  R (_generate_enhanced_report now1 ct subtype situation facts g)
    (_generate_enhanced_report now2 ct subtype situation facts g).
Proof.
  intros Hrob Hprop Htpl. unfold _generate_enhanced_report.
  destruct (String.eqb ct "criminal" && String.eqb subtype "robbery"); [apply Hrob|].
  destruct (String.eqb ct "criminal" && String.eqb subtype "theft"); [apply Htpl|].
  destruct (String.eqb ct "criminal" && String.eqb subtype "murder"); [apply Htpl|].
  destruct (String.eqb ct "criminal" && String.eqb subtype "assault"); [apply Htpl|].
  destruct (String.eqb ct "property"); [apply Hprop|].
  destruct (String.eqb ct "family"); [apply Htpl|].
  destruct (String.eqb ct "contract"); [apply Htpl|].
  apply Htpl.
Qed.

(** Every report is a non-empty text. *)
Lemma analyze_nonempty (now ct : string) (g : KnowledgeGraph) :
  analyze now ct g <> EmptyString.
Proof.
  unfold analyze.
  apply (generate_enhanced_report_cases (fun r _ => r <> EmptyString) now now).
  - intros d l v i. unfold _analyze_robbery_case. apply append_truthy. reflexivity.
  - intros d l v. unfold _analyze_property_case. apply append_truthy. reflexivity.
  - intros c s. apply generate_template_report_truthy.
Qed.

Lemma generate_template_report_clock (now1 now2 ct subtype situation facts : string) :
  _generate_template_report now1 ct subtype situation facts =
  _generate_template_report now2 ct subtype situation facts ->
  now1 = now2.
Proof.
  unfold _generate_template_report. intros H.
  do 5 apply append_cancel_l in H.
  exact (append_cancel_r _ _ _ H).
Qed.

(** Two reports on the same case type and graph are equal only when
    the clock texts they carry are. *)
Lemma analyze_clock (now1 now2 ct : string) (g : KnowledgeGraph) :
  analyze now1 ct g = analyze now2 ct g -> now1 = now2.
Proof.
  unfold analyze.
  apply (generate_enhanced_report_cases (fun r1 r2 => r1 = r2 -> now1 = now2)).
  - intros d l v i. unfold _analyze_robbery_case. intros H.
    apply append_cancel_l in H. exact (append_cancel_r _ _ _ H).
  - intros d l v. unfold _analyze_property_case. intros H.
    apply append_cancel_l in H. exact (append_cancel_r _ _ _ H).
  - intros c s. apply generate_template_report_clock.
Qed.

(** ** Sessions *)

Lemma dict_get_In {V : Type} (d : list (string * V)) (k : string) (v : V) :
  Dict.get d k = Some v -> In v (Dict.values d).
Proof.
  induction d as [|[k' v'] d IH]; simpl; [discriminate|].
  destruct (String.eqb k k'); [intros [= ->]; left; reflexivity | right; auto].
Qed.

Lemma templates_well_formed :
  forallb well_formed (Dict.values QUESTION_TEMPLATES) = true.
Proof. vm_compute. reflexivity. Qed.

Lemma lookup_well_formed (k : string) (dflt : template_set) :
  well_formed dflt = true ->
  well_formed (Dict.get_or QUESTION_TEMPLATES k dflt) = true.
Proof.
  intros Hd. unfold Dict.get_or.
  destruct (Dict.get QUESTION_TEMPLATES k) as [t|] eqn:E; [|exact Hd].
  apply dict_get_In in E.
  pose proof templates_well_formed as H. rewrite forallb_forall in H. auto.
Qed.

Lemma resolve_templates_well_formed (ct : string) (g : KnowledgeGraph) :
  well_formed (resolve_templates ct g) = true.
Proof.
  unfold resolve_templates.
  destruct (String.eqb ct "criminal"); apply lookup_well_formed; reflexivity.
Qed.

(** A question that [generate_next] returns is not the empty string. *)
Lemma generate_next_truthy (ct : string) (g : KnowledgeGraph)
    (asked : list string) (q : string) :
  generate_next ct g asked = Some q -> Py.truthy q = true.
Proof.
  unfold generate_next. rewrite first_missing_find. intros H.
  apply find_some in H. destruct H as [Hin _].
  pose proof (resolve_templates_well_formed ct g) as Hwf.
  unfold well_formed in Hwf. rewrite forallb_forall in Hwf. auto.
Qed.

Lemma generate_next_unasked (ct : string) (g : KnowledgeGraph)
    (asked : list string) (q : string) :
  generate_next ct g asked = Some q -> ~ In q asked.
Proof.
  unfold generate_next. rewrite first_missing_find. intros H.
  exact (proj1 (find_fresh_split asked _ q H)).
Qed.

(** The two results [answer_session] has on a known session. *)
Lemma answer_session_known (now : string) (sessions : gmap string Session)
    (sid answer : string) (st : Session) :
  sessions !! sid = Some st ->
  let g := absorb_answer (kg st) answer in
  let rep := analyze now (case_type st) g in
  ((turns_done st + 1 < max_turns st)%Z /\
   exists q,
     generate_next (case_type st) g (asked_questions st) = Some q /\
     answer_session now sessions sid answer =
       (<[sid := answered st answer (asked_questions st ++ [q]) (finished st)]> sessions,
        inr {| session_id := None; next_action := "ask"; question := Some q;
               partial_report := Some rep; report := None; structured := None |})) \/
  (((max_turns st <= turns_done st + 1)%Z \/
    generate_next (case_type st) g (asked_questions st) = None) /\
   answer_session now sessions sid answer =
     (<[sid := answered st answer (asked_questions st) true]> sessions,
      inr {| session_id := None; next_action := "final"; question := None;
             partial_report := None; report := Some rep;
             structured := Some [] |})).
Proof.
  intros Hst g rep. unfold answer_session. rewrite Hst. fold g. fold rep.
  destruct (Z.ltb_spec (turns_done st + 1) (max_turns st)) as [Hlt|Hge].
  - destruct (generate_next (case_type st) g (asked_questions st)) as [q|] eqn:Hq.
    + rewrite (generate_next_truthy _ _ _ _ Hq).
      left. split; [exact Hlt|]. exists q. split; reflexivity.
    + right. split; [right; reflexivity | reflexivity].
  - right. split; [left; exact Hge | reflexivity].
Qed.

(** The start of the scenario: the query is a criminal matter of subtype
    robbery, and the first question is the first of the robbery set. *)
Example scenario_start :
  let out := start_session Scenario.clock Scenario.sid ∅
               "robbery happened yesterday at my shop" 3 in
  initial_classify "robbery happened yesterday at my shop" = ("criminal", (1 / 5)%float) /\
  detect_crime_subtype "robbery happened yesterday at my shop" = "robbery" /\
  next_action (snd out) = "ask" /\
  question (snd out) = Some "When did the robbery occur?".
Proof. vm_compute. repeat split; reflexivity. Qed.

(** C4.  On a known session [answer_session] appends the answer,
    adds one to [turns_done] and takes the answer into the graph.  If the
    new [turns_done] is below [max_turns] and [generate_next] has a
    question, the question is new, it is recorded as asked and the
    response is [ask] with the question and a partial report.  Otherwise
    the session is finished and the response is [final] with the report
    and an empty [structured].  When the new [turns_done] equals
    [max_turns] the response is [final]; the report is never empty. *)
Theorem answer_session_turn (now : string) (sessions : gmap string Session)
    (sid answer : string) (st : Session) :
  sessions !! sid = Some st ->
  let g := absorb_answer (kg st) answer in
  let turns := (turns_done st + 1)%Z in
  let rep := analyze now (case_type st) g in
  let next := generate_next (case_type st) g (asked_questions st) in
  exists st' resp,
    answer_session now sessions sid answer = (<[sid := st']> sessions, inr resp) /\
    query_history st' = query_history st ++ [answer] /\
    turns_done st' = turns /\
    kg st' = g /\
    case_type st' = case_type st /\
    max_turns st' = max_turns st /\
    (((turns < max_turns st)%Z /\
      exists q,
        next = Some q /\ ~ In q (asked_questions st) /\
        asked_questions st' = asked_questions st ++ [q] /\
        finished st' = finished st /\
        resp = {| session_id := None; next_action := "ask"; question := Some q;
                  partial_report := Some rep; report := None;
                  structured := None |}) \/
     (((max_turns st <= turns)%Z \/ next = None) /\
      asked_questions st' = asked_questions st /\
      finished st' = true /\
      resp = {| session_id := None; next_action := "final"; question := None;
                partial_report := None; report := Some rep;
                structured := Some [] |})) /\
    (turns = max_turns st -> next_action resp = "final" /\ report resp = Some rep) /\
    rep <> EmptyString.
Proof.
  intros Hst g turns rep next.
  destruct (answer_session_known now sessions sid answer st Hst)
    as [(Hlt & q & Hq & Hres) | (Hwhy & Hres)].
  - exists (answered st answer (asked_questions st ++ [q]) (finished st)).
    eexists. split; [exact Hres|]. do 5 (split; [reflexivity|]).
    split; [|split].
    + left. split; [exact Hlt|]. exists q. split; [exact Hq|].
      split; [exact (generate_next_unasked _ _ _ _ Hq)|].
      split; [reflexivity|]. split; reflexivity.
    + intros Heq. subst turns. lia.
    + apply analyze_nonempty.
  - exists (answered st answer (asked_questions st) true).
    eexists. split; [exact Hres|]. do 5 (split; [reflexivity|]).
    split; [|split].
    + right. split; [exact Hwhy|]. split; [reflexivity|]. split; reflexivity.
    + intros _. split; reflexivity.
    + apply analyze_nonempty.
Qed.

(** The third answer of the scenario makes [turns_done] reach
    [max_turns = 3]: the response is [final] and carries a report. *)
Lemma answer_session_turn_witness :
  exists st,
    Scenario.store2 !! Scenario.sid = Some st /\
    (turns_done st + 1)%Z = max_turns st /\
    exists st' resp,
      answer_session Scenario.clock Scenario.store2 Scenario.sid "yes knife was used" =
        (<[Scenario.sid := st']> Scenario.store2, inr resp) /\
      turns_done st' = 3%Z /\
      next_action resp = "final" /\
      exists rep, report resp = Some rep /\ rep <> EmptyString.
Proof.
  eassert (Hst : Scenario.store2 !! Scenario.sid = Some _)
    by (vm_compute; reflexivity).
  eexists. split; [exact Hst|]. split; [reflexivity|].
  destruct (answer_session_turn Scenario.clock Scenario.store2 Scenario.sid
              "yes knife was used" _ Hst)
    as (st' & resp & Hres & _ & Hturns & _ & _ & _ & _ & Hfinal & Hrep).
  exists st', resp. split; [exact Hres|]. split; [exact Hturns|].
  destruct (Hfinal eq_refl) as [Hact Hreport].
  split; [exact Hact|]. eexists. split; [exact Hreport | exact Hrep].
Defined.

(** C1, as the code has it.  [answer_session] never reads the
    [finished] flag and never resets it.  On a session whose flag is set
    it still appends the answer to the history, adds one to [turns_done]
    and takes the answer into the graph; the flag stays set. *)
Theorem answer_session_on_finished (now : string) (sessions : gmap string Session)
    (sid answer : string) (st : Session) :
  sessions !! sid = Some st ->
  finished st = true ->
  exists st' resp,
    answer_session now sessions sid answer = (<[sid := st']> sessions, inr resp) /\
    query_history st' = query_history st ++ [answer] /\
    turns_done st' = (turns_done st + 1)%Z /\
    kg st' = absorb_answer (kg st) answer /\
    finished st' = true.
Proof.
  intros Hst Hfin.
  destruct (answer_session_known now sessions sid answer st Hst)
    as [(_ & q & _ & Hres) | (_ & Hres)].
  - do 2 eexists. split; [exact Hres|]. cbn. rewrite Hfin. auto.
  - do 2 eexists. split; [exact Hres|]. cbn. auto.
Qed.

(** After its three answers the session of the scenario is finished; a
    fourth answer is processed all the same. *)
Lemma answer_session_on_finished_witness :
  exists st,
    Scenario.store3 !! Scenario.sid = Some st /\
    finished st = true /\
    exists st' resp,
      answer_session Scenario.clock Scenario.store3 Scenario.sid "they took my phone" =
        (<[Scenario.sid := st']> Scenario.store3, inr resp) /\
      length (query_history st') = 5%nat /\
      turns_done st' = 4%Z /\
      finished st' = true.
Proof.
  eassert (Hst : Scenario.store3 !! Scenario.sid = Some _)
    by (vm_compute; reflexivity).
  eexists. split; [exact Hst|]. split; [reflexivity|].
  destruct (answer_session_on_finished Scenario.clock Scenario.store3 Scenario.sid
              "they took my phone" _ Hst eq_refl)
    as (st' & resp & Hres & Hhist & Hturns & _ & Hfin).
  exists st', resp. split; [exact Hres|].
  split; [rewrite Hhist; reflexivity|]. split; [exact Hturns | exact Hfin].
Defined.

(** C1, counterexample.  The session of the scenario is finished after
    its third answer.  A fourth call of [answer_session] on it appends to
    the history, raises [turns_done] from 3 to 4 and adds an item to the
    graph, which had no entity before. *)
Lemma finished_session_accepts_answer :
  exists st st' resp,
    Scenario.store3 !! Scenario.sid = Some st /\
    finished st = true /\
    answer_session Scenario.clock Scenario.store3 Scenario.sid "they took my phone" =
      (<[Scenario.sid := st']> Scenario.store3, inr resp) /\
    query_history st' = query_history st ++ ["they took my phone"] /\
    turns_done st = 3%Z /\ turns_done st' = 4%Z /\
    entities (kg st) = [] /\
    entities (kg st') = [("items", ["phone"])].
Proof.
  do 3 eexists. split; [vm_compute; reflexivity|]. split; [reflexivity|].
  split; [vm_compute; reflexivity|]. repeat split; reflexivity.
Qed.

(** C7.  [answer_session] raises [KeyError("session not found")]
    exactly when the identifier is not in the store; this is the only
    error it raises, and the store is then the one it was given.  The
    route catches the error and answers 404, the store untouched. *)
Theorem answer_session_not_found (now : string) (sessions : gmap string Session)
    (sid answer : string) :
  (snd (answer_session now sessions sid answer) = inl (KeyError "session not found")
   <-> sessions !! sid = None) /\
  (forall e, snd (answer_session now sessions sid answer) = inl e ->
     e = KeyError "session not found" /\
     fst (answer_session now sessions sid answer) = sessions) /\
  (forall iso_now e,
     snd (answer_session now sessions sid answer) = inl e ->
     consult_answer now iso_now sessions sid answer =
       (sessions, inl (HTTPException 404 "session not found"))).
Proof.
  destruct (sessions !! sid) as [st|] eqn:Hst.
  - assert (Hok : exists s r, answer_session now sessions sid answer = (s, inr r)).
    { destruct (answer_session_known now sessions sid answer st Hst)
        as [(_ & q & _ & Hres) | (_ & Hres)]; rewrite Hres; eauto. }
    destruct Hok as (s & r & Hres). rewrite Hres. cbn [fst snd].
    split; [split; discriminate|]. split; intros; discriminate.
  - unfold consult_answer, answer_session. rewrite Hst. cbn [fst snd].
    split; [split; reflexivity|]. split.
    + intros e [= <-]. split; reflexivity.
    + intros _ e _. reflexivity.
Qed.

(** The unknown identifier of the specification on the store of the
    scenario. *)
Lemma answer_session_not_found_witness :
  Scenario.store1 !! "nonexistent-id" = None /\
  answer_session Scenario.clock Scenario.store1 "nonexistent-id" "x" =
    (Scenario.store1, inl (KeyError "session not found")) /\
  consult_answer Scenario.clock "2025-01-15T10:30:00" Scenario.store1 "nonexistent-id" "x" =
    (Scenario.store1, inl (HTTPException 404 "session not found")).
Proof.
  assert (Hnone : Scenario.store1 !! "nonexistent-id" = None)
    by (vm_compute; reflexivity).
  destruct (answer_session_not_found Scenario.clock Scenario.store1 "nonexistent-id" "x")
    as (Hiff & Hsame & Hroute).
  pose proof (proj2 Hiff Hnone) as Herr.
  destruct (Hsame _ Herr) as [_ Hstore].
  split; [exact Hnone|]. split.
  - rewrite (surjective_pairing (answer_session _ _ _ _)), Herr, Hstore. reflexivity.
  - exact (Hroute _ _ Herr).
Defined.

(** C9, as the code has it.  Classification, extraction and question
    selection give equal results on equal arguments.  A report also
    carries the clock text read when it is built: two reports on the same
    case type and graph are equal exactly when their clock texts are. *)
Theorem deterministic_up_to_the_clock :
  (forall q q', q = q' -> initial_classify q = initial_classify q') /\
  (forall t t', t = t' -> extract t = extract t') /\
  (forall ct ct' g g' asked asked',
     ct = ct' -> g = g' -> asked = asked' ->
     generate_next ct g asked = generate_next ct' g' asked') /\
  (forall now1 now2 ct g, analyze now1 ct g = analyze now2 ct g <-> now1 = now2).
Proof.
  split; [intros q q' ->; reflexivity|].
  split; [intros t t' ->; reflexivity|].
  split; [intros ct ct' g g' asked asked' -> -> ->; reflexivity|].
  intros now1 now2 ct g.
  split; [apply analyze_clock | intros ->; reflexivity].
Qed.

(** Two renderings of the empty graph as a property matter: equal at
    one clock text, different a minute apart. *)
Lemma deterministic_up_to_the_clock_witness :
  analyze "2025-01-15 10:30:00" "property" KnowledgeGraph_init =
  analyze "2025-01-15 10:30:00" "property" KnowledgeGraph_init /\
  analyze "2025-01-15 10:30:00" "property" KnowledgeGraph_init <>
  analyze "2025-01-15 10:31:00" "property" KnowledgeGraph_init.
Proof.
  destruct deterministic_up_to_the_clock as (_ & _ & _ & Hclock).
  split; [apply Hclock; reflexivity|].
  intros H. apply Hclock in H. discriminate H.
Defined.

(** C9, counterexample.  The same case type and graph rendered one
    second apart give two different reports. *)
Lemma analyze_differs_across_seconds :
  analyze "2025-01-15 10:30:00" "general" KnowledgeGraph_init <>
  analyze "2025-01-15 10:30:01" "general" KnowledgeGraph_init.
Proof.
  intros H. apply analyze_clock in H. discriminate H.
Qed.

(** * Further properties *)

(** ** Substrings *)










(** ** Facts and summary *)

Lemma join_cons (sep x : string) (l : list string) :
  Py.join sep (x :: l) =
  match l with [] => x | _ :: _ => x +:+ sep +:+ Py.join sep l end.
Proof. reflexivity. Qed.

Lemma join_contains (sep n x : string) (l : list string) :
  Py.contains n x = true -> Py.contains n (Py.join sep (x :: l)) = true.
Proof.
  intros H. rewrite join_cons. destruct l; [exact H|].
  apply contains_append_l, H.
Qed.

Lemma contains_nonempty (n h : string) :
  Py.truthy n = true -> Py.contains n h = true -> h <> EmptyString.
Proof.
  intros Hn Hc ->. destruct n; [discriminate|]. discriminate Hc.
Qed.

Lemma filter_has_values_nil (d : list (string * list string)) :
  List.filter has_values d = [] <-> Forall (fun kv => snd kv = []) d.
Proof.
  induction d as [|[k v] d IH]; simpl.
  - split; [constructor | reflexivity].
  - unfold has_values at 1. cbn [snd]. destruct v as [|x v].
    + rewrite IH. split; [intros H; constructor; [reflexivity | exact H]
                         | intros H; exact (Forall_inv_tail H)].
    + split; [discriminate|]. intros H. apply Forall_inv in H. discriminate H.
Qed.




Lemma summary_parts_unfold (g : KnowledgeGraph) :
  summary_parts g =
  map (fun kv => Py.upper (fst kv) +:+ ": " +:+ Py.join ", " (take 3 (snd kv)))
      (List.filter has_values (entities g))
  ++ match context g !! "situation" with
     | Some situation =>
         if Py.truthy situation
         then ["SITUATION: " +:+ substring 0 200 situation]
         else []
     | None => []
     end.
Proof.
  unfold summary_parts. f_equal.
  induction (entities g) as [|[k v] d IH]; [reflexivity|].
  cbn [List.filter]. unfold has_values at 1. cbn [snd].
  destruct v; [exact IH|]. cbn [map fst snd]. f_equal. exact IH.
Qed.

Lemma summary_parts_marked (g : KnowledgeGraph) :
  Forall (fun part => Py.contains ": " part = true) (summary_parts g).
Proof.
  rewrite summary_parts_unfold. apply Forall_app. split.
  - apply List.Forall_forall. intros part Hin. apply in_map_iff in Hin.
    destruct Hin as (kv & <- & _). apply contains_append_r, contains_here.
  - destruct (context g !! "situation") as [s|]; [|constructor].
    destruct (Py.truthy s); repeat constructor.
    apply contains_append_l. reflexivity.
Qed.

Lemma substring_length (n : nat) (s : string) :
  String.length (substring 0 n s) = Nat.min n (String.length s).
Proof.
  revert s. induction n as [|n IH]; intros [|c s]; simpl; try reflexivity.
  f_equal. apply IH.
Qed.

Lemma substring_prefix_of (n : nat) (s : string) :
  String.prefix (substring 0 n s) s = true.
Proof.
  revert s. induction n as [|n IH]; intros [|c s]; simpl; try reflexivity.
  destruct (ascii_dec c c); [apply IH | congruence].
Qed.

Lemma append_assoc (a b c : string) : (a +:+ b) +:+ c = a +:+ b +:+ c.
Proof.
  induction a as [|x a IH]; [reflexivity|].
  change (String x ((a +:+ b) +:+ c) = String x (a +:+ b +:+ c)).
  f_equal. exact IH.
Qed.

(** What stands before the last joined string is empty or ends with the
    separator. *)
Lemma join_last (sep : string) (l : list string) (x : string) :
  exists pre,
    Py.join sep (l ++ [x]) = pre +:+ x /\
    (pre = EmptyString \/ exists before, pre = before +:+ sep).
Proof.
  induction l as [|y l IH].
  - exists EmptyString. split; [reflexivity | left; reflexivity].
  - destruct IH as (pre & E & Hpre). cbn [app]. rewrite join_cons.
    destruct (l ++ [x]) eqn:El; [destruct l; discriminate El|].
    rewrite E. exists (y +:+ sep +:+ pre). split.
    + rewrite !append_assoc. reflexivity.
    + right. destruct Hpre as [->|(before & ->)].
      * exists y. clear. induction sep as [|c sep IH]; [reflexivity|].
        change (y +:+ String c sep +:+ "" = y +:+ String c sep).
        f_equal. clear. induction (String c sep) as [|d u IHu]; [reflexivity|].
        change (String d (u +:+ "") = String d u). f_equal. exact IHu.
      * exists (y +:+ sep +:+ before). rewrite !append_assoc. reflexivity.
Qed.

(** A joined string stands in the result between separators. *)
Lemma join_In_framed (sep : string) (l : list string) (x : string) :
  In x l ->
  exists pre post,
    Py.join sep l = pre +:+ x +:+ post /\
    (pre = EmptyString \/ exists before, pre = before +:+ sep) /\
    (post = EmptyString \/ exists rest, post = sep +:+ rest).
Proof.
  induction l as [|y l IH]; [intros []|]. intros [->|Hin].
  - rewrite join_cons. destruct l as [|z l].
    + exists EmptyString, EmptyString. split; [|split; left; reflexivity].
      clear. induction x as [|c x IHx]; [reflexivity|].
      change (String c x = String c (x +:+ "")). f_equal. exact IHx.
    + exists EmptyString, (sep +:+ Py.join sep (z :: l)).
      split; [reflexivity|]. split; [left; reflexivity|].
      right. eexists. reflexivity.
  - destruct (IH Hin) as (pre & post & E & Hpre & Hpost).
    rewrite join_cons. destruct l as [|z l]; [destruct Hin|].
    rewrite E. exists (y +:+ sep +:+ pre), post. split; [|split; [|exact Hpost]].
    + rewrite !append_assoc. reflexivity.
    + right. destruct Hpre as [->|(before & ->)].
      * exists y. f_equal. clear.
        induction sep as [|c sep IHs]; [reflexivity|].
        change (String c (sep +:+ "") = String c sep). f_equal. exact IHs.
      * exists (y +:+ sep +:+ before). rewrite !append_assoc. reflexivity.
Qed.

(** X4.  [get_summary] never returns the empty string; it returns the
    placeholder exactly when no entity type has a value and there is no
    situation.  A situation is shown last, after a separator when
    something stands before it: its first 200 characters, or all of it
    when it is shorter.  Every entity type with a value is shown between
    separators, its name in capitals before its first three values. *)
Theorem get_summary_placeholder (g : KnowledgeGraph) :
  get_summary g <> EmptyString /\
  (get_summary g = "Knowledge graph empty" <->
   Forall (fun kv => snd kv = []) (entities g) /\
   Py.truthy (context_get g "situation" EmptyString) = false) /\
  (Py.truthy (context_get g "situation" EmptyString) = true ->
   exists pre shown,
     get_summary g = pre +:+ "SITUATION: " +:+ shown /\
     String.prefix shown (context_get g "situation" EmptyString) = true /\
     String.length shown =
       Nat.min 200 (String.length (context_get g "situation" EmptyString)) /\
     (pre = EmptyString \/ exists before, pre = before +:+ " | ")) /\
  (forall entity_type values,
     In (entity_type, values) (entities g) -> values <> [] ->
     exists pre post,
       get_summary g =
         pre
         +:+ (Py.upper entity_type +:+ ": " +:+ Py.join ", " (take 3 values))
         +:+ post /\
       (pre = EmptyString \/ exists before, pre = before +:+ " | ") /\
       (post = EmptyString \/ exists rest, post = " | " +:+ rest)).
Proof.
  pose proof (summary_parts_marked g) as Hmarked.
  assert (Hnil : summary_parts g = [] <->
                 Forall (fun kv => snd kv = []) (entities g) /\
                 Py.truthy (context_get g "situation" EmptyString) = false).
  { rewrite summary_parts_unfold, <- filter_has_values_nil. unfold context_get.
    destruct (List.filter has_values (entities g)) as [|kv d].
    - cbn [map app]. destruct (context g !! "situation") as [s|]; cbn [default]; unfold id.
      + destruct (Py.truthy s).
        * split; [discriminate | intros [_ H]; discriminate H].
        * split; [split; reflexivity | reflexivity].
      + split; [split; reflexivity | reflexivity].
    - split; [discriminate | intros [H _]; discriminate H]. }
  unfold get_summary. split; [|split; [|split]].
  - destruct (summary_parts g) as [|part parts]; [discriminate|].
    apply (contains_nonempty ": "); [reflexivity|].
    apply join_contains. exact (Forall_inv Hmarked).
  - rewrite <- Hnil. destruct (summary_parts g) as [|part parts].
    + split; reflexivity.
    + split; [|discriminate]. intros E. exfalso.
      assert (Hc : Py.contains ": " (Py.join " | " (part :: parts)) = true)
        by (apply join_contains; exact (Forall_inv Hmarked)).
      rewrite E in Hc. discriminate Hc.
  - intros Hs. rewrite summary_parts_unfold. unfold context_get in *.
    destruct (context g !! "situation") as [s|]; cbn [default] in *; unfold id in *;
      [|discriminate].
    rewrite Hs.
    set (l := map _ _).
    destruct (join_last " | " l ("SITUATION: " +:+ substring 0 200 s))
      as (pre & E & Hpre).
    exists pre, (substring 0 200 s).
    split; [|split; [apply substring_prefix_of | split; [apply substring_length | exact Hpre]]].
    destruct (l ++ ["SITUATION: " +:+ substring 0 200 s]) eqn:El;
      [destruct l; discriminate El|]. exact E.
  - intros entity_type values Hin Hval.
    assert (Hpart : In (Py.upper entity_type +:+ ": " +:+ Py.join ", " (take 3 values))
                       (summary_parts g)).
    { rewrite summary_parts_unfold. apply in_or_app. left.
      apply in_map_iff. exists (entity_type, values). split; [reflexivity|].
      apply filter_In. split; [exact Hin|].
      unfold has_values. cbn [snd]. destruct values; [congruence | reflexivity]. }
    destruct (summary_parts g) as [|part parts] eqn:Eparts; [destruct Hpart|].
    apply join_In_framed. exact Hpart.
Qed.

(** ** [strip] *)

Lemma lstrip_head (s : string) :
  Py.lstrip s = EmptyString \/
  exists c r, Py.lstrip s = String c r /\ Py.is_space c = false.
Proof.
  induction s as [|c s IH]; [left; reflexivity|]. cbn [Py.lstrip].
  destruct (Py.is_space c) eqn:E; [exact IH|]. right. eauto.
Qed.

Lemma lstrip_fixed (c : ascii) (r : string) :
  Py.is_space c = false -> Py.lstrip (String c r) = String c r.
Proof. intros H. cbn [Py.lstrip]. rewrite H. reflexivity. Qed.

Lemma rstrip_cons (c : ascii) (s : string) :
  Py.rstrip (String c s) =
  match Py.rstrip s with
  | EmptyString => if Py.is_space c then EmptyString else String c EmptyString
  | String _ _ => String c (Py.rstrip s)
  end.
Proof. cbn [Py.rstrip]. destruct (Py.rstrip s); reflexivity. Qed.

Lemma rstrip_idem (s : string) : Py.rstrip (Py.rstrip s) = Py.rstrip s.
Proof.
  induction s as [|c s IH]; [reflexivity|]. rewrite rstrip_cons.
  destruct (Py.rstrip s) as [|x r] eqn:E.
  - destruct (Py.is_space c) eqn:Hc; [reflexivity|].
    rewrite rstrip_cons. cbn [Py.rstrip]. rewrite Hc. reflexivity.
  - rewrite rstrip_cons, IH. reflexivity.
Qed.

Lemma rstrip_head (c : ascii) (s : string) :
  Py.is_space c = false -> exists r, Py.rstrip (String c s) = String c r.
Proof.
  intros H. rewrite rstrip_cons. destruct (Py.rstrip s); rewrite ?H; eauto.
Qed.

(** [strip] leaves nothing to strip. *)
Lemma strip_idem (s : string) : Py.strip (Py.strip s) = Py.strip s.
Proof.
  unfold Py.strip. destruct (lstrip_head s) as [E | (c & r & E & Hc)]; rewrite E.
  - reflexivity.
  - destruct (rstrip_head c r Hc) as (r' & E'). rewrite E'.
    rewrite (lstrip_fixed c r' Hc), <- E'. apply rstrip_idem.
Qed.

Lemma strip_clean (v : string) : Py.truthy (Py.strip v) = true -> clean (Py.strip v).
Proof. intros H. split; [apply strip_idem | exact H]. Qed.

(** ** The entity dictionary under [add_entity] *)

(** The two shapes of [d[k] = v] after [d[k]] was read on a
    [defaultdict]: the entry of [k] is replaced where it stands, or a new
    entry is put at the end. *)
Lemma set_touch_shape (d : list (string * list string)) (k : string) (new : list string) :
  (exists pre old post,
     d = pre ++ (k, old) :: post /\
     ~ In k (Dict.keys pre) /\
     Dict.get d k = Some old /\
     Dict.set (Dict.touch d k) k new = pre ++ (k, new) :: post) \/
  (~ In k (Dict.keys d) /\
   Dict.get d k = None /\
   Dict.set (Dict.touch d k) k new = d ++ [(k, new)]).
Proof.
  induction d as [|[k' v'] d IH].
  - right. split; [intros []|]. split; [reflexivity|].
    unfold Dict.touch. cbn. rewrite String.eqb_refl. reflexivity.
  - destruct (String.eqb_spec k k') as [<-|Hne].
    + left. exists [], v', d. split; [reflexivity|]. split; [intros []|].
      unfold Dict.touch. cbn [Dict.get]. rewrite String.eqb_refl.
      split; [reflexivity|]. cbn [Dict.set]. rewrite String.eqb_refl. reflexivity.
    + assert (Hget : Dict.get ((k', v') :: d) k = Dict.get d k).
      { cbn [Dict.get]. destruct (String.eqb_spec k k'); [contradiction | reflexivity]. }
      assert (Htouch : Dict.touch ((k', v') :: d) k = (k', v') :: Dict.touch d k).
      { unfold Dict.touch. rewrite Hget. destruct (Dict.get d k); reflexivity. }
      assert (Hset : Dict.set (Dict.touch ((k', v') :: d) k) k new =
                     (k', v') :: Dict.set (Dict.touch d k) k new).
      { rewrite Htouch. cbn [Dict.set].
        destruct (String.eqb_spec k k'); [contradiction | reflexivity]. }
      rewrite Hget, Hset.
      destruct IH as [(pre & old & post & E & Hpre & Hold & Hres) | (Hnew & Hnone & Hres)].
      * left. exists ((k', v') :: pre), old, post. rewrite E at 1.
        split; [reflexivity|]. split.
        -- cbn. intros [H|H]; [congruence | contradiction].
        -- split; [exact Hold|]. rewrite Hres. reflexivity.
      * right. split.
        -- cbn. intros [H|H]; [congruence | contradiction].
        -- split; [exact Hnone|]. rewrite Hres. reflexivity.
Qed.

(** What a call of [add_entity] does: nothing, or one trimmed value put
    at the end of the list of its type. *)
Lemma add_entity_cases (g : KnowledgeGraph) (entity_type value : string) :
  add_entity g entity_type value = g \/
  (Py.truthy (Py.strip value) = true /\
   Py.mem value (Dict.get_or (entities g) entity_type []) = false /\
   add_entity g entity_type value =
     {| entities :=
          Dict.set (Dict.touch (entities g) entity_type) entity_type
                   (Dict.get_or (entities g) entity_type [] ++ [Py.strip value]);
        relations := relations g;
        context := context g |}).
Proof.
  unfold add_entity.
  destruct (Py.truthy value && Py.truthy (Py.strip value)) eqn:Ht; [|left; reflexivity].
  apply andb_prop in Ht. destruct Ht as [_ Ht].
  assert (Hcur : Dict.get_or (Dict.touch (entities g) entity_type) entity_type [] =
                 Dict.get_or (entities g) entity_type []).
  { unfold Dict.get_or at 1. rewrite dict_get_touch. reflexivity. }
  rewrite Hcur.
  destruct (Py.mem value (Dict.get_or (entities g) entity_type [])) eqn:Hmem; cbn [negb].
  - left. unfold Dict.get_or in Hmem.
    destruct (Dict.get (entities g) entity_type) as [l|] eqn:E; [|discriminate Hmem].
    rewrite (dict_touch_known _ _ _ E). destruct g; reflexivity.
  - right. auto.
Qed.

Lemma dict_get_In_entry {V : Type} (d : list (string * V)) (k : string) (v : V) :
  Dict.get d k = Some v -> In (k, v) d.
Proof.
  induction d as [|[k' v'] d IH]; cbn [Dict.get]; [discriminate|].
  destruct (String.eqb_spec k k') as [->|_]; [intros [= ->]; left; reflexivity|].
  intros H. right. exact (IH H).
Qed.

Lemma keys_app {V : Type} (a b : list (string * V)) :
  Dict.keys (a ++ b) = Dict.keys a ++ Dict.keys b.
Proof. unfold Dict.keys. apply map_app. Qed.

Lemma entities_ok_step (d : list (string * list string)) (k x : string) :
  entities_ok d -> clean x ->
  entities_ok (Dict.set (Dict.touch d k) k (Dict.get_or d k [] ++ [x])).
Proof.
  intros [Hkeys Hall] Hx.
  destruct (set_touch_shape d k (Dict.get_or d k [] ++ [x]))
    as [(pre & old & post & E & Hpre & Hold & Hres) | (Hnew & Hnone & Hres)];
    rewrite Hres; unfold Dict.get_or.
  - rewrite Hold. rewrite E in Hkeys, Hall. split.
    + rewrite keys_app in *. exact Hkeys.
    + apply Forall_app in Hall. destruct Hall as [H1 H2].
      apply Forall_app. split; [exact H1|].
      constructor; [|exact (Forall_inv_tail H2)].
      apply Forall_inv in H2. destruct H2 as [_ Hold_ok]. split; cbn [snd].
      * destruct old; discriminate.
      * apply Forall_app. split; [exact Hold_ok | repeat constructor; apply Hx].
  - rewrite Hnone. cbn [app]. split.
    + rewrite keys_app. cbn. apply NoDup_ListNoDup, NoDup_app.
      split; [apply NoDup_ListNoDup, Hkeys|]. split.
      * intros y Hy Hin. apply list_elem_of_In in Hy.
        apply list_elem_of_singleton in Hin. subst y. contradiction.
      * apply NoDup_singleton.
    + apply Forall_app. split; [exact Hall|].
      repeat constructor; [discriminate | apply Hx | apply Hx].
Qed.

Lemma add_entity_keeps_ok (g : KnowledgeGraph) (entity_type value : string) :
  entities_ok (entities g) -> entities_ok (entities (add_entity g entity_type value)).
Proof.
  intros Hok.
  destruct (add_entity_cases g entity_type value) as [-> | (Ht & _ & ->)]; [exact Hok|].
  cbn [entities]. apply entities_ok_step; [exact Hok | apply strip_clean, Ht].
Qed.

(** X1.  Whatever calls are made on a new graph, its entity dictionary
    has unique keys, no type with an empty list, and only values that are
    not empty and have no outer white space. *)
Theorem knowledge_graph_values_clean (calls : list KGCall) :
  let g := run_calls KnowledgeGraph_init calls in
  List.NoDup (Dict.keys (entities g)) /\
  (forall entity_type values,
     Dict.get (entities g) entity_type = Some values ->
     values <> [] /\
     forall v, In v values -> Py.strip v = v /\ v <> EmptyString).
Proof.
  intros g.
  assert (Hok : entities_ok (entities g)).
  { subst g. unfold run_calls.
    assert (H0 : entities_ok (entities KnowledgeGraph_init))
      by (split; constructor).
    revert H0. generalize KnowledgeGraph_init.
    induction calls as [|c calls IH]; intros g0 H0; [exact H0|].
    cbn [fold_left]. apply IH. destruct c as [t v | k v]; cbn [run_call].
    - apply add_entity_keeps_ok, H0.
    - exact H0. }
  destruct Hok as [Hkeys Hall]. split; [exact Hkeys|].
  intros entity_type values Hget. apply dict_get_In_entry in Hget.
  rewrite List.Forall_forall in Hall. destruct (Hall _ Hget) as [Hne Hclean].
  split; [exact Hne|]. intros v Hv. cbn [snd] in Hclean.
  rewrite List.Forall_forall in Hclean. destruct (Hclean v Hv) as [Hs Ht].
  split; [exact Hs|]. intros ->. discriminate Ht.
Qed.

Lemma NoDup_snoc (l : list string) (x : string) :
  List.NoDup l -> ~ In x l -> List.NoDup (l ++ [x]).
Proof.
  intros Hl Hx. apply NoDup_ListNoDup, NoDup_app.
  split; [apply NoDup_ListNoDup, Hl|]. split.
  - intros y Hy Hin. apply list_elem_of_In in Hy.
    apply list_elem_of_singleton in Hin. subst y. contradiction.
  - apply NoDup_singleton.
Qed.

Lemma add_entity_keeps_nodup (g : KnowledgeGraph) (entity_type value : string) :
  Py.strip value = value ->
  lists_nodup (entities g) -> lists_nodup (entities (add_entity g entity_type value)).
Proof.
  intros Hs Hnd.
  destruct (add_entity_cases g entity_type value) as [-> | (_ & Hmem & ->)]; [exact Hnd|].
  cbn [entities]. rewrite Hs. apply mem_false_iff in Hmem. revert Hmem.
  destruct (set_touch_shape (entities g) entity_type
              (Dict.get_or (entities g) entity_type [] ++ [value]))
    as [(pre & old & post & E & Hpre & Hold & Hres) | (Hnew & Hnone & Hres)];
    rewrite Hres; unfold Dict.get_or, lists_nodup in *.
  - rewrite Hold. intros Hmem. rewrite E in Hnd.
    apply Forall_app in Hnd. destruct Hnd as [H1 H2].
    apply Forall_app. split; [exact H1|].
    constructor; [|exact (Forall_inv_tail H2)].
    apply Forall_inv in H2. cbn [snd] in *. apply NoDup_snoc; assumption.
  - rewrite Hnone. intros _. apply Forall_app. split; [exact Hnd|].
    repeat constructor. intros [].
Qed.

(** X2.  When every value that is added has no outer white space, no
    list of the entity dictionary ever holds a value twice. *)
Theorem trimmed_values_never_duplicate (calls : list KGCall) :
  Forall trimmed_call calls ->
  forall entity_type values,
    Dict.get (entities (run_calls KnowledgeGraph_init calls)) entity_type = Some values ->
    List.NoDup values.
Proof.
  intros Hcalls.
  assert (Hnd : lists_nodup (entities (run_calls KnowledgeGraph_init calls))).
  { unfold run_calls.
    assert (H0 : lists_nodup (entities KnowledgeGraph_init)) by constructor.
    revert H0. generalize KnowledgeGraph_init.
    induction Hcalls as [|c calls Hc _ IH]; intros g0 H0; [exact H0|].
    cbn [fold_left]. apply IH. destruct c as [t v | k v]; cbn [run_call].
    - apply add_entity_keeps_nodup; [exact Hc | exact H0].
    - exact H0. }
  intros entity_type values Hget. apply dict_get_In_entry in Hget.
  unfold lists_nodup in Hnd. rewrite List.Forall_forall in Hnd.
  exact (Hnd _ Hget).
Qed.

Lemma trimmed_values_never_duplicate_witness :
  Dict.get
    (entities (run_calls KnowledgeGraph_init
                 [AddEntity "items" "phone"; SetContext "situation" "my phone";
                  AddEntity "items" "laptop"; AddEntity "items" "phone"]))
    "items" = Some ["phone"; "laptop"] /\
  List.NoDup ["phone"; "laptop"].
Proof.
  split; [vm_compute; reflexivity|].
  apply (trimmed_values_never_duplicate
           [AddEntity "items" "phone"; SetContext "situation" "my phone";
            AddEntity "items" "laptop"; AddEntity "items" "phone"]
           ltac:(repeat constructor) "items").
  vm_compute. reflexivity.
Defined.

Lemma dict_get_app {V : Type} (a b : list (string * V)) (k : string) :
  Dict.get (a ++ b) k =
  match Dict.get a k with Some v => Some v | None => Dict.get b k end.
Proof.
  induction a as [|[k' v'] a IH]; [reflexivity|]. cbn [app Dict.get].
  destruct (String.eqb k k'); [reflexivity | exact IH].
Qed.

Lemma dict_get_not_key {V : Type} (d : list (string * V)) (k : string) :
  ~ In k (Dict.keys d) -> Dict.get d k = None.
Proof.
  induction d as [|[k' v'] d IH]; [reflexivity|]. cbn. intros H.
  destruct (String.eqb_spec k k') as [->|_]; [exfalso; apply H; left; reflexivity|].
  apply IH. intros Hin. apply H. right. exact Hin.
Qed.

Lemma dict_get_replace {V : Type} (pre post : list (string * V))
    (k k' : string) (old new : V) :
  k' <> k ->
  Dict.get (pre ++ (k, new) :: post) k' = Dict.get (pre ++ (k, old) :: post) k'.
Proof.
  intros Hne. rewrite !dict_get_app. cbn [Dict.get].
  destruct (String.eqb_spec k' k); [contradiction | reflexivity].
Qed.

Lemma add_entity_frame (g : KnowledgeGraph) (entity_type value : string) :
  let g' := add_entity g entity_type value in
  context g' = context g /\
  relations g' = relations g /\
  (forall other, other <> entity_type ->
     Dict.get (entities g') other = Dict.get (entities g) other) /\
  (Dict.get_or (entities g') entity_type [] = Dict.get_or (entities g) entity_type [] \/
   Dict.get_or (entities g') entity_type [] =
     Dict.get_or (entities g) entity_type [] ++ [Py.strip value]) /\
  (Dict.keys (entities g') = Dict.keys (entities g) \/
   Dict.keys (entities g') = Dict.keys (entities g) ++ [entity_type]).
Proof.
  intros g'. subst g'.
  destruct (add_entity_cases g entity_type value) as [-> | (_ & _ & ->)].
  - repeat split; auto.
  - cbn [entities relations context]. split; [reflexivity|]. split; [reflexivity|].
    set (new := Dict.get_or (entities g) entity_type [] ++ [Py.strip value]).
    destruct (set_touch_shape (entities g) entity_type new)
      as [(pre & old & post & E & Hpre & Hold & Hres) | (Hnew & Hnone & Hres)];
      rewrite Hres.
    + split; [|split].
      * intros other Hne. rewrite E. apply dict_get_replace, Hne.
      * right. unfold Dict.get_or at 1. rewrite dict_get_app.
        rewrite (dict_get_not_key pre _ Hpre). cbn [Dict.get].
        rewrite String.eqb_refl. reflexivity.
      * left. rewrite E, !keys_app. reflexivity.
    + split; [|split].
      * intros other Hne. rewrite dict_get_app. cbn [Dict.get].
        destruct (String.eqb_spec other entity_type); [contradiction|].
        destruct (Dict.get (entities g) other); reflexivity.
      * right. unfold Dict.get_or at 1. rewrite dict_get_app, Hnone.
        cbn [Dict.get]. rewrite String.eqb_refl. reflexivity.
      * right. rewrite keys_app. reflexivity.
Qed.

(** X3.  A call of [add_entity] touches the list of its own type only, where
    it appends at most the trimmed value; the other lists, the order of
    the keys already there and the context are left as they were. *)
Theorem add_entity_appends_only (g : KnowledgeGraph) (entity_type value : string) :
  let g' := add_entity g entity_type value in
  context g' = context g /\
  relations g' = relations g /\
  (forall other, other <> entity_type ->
     Dict.get (entities g') other = Dict.get (entities g) other) /\
  (Dict.get_or (entities g') entity_type [] = Dict.get_or (entities g) entity_type [] \/
   Dict.get_or (entities g') entity_type [] =
     Dict.get_or (entities g) entity_type [] ++ [Py.strip value]) /\
  (Dict.keys (entities g') = Dict.keys (entities g) \/
   Dict.keys (entities g') = Dict.keys (entities g) ++ [entity_type]).
Proof. exact (add_entity_frame g entity_type value). Qed.

(** [set_context] then [context.get] gives the value back, leaves the
    other keys as they were, and never touches the entities. *)
Lemma set_context_roundtrip (g : KnowledgeGraph) (key value : string) :
  let g' := set_context g key value in
  (forall dflt, context_get g' key dflt = value) /\
  (forall other dflt, other <> key -> context_get g' other dflt = context_get g other dflt) /\
  entities g' = entities g.
Proof.
  cbv zeta. unfold context_get, set_context. cbn [context entities].
  split; [|split].
  - intros dflt. rewrite lookup_insert_eq. reflexivity.
  - intros other dflt Hne. rewrite lookup_insert_ne by congruence. reflexivity.
  - reflexivity.
Qed.

(** ** Classification and subtype always have a template set *)

Lemma detect_crime_subtype_range (text : string) :
  In (detect_crime_subtype text) subtypes.
Proof.
  unfold detect_crime_subtype.
  destruct (offense_scores_shape text) as (a & b & c & d & _ & E). rewrite E.
  destruct (fold_better_first_maximal
              [("murder", a); ("theft", b); ("robbery", c); ("assault", d)] "theft" 0)
    as [[_ ->] | (pre & e & post & El & -> & _)].
  - right. left. reflexivity.
  - assert (Hin : In e [("murder", a); ("theft", b); ("robbery", c); ("assault", d)])
      by (rewrite El; apply in_or_app; right; left; reflexivity).
    cbn in Hin. unfold subtypes.
    destruct Hin as [<-|[<-|[<-|[<-|[]]]]]; cbn; tauto.
Qed.

Lemma initial_classify_range (query : string) :
  In (fst (initial_classify query)) case_types.
Proof.
  unfold initial_classify.
  destruct (classify_scores_shape query) as (a & b & c & d & _ & E). rewrite E.
  destruct (_ =? 0)%Z; cbn [fst]; [cbn; tauto|].
  change (Dict.keys [("criminal", a); ("family", b); ("property", c); ("contract", d)])
    with ["criminal"; "family"; "property"; "contract"].
  destruct (max_key_upper
              (fun k => Dict.get_or [("criminal", a); ("family", b); ("property", c); ("contract", d)] k 0%Z)
              "criminal" ["family"; "property"; "contract"] "general") as [Hin _].
  unfold case_types. cbn in Hin |- *. tauto.
Qed.

Lemma templates_open : forallb opens (Dict.values QUESTION_TEMPLATES) = true.
Proof. vm_compute. reflexivity. Qed.

Lemma resolve_templates_in_table (ct : string) (g : KnowledgeGraph) :
  In (resolve_templates ct g) (Dict.values QUESTION_TEMPLATES).
Proof.
  assert (H : forall k dflt, In dflt (Dict.values QUESTION_TEMPLATES) ->
                             In (Dict.get_or QUESTION_TEMPLATES k dflt)
                                (Dict.values QUESTION_TEMPLATES)).
  { intros k dflt Hd. unfold Dict.get_or.
    destruct (Dict.get QUESTION_TEMPLATES k) eqn:E; [|exact Hd].
    exact (dict_get_In _ _ _ E). }
  unfold resolve_templates.
  destruct (String.eqb ct "criminal"); apply H; cbn; tauto.
Qed.

Lemma generate_next_opens (ct : string) (g : KnowledgeGraph) :
  exists q, generate_next ct g [] = Some q /\ q <> EmptyString.
Proof.
  pose proof (resolve_templates_in_table ct g) as Hin.
  pose proof templates_open as Hopen. rewrite forallb_forall in Hopen.
  specialize (Hopen _ Hin). unfold opens in Hopen. unfold generate_next.
  destruct (first_missing (resolve_templates ct g) []) as [q|] eqn:E; [|discriminate].
  exists q. split; [reflexivity|].
  intros ->. pose proof (generate_next_truthy ct g [] EmptyString E) as H.
  discriminate H.
Qed.

(** X6.  With nothing asked yet [generate_next] always has a question,
    whatever the case type and the graph. *)
Theorem generate_next_always_opens (ct : string) (g : KnowledgeGraph) :
  exists q, generate_next ct g [] = Some q /\ q <> EmptyString.
Proof. exact (generate_next_opens ct g). Qed.

(** ** What the extractor feeds to the graph *)

Lemma run_calls_app (g : KnowledgeGraph) (a b : list KGCall) :
  run_calls g (a ++ b) = run_calls (run_calls g a) b.
Proof. unfold run_calls. apply fold_left_app. Qed.

Lemma add_extracted_calls (g : KnowledgeGraph) (extracted : list (string * list string)) :
  add_extracted g extracted = run_calls g (calls_of extracted).
Proof.
  unfold add_extracted, calls_of. revert g.
  induction extracted as [|[k vals] rest IH]; intros g; [reflexivity|].
  cbn [fold_left map concat fst snd]. rewrite run_calls_app, IH. f_equal.
  clear. revert g. induction vals as [|v vals IH]; intros g; [reflexivity|].
  cbn [fold_left map]. rewrite IH. reflexivity.
Qed.

Lemma run_calls_keeps_ok (g : KnowledgeGraph) (calls : list KGCall) :
  entities_ok (entities g) -> entities_ok (entities (run_calls g calls)).
Proof.
  unfold run_calls. revert g.
  induction calls as [|c calls IH]; intros g H0; [exact H0|].
  cbn [fold_left]. apply IH. destruct c as [t v | k v]; cbn [run_call].
  - apply add_entity_keeps_ok, H0.
  - exact H0.
Qed.

Lemma run_calls_keeps_nodup (g : KnowledgeGraph) (calls : list KGCall) :
  Forall trimmed_call calls ->
  lists_nodup (entities g) -> lists_nodup (entities (run_calls g calls)).
Proof.
  unfold run_calls. intros Hcalls. revert g.
  induction Hcalls as [|c calls Hc _ IH]; intros g H0; [exact H0|].
  cbn [fold_left]. apply IH. destruct c as [t v | k v]; cbn [run_call].
  - apply add_entity_keeps_nodup; [exact Hc | exact H0].
  - exact H0.
Qed.

Lemma add_entity_context (g : KnowledgeGraph) (t v : string) :
  context (add_entity g t v) = context g.
Proof.
  destruct (add_entity_cases g t v) as [-> | (_ & _ & ->)]; reflexivity.
Qed.

Lemma run_calls_context (g : KnowledgeGraph) (calls : list KGCall) :
  Forall is_add calls -> context (run_calls g calls) = context g.
Proof.
  unfold run_calls. intros Hcalls. revert g.
  induction Hcalls as [|c calls Hc _ IH]; intros g; [reflexivity|].
  cbn [fold_left]. rewrite IH. destruct c; [apply add_entity_context | destruct Hc].
Qed.

Lemma calls_of_are_adds (extracted : list (string * list string)) :
  Forall is_add (calls_of extracted).
Proof.
  unfold calls_of. apply List.Forall_forall. intros c Hc.
  apply in_concat in Hc. destruct Hc as (l & Hl & Hc).
  apply in_map_iff in Hl. destruct Hl as (kv & <- & _).
  apply in_map_iff in Hc. destruct Hc as (v & <- & _). exact I.
Qed.

Lemma add_extracted_context (g : KnowledgeGraph) (extracted : list (string * list string)) :
  context (add_extracted g extracted) = context g.
Proof. rewrite add_extracted_calls. apply run_calls_context, calls_of_are_adds. Qed.

Lemma grows_from_refl (d : list (string * list string)) : grows_from d d.
Proof. intros t. exists []. rewrite app_nil_r. reflexivity. Qed.

Lemma grows_from_trans (a b c : list (string * list string)) :
  grows_from a b -> grows_from b c -> grows_from a c.
Proof.
  intros H1 H2 t. destruct (H1 t) as (x & E1). destruct (H2 t) as (y & E2).
  exists (x ++ y). rewrite E2, E1, app_assoc. reflexivity.
Qed.

Lemma add_entity_grows (g : KnowledgeGraph) (t v : string) :
  grows_from (entities g) (entities (add_entity g t v)).
Proof.
  destruct (add_entity_frame g t v) as (_ & _ & Hother & Hown & _).
  intros t'. destruct (String.eqb_spec t' t) as [->|Hne].
  - destruct Hown as [E|E]; rewrite E; [exists []; now rewrite app_nil_r | eauto].
  - exists []. unfold Dict.get_or. rewrite (Hother t' Hne), app_nil_r. reflexivity.
Qed.

Lemma run_calls_grows (g : KnowledgeGraph) (calls : list KGCall) :
  grows_from (entities g) (entities (run_calls g calls)).
Proof.
  unfold run_calls. revert g.
  induction calls as [|c calls IH]; intros g; [apply grows_from_refl|].
  cbn [fold_left]. eapply grows_from_trans; [|apply IH].
  destruct c; cbn [run_call]; [apply add_entity_grows | apply grows_from_refl].
Qed.

(** ** What a pattern can match *)

Lemma run_Rep (a : Re.re) (lo extra : nat) prev s k :
  Re.run (Re.Rep a lo extra) prev s k = need_of (Re.run a) k extra lo prev s.
Proof. reflexivity. Qed.

Lemma run_Many (p : ascii -> bool) prev s k :
  Re.run (Re.Many p) prev s k = many_of k p prev s.
Proof. reflexivity. Qed.

Lemma last_char_app (prev : option ascii) (a b : string) :
  last_char prev (a +:+ b) = last_char (last_char prev a) b.
Proof. revert prev. induction a as [|c a IH]; intros prev; [reflexivity | apply IH]. Qed.

Lemma more_of_sound (one : matcher) d (k : option ascii -> string -> option string) :
  sound one d ->
  forall n prev s res,
    more_of one k n prev s = Some res ->
    exists j m s',
      (j <= n)%nat /\ s = m +:+ s' /\ reps d j prev m s' /\
      k (last_char prev m) s' = Some res.
Proof.
  intros Hone. induction n as [|n IH]; intros prev s res H; cbn [more_of] in H.
  - exists 0%nat, EmptyString, s. repeat split; [lia | exact H].
  - destruct (one prev s (more_of one k n)) as [r|] eqn:E.
    + injection H as ->.
      destruct (Hone _ _ _ _ E) as (m1 & s1 & -> & Hd & Hk).
      destruct (IH _ _ _ Hk) as (j & m2 & s2 & Hj & -> & Hr & Hk2).
      exists (S j), (m1 +:+ m2), s2. split; [lia|].
      split; [symmetry; apply append_assoc|]. split.
      * cbn [reps]. exists m1, m2. auto.
      * rewrite last_char_app. exact Hk2.
    + exists 0%nat, EmptyString, s. repeat split; [lia | exact H].
Qed.

Lemma need_of_sound (one : matcher) d (k : option ascii -> string -> option string)
    (extra : nat) :
  sound one d ->
  forall n prev s res,
    need_of one k extra n prev s = Some res ->
    exists j m s',
      (n <= j <= n + extra)%nat /\ s = m +:+ s' /\ reps d j prev m s' /\
      k (last_char prev m) s' = Some res.
Proof.
  intros Hone. induction n as [|n IH]; intros prev s res H; cbn [need_of] in H.
  - destruct (more_of_sound one d k Hone _ _ _ _ H) as (j & m & s' & Hj & E & Hr & Hk).
    exists j, m, s'. repeat split; try assumption; lia.
  - destruct (Hone _ _ _ _ H) as (m1 & s1 & -> & Hd & Hk).
    destruct (IH _ _ _ Hk) as (j & m2 & s2 & Hj & -> & Hr & Hk2).
    exists (S j), (m1 +:+ m2), s2. split; [lia|].
    split; [symmetry; apply append_assoc|]. split.
    + cbn [reps]. exists m1, m2. auto.
    + rewrite last_char_app. exact Hk2.
Qed.

Lemma many_of_sound (p : ascii -> bool) (k : option ascii -> string -> option string) :
  forall s prev res,
    many_of k p prev s = Some res ->
    exists m s', s = m +:+ s' /\ all_chars p m = true /\
                 k (last_char prev m) s' = Some res.
Proof.
  induction s as [|c s IH]; intros prev res H; cbn [many_of] in H.
  - exists EmptyString, EmptyString. auto.
  - destruct (p c) eqn:Hc; [|exists EmptyString, (String c s); auto].
    destruct (many_of k p (Some c) s) as [r|] eqn:E.
    + injection H as ->. destruct (IH _ _ E) as (m & s' & -> & Hall & Hk).
      exists (String c m), s'. cbn [all_chars last_char]. rewrite Hc. auto.
    + exists EmptyString, (String c s). auto.
Qed.

(** The matcher succeeds only on a text that the pattern can match, and
    only through its continuation at the end of that text. *)
Lemma run_sound (r : Re.re) : sound (Re.run r) (den r).
Proof.
  induction r as [|p| |a IHa b IHb|a IHa b IHb|a IHa lo extra|p];
    intros prev s k res H.
  - exists EmptyString, s. cbn in *. auto.
  - cbn [Re.run] in H. destruct s as [|c s]; [discriminate|].
    destruct (p c) eqn:Hc; [|discriminate].
    exists (String c EmptyString), s. cbn. eauto.
  - cbn [Re.run] in H.
    destruct (xorb (Re.word_before prev) (Re.word_after s)) eqn:Hb; [|discriminate].
    exists EmptyString, s. cbn. auto.
  - cbn [Re.run] in H.
    destruct (IHa _ _ _ _ H) as (m1 & s1 & -> & Hd1 & Hk).
    destruct (IHb _ _ _ _ Hk) as (m2 & s2 & -> & Hd2 & Hk2).
    exists (m1 +:+ m2), s2. split; [symmetry; apply append_assoc|]. split.
    + cbn [den]. exists m1, m2. auto.
    + rewrite last_char_app. exact Hk2.
  - cbn [Re.run] in H. destruct (Re.run a prev s k) as [r0|] eqn:E.
    + injection H as ->. destruct (IHa _ _ _ _ E) as (m & s' & -> & Hd & Hk).
      exists m, s'. cbn [den]. auto.
    + destruct (IHb _ _ _ _ H) as (m & s' & -> & Hd & Hk).
      exists m, s'. cbn [den]. auto.
  - rewrite run_Rep in H.
    destruct (need_of_sound _ _ k extra IHa _ _ _ _ H) as (j & m & s' & Hj & -> & Hr & Hk).
    exists m, s'. cbn [den]. eauto.
  - rewrite run_Many in H.
    destruct (many_of_sound p k _ _ _ H) as (m & s' & -> & Hall & Hk).
    exists m, s'. cbn [den]. auto.
Qed.

(** ** Every match of [findall] is a piece of the text that the pattern
       can match *)

Lemma substring_prefix (m rest : string) :
  substring 0 (String.length m) (m +:+ rest) = m.
Proof.
  induction m as [|c m IH].
  - destruct rest; reflexivity.
  - simpl. f_equal. exact IH.
Qed.

Lemma match_here_den (r : Re.re) (prev : option ascii) (s : string) (n : nat) :
  Re.match_here r prev s = Some n ->
  exists m rest,
    s = m +:+ rest /\ n = String.length m /\ den r prev m rest /\
    substring 0 n s = m.
Proof.
  unfold Re.match_here.
  destruct (Re.run r prev s (fun _ rest => Some rest)) as [rest|] eqn:E; [|discriminate].
  intros [= <-]. destruct (run_sound r _ _ _ _ E) as (m & s' & -> & Hd & [= ->]).
  exists m, rest. rewrite length_append.
  replace (String.length m + String.length rest - String.length rest)%nat
    with (String.length m) by lia.
  rewrite substring_prefix. auto.
Qed.

Lemma scan_den (r : Re.re) (s : string) :
  forall prev skip x,
    In x (Re.scan r prev s skip) ->
    exists prev' pre rest, s = pre +:+ x +:+ rest /\ den r prev' x rest.
Proof.
  induction s as [|c s IH]; intros prev skip x Hin; cbn [Re.scan] in Hin.
  - destruct skip; [|destruct Hin].
    destruct (Re.match_here r prev EmptyString) as [n|] eqn:E; [|destruct Hin].
    destruct Hin as [<-|[]].
    destruct (match_here_den _ _ _ _ E) as (m & rest & Hs & _ & Hd & _).
    destruct m; [|discriminate Hs]. destruct rest; [|discriminate Hs].
    exists prev, EmptyString, EmptyString. auto.
  - assert (Hlater : forall prev0 skip0,
              In x (Re.scan r prev0 s skip0) ->
              exists prev' pre rest,
                String c s = pre +:+ x +:+ rest /\ den r prev' x rest).
    { intros prev0 skip0 H. destruct (IH _ _ _ H) as (prev' & pre & rest & -> & Hd).
      exists prev', (String c pre), rest. auto. }
    destruct skip as [|skip]; [|exact (Hlater _ _ Hin)].
    destruct (Re.match_here r prev (String c s)) as [n|] eqn:E; [|exact (Hlater _ _ Hin)].
    destruct (match_here_den _ _ _ _ E) as (m & rest & Hs & Hn & Hd & Hsub).
    assert (Hhere : x = substring 0 n (String c s) ->
                    exists prev' pre rest0,
                      String c s = pre +:+ x +:+ rest0 /\ den r prev' x rest0).
    { intros ->. rewrite Hsub. exists prev, EmptyString, rest. auto. }
    destruct n as [|n].
    + destruct Hin as [<-|Hin]; [apply Hhere; reflexivity | exact (Hlater _ _ Hin)].
    + destruct Hin as [<-|Hin]; [apply Hhere; reflexivity | exact (Hlater _ _ Hin)].
Qed.

(** Each match that [findall] returns stands in the text, and the
    pattern can match it there. *)
Lemma findall_den (r : Re.re) (text x : string) :
  In x (Re.findall r text) ->
  exists prev pre rest, text = pre +:+ x +:+ rest /\ den r prev x rest.
Proof. apply scan_den. Qed.

(** ** First and last characters of a match *)

Lemma append_empty (a b : string) :
  a +:+ b = EmptyString -> a = EmptyString /\ b = EmptyString.
Proof. destruct a; [auto | discriminate]. Qed.

Lemma den_nonempty (r : Re.re) :
  forall prev m rest, den r prev m rest -> nullable r = false -> m <> EmptyString.
Proof.
  induction r as [|p| |a IHa b IHb|a IHa b IHb|a IHa lo extra|p];
    intros prev m rest Hd Hn; cbn [den nullable] in *; try discriminate.
  - destruct Hd as (c & -> & _). discriminate.
  - destruct Hd as (m1 & m2 & -> & H1 & H2). intros E.
    apply append_empty in E. destruct E as [-> ->].
    apply andb_false_iff in Hn. destruct Hn as [Hn|Hn].
    + exact (IHa _ _ _ H1 Hn eq_refl).
    + exact (IHb _ _ _ H2 Hn eq_refl).
  - apply orb_false_iff in Hn. destruct Hn as [Ha Hb].
    destruct Hd as [Hd|Hd]; [exact (IHa _ _ _ Hd Ha) | exact (IHb _ _ _ Hd Hb)].
  - apply orb_false_iff in Hn. destruct Hn as [Hlo Ha].
    destruct Hd as (n & Hn & Hr). apply Nat.eqb_neq in Hlo.
    destruct n as [|n]; [lia|]. cbn [reps] in Hr.
    destruct Hr as (m1 & m2 & -> & H1 & _). intros E.
    apply append_empty in E. destruct E as [-> _].
    exact (IHa _ _ _ H1 Ha eq_refl).
Qed.

Lemma den_first (r : Re.re) :
  forall prev c m rest, den r prev (String c m) rest -> firsts r c = true.
Proof.
  induction r as [|p| |a IHa b IHb|a IHa b IHb|a IHa lo extra|p];
    intros prev c m rest Hd; cbn [den firsts] in *.
  - discriminate.
  - destruct Hd as (c' & [= -> ->] & Hp). exact Hp.
  - destruct Hd as [Hd _]. discriminate.
  - destruct Hd as (m1 & m2 & E & H1 & H2). destruct m1 as [|c1 m1].
    + change (String c m = m2) in E. subst m2.
      destruct (nullable a) eqn:Hn.
      * rewrite (IHb _ _ _ _ H2). apply orb_true_r.
      * exfalso. exact (den_nonempty a _ _ _ H1 Hn eq_refl).
    + injection E as -> ->. rewrite (IHa _ _ _ _ H1). reflexivity.
  - destruct Hd as [Hd|Hd]; [rewrite (IHa _ _ _ _ Hd) | rewrite (IHb _ _ _ _ Hd)];
      [reflexivity | apply orb_true_r].
  - destruct Hd as (n & _ & Hr). revert prev c m Hr.
    induction n as [|n IHn]; intros prev c m Hr; cbn [reps] in Hr; [discriminate|].
    destruct Hr as (m1 & m2 & E & H1 & H2). destruct m1 as [|c1 m1].
    + change (String c m = m2) in E. subst m2. exact (IHn _ _ _ H2).
    + injection E as -> ->. exact (IHa _ _ _ _ H1).
  - cbn [all_chars] in Hd. apply andb_prop in Hd. apply Hd.
Qed.

Lemma last_char_nonempty (prev prev' : option ascii) (m : string) :
  m <> EmptyString -> last_char prev m = last_char prev' m.
Proof. destruct m; [congruence | reflexivity]. Qed.

Lemma den_last (r : Re.re) :
  forall prev m rest,
    den r prev m rest -> m <> EmptyString ->
    exists c, last_char prev m = Some c /\ lasts r c = true.
Proof.
  induction r as [|p| |a IHa b IHb|a IHa b IHb|a IHa lo extra|p];
    intros prev m rest Hd Hm; cbn [den lasts] in *.
  - contradiction.
  - destruct Hd as (c & -> & Hp). exists c. auto.
  - destruct Hd as [Hd _]. contradiction.
  - destruct Hd as (m1 & m2 & -> & H1 & H2). rewrite last_char_app.
    destruct m2 as [|c2 m2].
    + assert (Hm1 : m1 <> EmptyString).
      { intros ->. apply Hm. reflexivity. }
      destruct (IHa _ _ _ H1 Hm1) as (c & Hc & Hl). exists c. split; [exact Hc|].
      destruct (nullable b) eqn:Hn.
      * rewrite Hl. apply orb_true_r.
      * exfalso. exact (den_nonempty b _ _ _ H2 Hn eq_refl).
    + destruct (IHb _ _ _ H2 ltac:(discriminate)) as (c & Hc & Hl).
      exists c. split; [exact Hc|]. rewrite Hl. reflexivity.
  - destruct Hd as [Hd|Hd].
    + destruct (IHa _ _ _ Hd Hm) as (c & Hc & Hl). exists c. rewrite Hl. auto.
    + destruct (IHb _ _ _ Hd Hm) as (c & Hc & Hl). exists c. rewrite Hl.
      split; [exact Hc | apply orb_true_r].
  - destruct Hd as (n & _ & Hr). revert prev m Hm Hr.
    induction n as [|n IHn]; intros prev m Hm Hr; cbn [reps] in Hr; [contradiction|].
    destruct Hr as (m1 & m2 & -> & H1 & H2). rewrite last_char_app.
    destruct m2 as [|c2 m2].
    + assert (Hm1 : m1 <> EmptyString).
      { intros ->. apply Hm. reflexivity. }
      exact (IHa _ _ _ H1 Hm1).
    + apply (IHn (last_char prev m1) (String c2 m2)); [discriminate | exact H2].
  - revert prev Hm Hd. induction m as [|c m IH]; intros prev Hm Hd; [contradiction|].
    cbn [all_chars] in Hd. apply andb_prop in Hd. destruct Hd as [Hc Hall].
    destruct m as [|c' m].
    + exists c. auto.
    + apply (IH (Some c)); [discriminate | exact Hall].
Qed.

(** ** The four patterns of the extractor *)

Lemma never_space_spec (f : ascii -> bool) :
  never_space f = true -> forall c, f c = true -> Py.is_space c = false.
Proof.
  unfold never_space. rewrite forallb_forall. intros H c Hc.
  specialize (H (nat_of_ascii c)). rewrite ascii_nat_embedding in H.
  rewrite Hc in H. cbn [andb] in H.
  destruct (Py.is_space c); [|reflexivity].
  discriminate H. apply in_seq. pose proof (nat_ascii_bounded c). lia.
Qed.

Lemma rstrip_fixed (m : string) :
  forall prev c,
    m <> EmptyString -> last_char prev m = Some c -> Py.is_space c = false ->
    Py.rstrip m = m.
Proof.
  induction m as [|x m IH]; intros prev c Hm Hl Hc; [contradiction|].
  rewrite rstrip_cons. cbn [last_char] in Hl. destruct m as [|y m].
  - cbn in Hl. injection Hl as ->. cbn [Py.rstrip]. rewrite Hc. reflexivity.
  - assert (Htail : Py.rstrip (String y m) = String y m)
      by (apply (IH (Some x) c); [discriminate | exact Hl | exact Hc]).
    rewrite Htail. reflexivity.
Qed.

Lemma strip_fixed (m : string) (first last : ascii) (m' : string) :
  m = String first m' -> Py.is_space first = false ->
  last_char None m = Some last -> Py.is_space last = false ->
  Py.strip m = m.
Proof.
  intros -> Hf Hl Hs. unfold Py.strip. rewrite (lstrip_fixed _ _ Hf).
  apply (rstrip_fixed _ None last); [discriminate | exact Hl | exact Hs].
Qed.

Lemma patterns_tight :
  tight date_re = true /\ tight month_re = true /\
  tight value_re = true /\ tight location_re = true.
Proof. repeat split; vm_compute; reflexivity. Qed.

(** What [findall] returns for a tight pattern: pieces of the text that
    are not empty and have no outer white space. *)
Lemma findall_tight (r : Re.re) (text x : string) :
  tight r = true -> In x (Re.findall r text) ->
  clean x /\ Py.contains x text = true.
Proof.
  unfold tight. intros Ht Hin.
  apply andb_prop in Ht. destruct Ht as [Ht Hlast].
  apply andb_prop in Ht. destruct Ht as [Hnull Hfirst].
  apply negb_true_iff in Hnull.
  destruct (findall_den r text x Hin) as (prev & pre & rest & -> & Hd).
  split; [|apply contains_append_r, contains_here].
  pose proof (den_nonempty r _ _ _ Hd Hnull) as Hne.
  destruct x as [|c x]; [contradiction|].
  pose proof (never_space_spec _ Hfirst c (den_first r _ _ _ _ Hd)) as Hc.
  destruct (den_last r _ _ _ Hd Hne) as (l & Hl & Hlc).
  pose proof (never_space_spec _ Hlast l Hlc) as Hls.
  split; [|reflexivity].
  apply (strip_fixed _ c l x eq_refl Hc); [|exact Hls].
  rewrite <- Hl. apply last_char_nonempty. discriminate.
Qed.

Lemma item_keywords_clean : Forall clean item_keywords.
Proof. repeat constructor. Qed.

Lemma take_In {A : Type} (n : nat) (l : list A) (x : A) : In x (take n l) -> In x l.
Proof.
  revert l. induction n as [|n IH]; intros [|y l]; cbn; try tauto.
  intros [H|H]; [left; exact H | right; exact (IH _ H)].
Qed.

Lemma extract_values (text k : string) (l : list string) (v : string) :
  Dict.get (extract text) k = Some l -> In v l -> clean v /\ sourced text k v.
Proof.
  destruct patterns_tight as (Hdate & Hmonth & Hvalue & Hloc).
  rewrite extract_shape. unfold sourced.
  destruct (String.eqb_spec k "items") as [->|Hitems].
  { intros [= <-] Hv. apply first_seen_In, take_In in Hv.
    unfold items_found in Hv. apply filter_In in Hv. destruct Hv as [Hin Hc].
    split; [|split; assumption].
    pose proof item_keywords_clean as H. rewrite List.Forall_forall in H. auto. }
  cbn [Dict.get].
  destruct (String.eqb_spec k "dates") as [->|_].
  { intros [= <-] Hv. apply first_seen_In, in_app_or in Hv.
    destruct Hv as [Hv|Hv]; [apply take_In in Hv|];
      (eapply findall_tight; [|exact Hv]; assumption). }
  destruct (String.eqb_spec k "locations") as [->|_].
  { intros [= <-] Hv. apply first_seen_In, take_In in Hv.
    eapply findall_tight; [|exact Hv]; assumption. }
  destruct (String.eqb_spec k "values") as [->|_].
  { intros [= <-] Hv. apply first_seen_In, take_In in Hv.
    eapply findall_tight; [|exact Hv]; assumption. }
  destruct (String.eqb_spec k "items") as [->|_]; [contradiction|].
  destruct (String.eqb_spec k "parties") as [->|_]; [|discriminate].
  intros [= <-] [].
Qed.

(** X5.  Every value that [extract] returns is not empty and has no outer
    white space; a date, a location or a money value stands in the text as
    it is returned, and an item is a word of the vocabulary whose
    lower-case form stands in the lower-cased text. *)
Theorem extract_values_come_from_text (text k : string) (l : list string) (v : string) :
  Dict.get (extract text) k = Some l -> In v l ->
  v <> EmptyString /\ Py.strip v = v /\
  (if String.eqb k "items"
   then In v item_keywords /\ Py.contains (Py.lower v) (Py.lower text) = true
   else Py.contains v text = true).
Proof.
  intros Hget Hv. destruct (extract_values text k l v Hget Hv) as [[Hs Ht] Hsrc].
  split; [intros ->; discriminate Ht|]. split; [exact Hs | exact Hsrc].
Qed.

Lemma extract_values_come_from_text_witness :
  Dict.get (extract "On 12/03/2021 Rs. 5,000 was taken") "values" = Some ["Rs. 5,000"] /\
  Py.strip "Rs. 5,000" = "Rs. 5,000" /\
  Py.contains "Rs. 5,000" "On 12/03/2021 Rs. 5,000 was taken" = true.
Proof.
  assert (Hget : Dict.get (extract "On 12/03/2021 Rs. 5,000 was taken") "values"
                 = Some ["Rs. 5,000"]) by (vm_compute; reflexivity).
  destruct (extract_values_come_from_text _ _ _ "Rs. 5,000" Hget ltac:(left; reflexivity))
    as (_ & Hs & Hc).
  split; [exact Hget|]. split; [exact Hs | exact Hc].
Defined.

(** The values that the extractor feeds to the graph are trimmed. *)
Lemma calls_of_extract_trimmed (text : string) :
  Forall trimmed_call (calls_of (extract text)).
Proof.
  unfold calls_of. apply List.Forall_forall. intros c Hc.
  apply in_concat in Hc. destruct Hc as (cs & Hcs & Hc).
  apply in_map_iff in Hcs. destruct Hcs as ([k l] & <- & Hkl).
  apply in_map_iff in Hc. destruct Hc as (v & <- & Hv). cbn [fst snd] in *.
  assert (Hget : exists l', Dict.get (extract text) k = Some l' /\ In v l').
  { rewrite extract_shape in Hkl |- *. cbn in Hkl.
    destruct Hkl as [E|[E|[E|[E|[E|[]]]]]]; injection E as <- <-;
      eexists; (split; [reflexivity | exact Hv]). }
  destruct Hget as (l' & Hget & Hv').
  apply (extract_values text k l' v Hget Hv').
Qed.

(** ** Starting a session *)

(** The two results of [start_session]: a question when the turn budget
    is positive, the final answer otherwise. *)
Lemma start_session_cases (now sid : string) (sessions : gmap string Session)
    (query : string) (maxt : Z) :
  let ct := fst (initial_classify query) in
  let rep := analyze now ct (start_graph query) in
  ((0 < maxt)%Z /\
   exists q,
     generate_next ct (start_graph query) [] = Some q /\
     start_session now sid sessions query maxt =
       (<[sid := started query maxt [q] false]> sessions,
        {| session_id := Some sid; next_action := "ask"; question := Some q;
           partial_report := Some rep; report := None; structured := None |})) \/
  ((maxt <= 0)%Z /\
   start_session now sid sessions query maxt =
     (<[sid := started query maxt [] true]> sessions,
      {| session_id := Some sid; next_action := "final"; question := None;
         partial_report := Some rep; report := None; structured := None |})).
Proof.
  intros ct rep. unfold start_session, started, start_graph in *.
  subst ct rep. destruct (initial_classify query) as [ct conf]. cbn [fst].
  set (g := add_extracted _ _).
  destruct (generate_next_opens ct g) as (q & Hq & _).
  rewrite Hq, (generate_next_truthy _ _ _ _ Hq). cbn [andb app].
  destruct (Z.ltb_spec 0 maxt) as [Hpos|Hneg].
  - left. split; [exact Hpos|]. exists q. split; reflexivity.
  - right. split; [exact Hneg | reflexivity].
Qed.

(** ** What holds of every session of a store that was built by the two
       operations *)

Lemma add_extracted_graph_ok (g : KnowledgeGraph) (text : string) :
  entities_ok (entities g) -> lists_nodup (entities g) ->
  entities_ok (entities (add_extracted g (extract text))) /\
  lists_nodup (entities (add_extracted g (extract text))).
Proof.
  intros Hok Hnd. rewrite add_extracted_calls. split.
  - apply run_calls_keeps_ok, Hok.
  - apply run_calls_keeps_nodup; [apply calls_of_extract_trimmed | exact Hnd].
Qed.

Lemma started_ok (query : string) (maxt : Z) (asked : list string) (fin : bool) :
  (asked = [] /\ fin = true) \/ ((0 < maxt)%Z /\ exists q, asked = [q]) ->
  session_ok (started query maxt asked fin).
Proof.
  intros Hcase. split; [|split].
  - unfold counts_ok, started. cbn [query_history kg case_type turns_done max_turns asked_questions finished length app].
    destruct Hcase as [[-> ->] | (Hpos & q & ->)]; cbn [length].
    + split; [lia|]. split; [constructor|]. split; [lia|]. split; [lia|].
      discriminate.
    + split; [lia|]. split; [repeat constructor; intros []|].
      split; [lia|]. split; [lia|]. intros _. exact Hpos.
  - exists query, []. unfold started, start_graph. cbn [query_history kg case_type].
    rewrite add_extracted_context. unfold set_context. cbn [context].
    split; [reflexivity|]. split; [|split; [reflexivity|]].
    + rewrite !lookup_insert_ne by discriminate. apply lookup_insert_eq.
    + exists (detect_crime_subtype query).
      split; [apply lookup_insert_eq | apply detect_crime_subtype_range].
  - unfold graph_ok, started, start_graph. cbn [kg].
    apply add_extracted_graph_ok; [split; constructor | constructor].
Qed.

Lemma absorb_answer_context (g : KnowledgeGraph) (answer key : string) :
  key <> "criminal_subtype" ->
  context (absorb_answer g answer) !! key = context g !! key.
Proof.
  intros Hne. unfold absorb_answer, set_context. cbn [context].
  rewrite lookup_insert_ne by congruence. rewrite add_extracted_context. reflexivity.
Qed.

Lemma absorb_answer_subtype (g : KnowledgeGraph) (answer : string) :
  exists s, context (absorb_answer g answer) !! "criminal_subtype" = Some s /\
            In s subtypes.
Proof.
  unfold absorb_answer, set_context. cbn [context]. eexists.
  split; [apply lookup_insert_eq | apply detect_crime_subtype_range].
Qed.

Lemma absorb_answer_entities (g : KnowledgeGraph) (answer : string) :
  entities (absorb_answer g answer) = entities (add_extracted g (extract answer)).
Proof. reflexivity. Qed.

Lemma answered_ok (st : Session) (answer : string) (asked : list string) (fin : bool) :
  session_ok st ->
  (asked = asked_questions st /\ fin = true) \/
  ((turns_done st + 1 < max_turns st)%Z /\ fin = finished st /\
   exists q, ~ In q (asked_questions st) /\ asked = asked_questions st ++ [q]) ->
  session_ok (answered st answer asked fin).
Proof.
  intros (Hcounts & Htyped & Hgraph) Hcase. split; [|split].
  - destruct Hcounts as (Hturns & Hnd & Hlen & Hmax & Hleft).
    unfold counts_ok, answered.
    cbn [query_history kg case_type turns_done max_turns asked_questions finished].
    rewrite length_app. cbn [length].
    destruct Hcase as [[-> ->] | (Hlt & -> & q & Hq & ->)].
    + split; [lia|]. split; [exact Hnd|]. split; [lia|]. split; [lia|].
      discriminate.
    + rewrite length_app. cbn [length].
      split; [lia|]. split; [apply NoDup_snoc; assumption|].
      split; [lia|]. split; [lia|]. intros _. exact Hlt.
  - destruct Htyped as (query & later & Hh & Hsit & Hct & _).
    exists query, (later ++ [answer]). unfold answered.
    cbn [query_history kg case_type]. rewrite Hh.
    split; [reflexivity|]. split; [|split; [exact Hct|]].
    + rewrite absorb_answer_context by discriminate. exact Hsit.
    + apply absorb_answer_subtype.
  - destruct Hgraph as [Hok Hnd]. unfold graph_ok, answered. cbn [kg].
    rewrite absorb_answer_entities. apply add_extracted_graph_ok; assumption.
Qed.

Lemma store_ok_insert (sessions : gmap string Session) (sid : string) (st : Session) :
  store_ok sessions -> session_ok st -> store_ok (<[sid := st]> sessions).
Proof.
  intros Hs Hst sid' st' H. destruct (decide (sid = sid')) as [->|Hne].
  - rewrite lookup_insert_eq in H. injection H as <-. exact Hst.
  - rewrite lookup_insert_ne in H by exact Hne. exact (Hs _ _ H).
Qed.

Lemma step_ok (sessions : gmap string Session) (c : Call) :
  store_ok sessions -> store_ok (step sessions c).
Proof.
  intros Hs. destruct c as [now sid query maxt | now sid answer]; cbn [step].
  - destruct (start_session_cases now sid sessions query maxt)
      as [(Hpos & q & _ & ->) | (Hneg & ->)]; cbn [fst];
      apply store_ok_insert; try exact Hs; apply started_ok; eauto.
  - destruct (sessions !! sid) as [st|] eqn:Hst.
    + destruct (answer_session_known now sessions sid answer st Hst)
        as [(Hlt & q & Hq & ->) | (_ & ->)]; cbn [fst];
        apply store_ok_insert; try exact Hs; apply answered_ok;
        try exact (Hs _ _ Hst).
      * right. split; [exact Hlt|]. split; [reflexivity|]. exists q.
        split; [exact (generate_next_unasked _ _ _ _ Hq) | reflexivity].
      * left. auto.
    + unfold answer_session. rewrite Hst. exact Hs.
Qed.

Lemma store_after_ok (calls : list Call) : store_ok (store_after calls).
Proof.
  unfold store_after.
  assert (H0 : store_ok (∅ : gmap string Session)).
  { intros sid st H. rewrite lookup_empty in H. discriminate H. }
  revert H0. generalize (∅ : gmap string Session).
  induction calls as [|c calls IH]; intros s H0; [exact H0|].
  cbn [fold_left]. apply IH, step_ok, H0.
Qed.

(** X13.  In every session of a store built by the two operations,
    [turns_done] is the number of answers taken, no question is recorded
    twice, at most one question more than the answers taken and never more
    than the turn budget were asked, and a session that is not finished
    has turns left. *)
Theorem sessions_keep_count (calls : list Call) (sid : string) (st : Session) :
  store_after calls !! sid = Some st ->
  turns_done st = (Z.of_nat (length (query_history st)) - 1)%Z /\
  List.NoDup (asked_questions st) /\
  (Z.of_nat (length (asked_questions st)) <= turns_done st + 1)%Z /\
  (Z.of_nat (length (asked_questions st)) <= Z.max 0 (max_turns st))%Z /\
  (finished st = false -> (turns_done st < max_turns st)%Z).
Proof.
  intros H. destruct (store_after_ok calls sid st H) as ((Ht & Hnd & Hlen & Hmax & Hleft) & _).
  split; [exact Ht|]. split; [exact Hnd|]. split; [lia|]. split; [exact Hmax | exact Hleft].
Qed.

Lemma subtype_has_templates (s : string) :
  In s subtypes ->
  Py.truthy s = true /\ exists t, Dict.get QUESTION_TEMPLATES s = Some t.
Proof.
  unfold subtypes. cbn [In].
  intros [<-|[<-|[<-|[<-|[]]]]]; (split; [reflexivity | eexists; reflexivity]).
Qed.

(** X14.  In every session of a store built by the two operations the
    situation is the query the session was started with, the case type is
    the classification of that query, the stored subtype is one of the four
    offenses, and the template set in use is the table entry of the subtype
    (criminal matters) or of the case type: no fallback is taken. *)
Theorem sessions_keep_type (calls : list Call) (sid : string) (st : Session) :
  store_after calls !! sid = Some st ->
  exists query later subtype,
    query_history st = query :: later /\
    context_get (kg st) "situation" EmptyString = query /\
    case_type st = fst (initial_classify query) /\
    In (case_type st) case_types /\
    context (kg st) !! "criminal_subtype" = Some subtype /\
    In subtype subtypes /\
    Dict.get QUESTION_TEMPLATES
      (if String.eqb (case_type st) "criminal" then subtype else case_type st) =
      Some (resolve_templates (case_type st) (kg st)).
Proof.
  intros H. destruct (store_after_ok calls sid st H)
    as (_ & (query & later & Hh & Hsit & Hct & s & Hs & Hin) & _).
  exists query, later, s. split; [exact Hh|].
  split; [unfold context_get; rewrite Hsit; reflexivity|].
  split; [exact Hct|].
  assert (Hrange : In (case_type st) case_types)
    by (rewrite Hct; apply initial_classify_range).
  split; [exact Hrange|]. split; [exact Hs|]. split; [exact Hin|].
  unfold resolve_templates. rewrite Hs.
  destruct (subtype_has_templates s Hin) as (Htruthy & t & Ht).
  unfold or_else. rewrite Htruthy.
  destruct (String.eqb (case_type st) "criminal") eqn:E.
  - unfold Dict.get_or at 1. rewrite Ht. reflexivity.
  - unfold case_types in Hrange. cbn [In] in Hrange.
    destruct Hrange as [R|[R|[R|[R|[R|[]]]]]]; rewrite <- R in *;
      first [discriminate E | reflexivity].
Qed.

(** X15.  In every session of a store built by the two operations no list
    of the graph is empty or holds a value twice, and every value is not
    empty and has no outer white space. *)
Theorem sessions_keep_graph (calls : list Call) (sid : string) (st : Session)
    (entity_type : string) (values : list string) :
  store_after calls !! sid = Some st ->
  Dict.get (entities (kg st)) entity_type = Some values ->
  values <> [] /\ List.NoDup values /\
  forall v, In v values -> Py.strip v = v /\ v <> EmptyString.
Proof.
  intros H Hget. destruct (store_after_ok calls sid st H) as (_ & _ & [Hok Hnd]).
  apply dict_get_In_entry in Hget. destruct Hok as [_ Hall].
  rewrite List.Forall_forall in Hall. destruct (Hall _ Hget) as [Hne Hclean].
  unfold lists_nodup in Hnd. rewrite List.Forall_forall in Hnd.
  split; [exact Hne|]. split; [exact (Hnd _ Hget)|].
  intros v Hv. cbn [snd] in Hclean. rewrite List.Forall_forall in Hclean.
  destruct (Hclean v Hv) as [Hs Ht]. split; [exact Hs|]. intros ->. discriminate Ht.
Qed.

(** ** The turn budget *)

Lemma answer_session_next (now : string) (sessions : gmap string Session)
    (sid answer : string) (st : Session) :
  sessions !! sid = Some st ->
  exists st',
    fst (answer_session now sessions sid answer) !! sid = Some st' /\
    turns_done st' = (turns_done st + 1)%Z /\
    max_turns st' = max_turns st /\
    length (query_history st') = S (length (query_history st)) /\
    (finished st = true -> finished st' = true) /\
    ((max_turns st <= turns_done st + 1)%Z -> finished st' = true).
Proof.
  intros Hst.
  destruct (answer_session_known now sessions sid answer st Hst)
    as [(Hlt & q & _ & ->) | (_ & ->)]; cbn [fst]; rewrite lookup_insert_eq;
    eexists; (split; [reflexivity|]); unfold answered;
    cbn [query_history turns_done max_turns finished]; rewrite length_app;
    cbn [length]; repeat split; auto; try lia.
Qed.

Lemma answer_all_finishes (sid : string) (answers : list (string * string)) :
  forall (sessions : gmap string Session) (st : Session),
    sessions !! sid = Some st ->
    finished st = true \/
    (answers <> [] /\ (max_turns st - turns_done st <= Z.of_nat (length answers))%Z) ->
    exists st',
      answer_all sessions sid answers !! sid = Some st' /\
      finished st' = true /\
      turns_done st' = (turns_done st + Z.of_nat (length answers))%Z /\
      length (query_history st') = (length (query_history st) + length answers)%nat.
Proof.
  induction answers as [|[now a] rest IH]; intros sessions st Hst Hcase.
  - destruct Hcase as [Hfin | [Hne _]]; [|contradiction].
    exists st. cbn. split; [exact Hst|]. split; [exact Hfin|]. split; lia.
  - destruct (answer_session_next now sessions sid a st Hst)
      as (st1 & Hst1 & Ht1 & Hm1 & Hh1 & Hkeep & Hend).
    unfold answer_all. cbn [fold_left fst snd].
    destruct (IH _ st1 Hst1) as (st' & Hst' & Hfin' & Ht' & Hh').
    + destruct Hcase as [Hfin | [_ Hle]]; [left; auto|].
      cbn [length] in Hle.
      destruct (Z.le_gt_cases (max_turns st) (turns_done st + 1)) as [Hnow|Hlater];
        [left; auto|].
      right. split; [destruct rest; [cbn [length] in Hle; lia | discriminate]|].
      rewrite Hm1, Ht1. lia.
    + exists st'. split; [exact Hst'|]. split; [exact Hfin'|].
      cbn [length]. split; lia.
Qed.

(** X16.  A session is finished once it has taken as many answers as its
    turn budget had left (one answer at least), and every answer is
    counted and kept. *)
Theorem answers_use_up_budget (sessions : gmap string Session) (sid : string)
    (st : Session) (answers : list (string * string)) :
  sessions !! sid = Some st ->
  answers <> [] ->
  (max_turns st - turns_done st <= Z.of_nat (length answers))%Z ->
  exists st',
    answer_all sessions sid answers !! sid = Some st' /\
    finished st' = true /\
    turns_done st' = (turns_done st + Z.of_nat (length answers))%Z /\
    length (query_history st') = (length (query_history st) + length answers)%nat.
Proof.
  intros Hst Hne Hle. apply (answer_all_finishes sid answers sessions st Hst). auto.
Qed.

(** ** The operations touch one session only *)

Lemma add_extracted_grows (g : KnowledgeGraph) (extracted : list (string * list string)) :
  grows_from (entities g) (entities (add_extracted g extracted)).
Proof. rewrite add_extracted_calls. apply run_calls_grows. Qed.

(** X17.  [answer_session] and [start_session] leave every other session
    of the store as it was; in the session answered, the history and
    the asked questions are extended at their end, every entity list keeps
    what it had, and no context key but [criminal_subtype] changes. *)
Theorem operations_are_local (now sid arg : string) (sessions : gmap string Session)
    (maxt : Z) :
  (forall other, other <> sid ->
     fst (answer_session now sessions sid arg) !! other = sessions !! other /\
     fst (start_session now sid sessions arg maxt) !! other = sessions !! other) /\
  (forall st, sessions !! sid = Some st ->
     exists st',
       fst (answer_session now sessions sid arg) !! sid = Some st' /\
       query_history st' = query_history st ++ [arg] /\
       (exists new, asked_questions st' = asked_questions st ++ new) /\
       grows_from (entities (kg st)) (entities (kg st')) /\
       (forall key, key <> "criminal_subtype" ->
          context (kg st') !! key = context (kg st) !! key)).
Proof.
  split.
  - intros other Hne. split.
    + destruct (sessions !! sid) as [st|] eqn:Hst.
      * destruct (answer_session_known now sessions sid arg st Hst)
          as [(_ & q & _ & ->) | (_ & ->)]; cbn [fst];
          apply lookup_insert_ne; congruence.
      * unfold answer_session. rewrite Hst. reflexivity.
    + destruct (start_session_cases now sid sessions arg maxt)
        as [(_ & q & _ & ->) | (_ & ->)]; cbn [fst];
        apply lookup_insert_ne; congruence.
  - intros st Hst.
    destruct (answer_session_known now sessions sid arg st Hst)
      as [(_ & q & _ & ->) | (_ & ->)]; cbn [fst]; rewrite lookup_insert_eq;
      eexists; (split; [reflexivity|]); unfold answered;
      cbn [query_history asked_questions kg];
      (split; [reflexivity|]);
      (split; [first [exists [q]; reflexivity | exists []; now rewrite app_nil_r]|]);
      (split; [rewrite absorb_answer_entities; apply add_extracted_grows|]);
      intros key Hkey; apply absorb_answer_context, Hkey.
Qed.

(** ** The two routes *)

(** X12.  [start_session] answers with a question exactly when the turn
    budget is positive; the question is then the first one of the template
    set and the session is stored active with that question recorded.
    With no budget the session is stored finished and the answer is final.
    Either way the session starts with no turn done and the answer carries
    the identifier and a report. *)
Theorem start_session_outcome (now sid : string) (sessions : gmap string Session)
    (query : string) (maxt : Z) :
  let out := snd (start_session now sid sessions query maxt) in
  let ct := fst (initial_classify query) in
  exists st,
    fst (start_session now sid sessions query maxt) = <[sid := st]> sessions /\
    query_history st = [query] /\ turns_done st = 0%Z /\ max_turns st = maxt /\
    case_type st = ct /\
    session_id out = Some sid /\
    partial_report out = Some (analyze now ct (kg st)) /\
    (((0 < maxt)%Z /\ next_action out = "ask" /\ finished st = false /\
      exists q,
        question out = Some q /\ asked_questions st = [q] /\
        head (all_questions (resolve_templates ct (kg st))) = Some q) \/
     ((maxt <= 0)%Z /\ next_action out = "final" /\ finished st = true /\
      question out = None /\ asked_questions st = [])).
Proof.
  intros out ct. subst out.
  destruct (start_session_cases now sid sessions query maxt)
    as [(Hpos & q & Hq & ->) | (Hneg & ->)]; cbn [fst snd];
    eexists; (split; [reflexivity|]); unfold started;
    cbn [query_history turns_done max_turns case_type kg asked_questions finished
         session_id partial_report next_action question];
    do 6 (split; [reflexivity|]).
  - left. split; [exact Hpos|]. split; [reflexivity|]. split; [reflexivity|].
    exists q. split; [reflexivity|]. split; [reflexivity|].
    unfold generate_next in Hq. rewrite first_missing_find in Hq.
    destruct (all_questions _); [discriminate Hq | exact Hq].
  - right. auto.
Qed.

(** X18.  The route of an answer fails with 404 exactly when the
    identifier is unknown, the store then being untouched; otherwise it
    sends the question of an [ask] answer or the report of a [final]
    answer with an empty [structured], and never fails on a missing field. *)
Theorem consult_answer_outcome (now iso_now : string) (sessions : gmap string Session)
    (sid answer : string) :
  let result := consult_answer now iso_now sessions sid answer in
  fst result = fst (answer_session now sessions sid answer) /\
  ((sessions !! sid = None /\ fst result = sessions /\
    snd result = inl (HTTPException 404 "session not found")) \/
   (exists st out,
      sessions !! sid = Some st /\
      snd (answer_session now sessions sid answer) = inr out /\
      ((exists q,
          question out = Some q /\
          snd result = inr (AskPayload q (partial_report out))) \/
       (exists rep,
          report out = Some rep /\
          snd result = inr (FinalPayload sid rep [] iso_now))))).
Proof.
  intros result. subst result. unfold consult_answer.
  destruct (sessions !! sid) as [st|] eqn:Hst.
  - destruct (answer_session_known now sessions sid answer st Hst)
      as [(_ & q & _ & ->) | (_ & ->)]; cbn [fst snd next_action question report
                                              structured String.eqb Ascii.eqb Bool.eqb];
      (split; [reflexivity|]); right; exists st; eexists;
      (split; [reflexivity|]); (split; [reflexivity|]).
    + left. exists q. split; reflexivity.
    + right. eexists. split; reflexivity.
  - unfold answer_session. rewrite Hst. cbn [fst snd].
    split; [reflexivity|]. left. auto.
Qed.

(** X19.  The route of a start rejects with 400 exactly the queries that
    are empty or all white space, the store then being untouched;
    otherwise it starts the session on the trimmed query with the turn
    budget asked for, 7 standing for none and for 0, and sends what
    [start_session] answers. *)
Theorem consult_start_outcome (now sid : string) (sessions : gmap string Session)
    (req : ConsultationStartRequest) :
  let result := consult_start now sid sessions req in
  let started := start_session now sid sessions (Py.strip (req_query req))
                   (max_turns_or_7 (req_max_turns req)) in
  (Py.strip (req_query req) = EmptyString ->
   result = (sessions, inl (HTTPException 400 "Query is required"))) /\
  (Py.strip (req_query req) <> EmptyString ->
   result =
     (fst started,
      inr {| resp_session_id := sid;
             resp_next_action := next_action (snd started);
             resp_question := question (snd started);
             resp_partial_report := partial_report (snd started) |})) /\
  (max_turns_or_7 (req_max_turns req) = 7%Z <->
   req_max_turns req = None \/ req_max_turns req = Some 0%Z \/
   req_max_turns req = Some 7%Z).
Proof.
  intros result started. subst result started. unfold consult_start.
  split; [|split].
  - intros E. rewrite E. cbn [Py.truthy negb]. rewrite orb_true_r. reflexivity.
  - intros Hne.
    assert (Hs : Py.truthy (Py.strip (req_query req)) = true)
      by (destruct (Py.strip (req_query req)); [contradiction | reflexivity]).
    assert (Hq : Py.truthy (req_query req) = true).
    { destruct (req_query req); [|reflexivity]. discriminate Hs. }
    rewrite Hs, Hq. cbn [negb orb].
    destruct (start_session_cases now sid sessions (Py.strip (req_query req))
                (max_turns_or_7 (req_max_turns req)))
      as [(_ & q & _ & ->) | (_ & ->)]; reflexivity.
  - unfold max_turns_or_7. destruct (req_max_turns req) as [n|].
    + destruct (Z.eqb_spec n 0) as [->|Hn].
      * split; auto.
      * split; [intros ->; auto|].
        intros [H|[H|H]]; [discriminate | injection H as ->; contradiction
                          | injection H as ->; reflexivity].
    + split; auto.
Qed.

(** ** Case types and subtypes in the dispatch *)

(** X7.  Outside criminal matters the stored subtype plays no part: the
    next question and the report are the same whatever it is. *)
Theorem subtype_matters_for_criminal_only (now ct subtype : string)
    (g : KnowledgeGraph) (asked : list string) :
  ct <> "criminal" ->
  generate_next ct (set_context g "criminal_subtype" subtype) asked =
    generate_next ct g asked /\
  analyze now ct (set_context g "criminal_subtype" subtype) = analyze now ct g.
Proof.
  intros Hct. apply String.eqb_neq in Hct.
  unfold generate_next, resolve_templates, analyze. rewrite Hct.
  split; [reflexivity|].
  assert (Hsit : context_get (set_context g "criminal_subtype" subtype) "situation" EmptyString
                 = context_get g "situation" EmptyString).
  { unfold context_get, set_context. cbn [context].
    rewrite lookup_insert_ne by discriminate. reflexivity. }
  rewrite Hsit. reflexivity.
Qed.

Lemma subtype_matters_for_criminal_only_witness :
  generate_next "family" (set_context KnowledgeGraph_init "criminal_subtype" "murder") [] =
    generate_next "family" KnowledgeGraph_init [] /\
  analyze Scenario.clock "family"
    (set_context KnowledgeGraph_init "criminal_subtype" "murder") =
    analyze Scenario.clock "family" KnowledgeGraph_init.
Proof.
  apply (subtype_matters_for_criminal_only Scenario.clock "family" "murder"
           KnowledgeGraph_init []).
  discriminate.
Defined.

(** X8.  A case type without a template set of its own, criminal apart,
    is asked the questions of the general set and gets the generic
    report, headed by the case type itself. *)
Theorem unknown_case_type_is_general (now ct : string) (g : KnowledgeGraph)
    (asked : list string) :
  ct <> "criminal" ->
  Dict.get QUESTION_TEMPLATES ct = None ->
  generate_next ct g asked = generate_next "general" g asked /\
  analyze now ct g =
    _generate_template_report now ct ct (context_get g "situation" EmptyString)
      (fact_text g).
Proof.
  intros Hct Hnone. apply String.eqb_neq in Hct.
  unfold generate_next, resolve_templates, analyze, _generate_enhanced_report.
  rewrite Hct. cbn [andb String.eqb Ascii.eqb Bool.eqb].
  unfold Dict.get_or at 1. rewrite Hnone.
  split; [reflexivity|].
  unfold QUESTION_TEMPLATES in Hnone. cbn [Dict.get] in Hnone.
  repeat match type of Hnone with
         | (if String.eqb ct ?k then _ else _) = None =>
             let E := fresh "E" in
             destruct (String.eqb ct k) eqn:E; [discriminate Hnone|]
         end.
  reflexivity.
Qed.

Lemma unknown_case_type_is_general_witness :
  generate_next "tax" KnowledgeGraph_init [] =
    Some "Please describe your legal issue in detail".
Proof.
  destruct (unknown_case_type_is_general Scenario.clock "tax" KnowledgeGraph_init [])
    as [Hq _]; [discriminate | reflexivity |].
  rewrite Hq. reflexivity.
Defined.

(** ** Witnesses on a short consultation *)

Lemma sessions_keep_count_witness :
  exists st,
    store_after short_run !! Scenario.sid = Some st /\
    turns_done st = 2%Z /\ length (query_history st) = 3%nat /\
    List.NoDup (asked_questions st).
Proof.
  eassert (Hst : store_after short_run !! Scenario.sid = Some _)
    by (vm_compute; reflexivity).
  eexists. split; [exact Hst|].
  destruct (sessions_keep_count _ _ _ Hst) as (_ & Hnd & _).
  split; [reflexivity|]. split; [reflexivity | exact Hnd].
Defined.

Lemma sessions_keep_type_witness :
  exists st,
    store_after short_run !! Scenario.sid = Some st /\
    context_get (kg st) "situation" EmptyString = "my phone was stolen near Lake Road" /\
    case_type st = "criminal" /\
    Dict.get QUESTION_TEMPLATES "theft" = Some (resolve_templates (case_type st) (kg st)).
Proof.
  eassert (Hst : store_after short_run !! Scenario.sid = Some _)
    by (vm_compute; reflexivity).
  eexists. split; [exact Hst|].
  destruct (sessions_keep_type _ _ _ Hst)
    as (query & later & subtype & Hh & Hsit & Hct & _ & Hsub & _ & Htpl).
  injection Hh as <- _. injection Hsub as <-.
  split; [exact Hsit|]. split; [reflexivity | exact Htpl].
Defined.

Lemma sessions_keep_graph_witness :
  exists st,
    store_after short_run !! Scenario.sid = Some st /\
    Dict.get (entities (kg st)) "items" = Some ["phone"; "laptop"] /\
    List.NoDup ["phone"; "laptop"].
Proof.
  eassert (Hst : store_after short_run !! Scenario.sid = Some _)
    by (vm_compute; reflexivity).
  eexists. split; [exact Hst|].
  match goal with
  | |- ?A /\ _ => assert (Hget : A) by reflexivity
  end.
  split; [exact Hget|].
  exact (proj1 (proj2 (sessions_keep_graph _ _ _ _ _ Hst Hget))).
Defined.

Lemma answers_use_up_budget_witness :
  exists st',
    answer_all Scenario.store0 Scenario.sid
      [(Scenario.clock, "around 5pm yesterday");
       (Scenario.clock, "in my electronics shop");
       (Scenario.clock, "yes knife was used")] !! Scenario.sid = Some st' /\
    finished st' = true /\ turns_done st' = 3%Z.
Proof.
  eassert (Hst : Scenario.store0 !! Scenario.sid = Some _)
    by (vm_compute; reflexivity).
  destruct (answers_use_up_budget Scenario.store0 Scenario.sid _
              [(Scenario.clock, "around 5pm yesterday");
               (Scenario.clock, "in my electronics shop");
               (Scenario.clock, "yes knife was used")] Hst)
    as (st' & Hst' & Hfin & Hturns & _); [discriminate | vm_compute; discriminate |].
  exists st'. split; [exact Hst'|]. split; [exact Hfin | exact Hturns].
Defined.

(** ** The paragraphs of the robbery and property reports *)

Lemma join_contains_In (sep x : string) (l : list string) :
  In x l -> Py.contains x (Py.join sep l) = true.
Proof.
  induction l as [|y l IH]; [intros []|]. intros [->|Hin].
  - apply join_contains, contains_refl.
  - rewrite join_cons. destruct l as [|z l]; [destruct Hin|].
    apply contains_append_r, contains_append_r, IH, Hin.
Qed.

Ltac in_list := repeat first [left; reflexivity | right].

(** X10.  The report of a robbery quotes the first date, the first location
    and the first money value of the graph and lists all its items, each in
    a line of its own. *)
Theorem robbery_report_quotes_facts (now : string) (g : KnowledgeGraph) :
  context g !! "criminal_subtype" = Some "robbery" ->
  let report := analyze now "criminal" g in
  let found := fun k => Dict.get_or (entities g) k [] in
  Py.contains "LEGAL CONSULTATION REPORT - ROBBERY CASE" report = true /\
  (forall d rest, found "dates" = d :: rest ->
     Py.contains ("The incident occurred on " +:+ d +:+
                  ". Time is crucial - report immediately.") report = true) /\
  (forall l rest, found "locations" = l :: rest ->
     Py.contains ("Location: " +:+ l +:+
                  ". Evidence collection at the crime scene is vital.") report = true) /\
  (forall v rest, found "values" = v :: rest ->
     Py.contains ("Value involved: " +:+ v +:+
                  ". Higher amounts may lead to more severe charges.") report = true) /\
  (found "items" <> [] ->
     Py.contains ("Items taken: " +:+ Py.join ", " (found "items") +:+
                  ". Document with purchase receipts/serial numbers.") report = true).
Proof.
  intros Hsub report found. subst report found.
  assert (E : forall now, analyze now "criminal" g =
            _analyze_robbery_case now (context_get g "situation" EmptyString)
              (Dict.get_or (entities g) "dates" [])
              (Dict.get_or (entities g) "locations" [])
              (Dict.get_or (entities g) "values" [])
              (Dict.get_or (entities g) "items" []) (fact_text g)).
  { intros t. unfold analyze, context_get. rewrite Hsub. reflexivity. }
  rewrite E. unfold _analyze_robbery_case.
  split; [apply contains_append_l; reflexivity|].
  split; [|split; [|split]].
  - intros d rest ->. do 7 apply contains_append_r. apply contains_append_l.
    apply join_contains_In. cbn [app]. in_list.
  - intros l rest ->. do 7 apply contains_append_r. apply contains_append_l.
    apply join_contains_In. apply in_or_app. right. apply in_or_app. right.
    cbn [app]. in_list.
  - intros v rest ->. do 7 apply contains_append_r. apply contains_append_l.
    apply join_contains_In. do 3 (apply in_or_app; right). cbn [app]. in_list.
  - intros Hne. do 7 apply contains_append_r. apply contains_append_l.
    apply join_contains_In. do 4 (apply in_or_app; right).
    destruct (Dict.get_or (entities g) "items" []); [contradiction|].
    cbn [app]. in_list.
Qed.

Lemma robbery_report_quotes_facts_witness :
  let g := set_context
             (add_entity (add_entity KnowledgeGraph_init "dates" "12/03/2021")
                         "items" "phone")
             "criminal_subtype" "robbery" in
  Py.contains "The incident occurred on 12/03/2021. Time is crucial - report immediately."
              (analyze Scenario.clock "criminal" g) = true.
Proof.
  intros g.
  destruct (robbery_report_quotes_facts Scenario.clock g) as (_ & Hdate & _);
    [vm_compute; reflexivity|].
  exact (Hdate "12/03/2021" [] eq_refl).
Defined.

(** X11.  The report of a property matter quotes the first location and
    the first money value of the graph, each in a line of its own. *)
Theorem property_report_quotes_facts (now : string) (g : KnowledgeGraph) :
  let report := analyze now "property" g in
  let found := fun k => Dict.get_or (entities g) k [] in
  Py.contains "LEGAL CONSULTATION REPORT - PROPERTY DISPUTE" report = true /\
  (forall l rest, found "locations" = l :: rest ->
     Py.contains ("Property location: " +:+ l +:+
                  ". Survey records and mutation documents are crucial.") report = true) /\
  (forall v rest, found "values" = v :: rest ->
     Py.contains ("Estimated value: " +:+ v +:+
                  ". Property valuation report recommended.") report = true).
Proof.
  intros report found. subst report found.
  assert (E : forall now, analyze now "property" g =
            _analyze_property_case now (context_get g "situation" EmptyString)
              (Dict.get_or (entities g) "dates" [])
              (Dict.get_or (entities g) "locations" [])
              (Dict.get_or (entities g) "values" []) (fact_text g))
    by reflexivity.
  rewrite E. unfold _analyze_property_case.
  split; [apply contains_append_l; reflexivity|]. split.
  - intros l rest ->. do 7 apply contains_append_r. apply contains_append_l.
    apply join_contains_In. cbn [app]. in_list.
  - intros v rest ->. do 7 apply contains_append_r. apply contains_append_l.
    apply join_contains_In. apply in_or_app. right. apply in_or_app. right.
    cbn [app]. in_list.
Qed.

Lemma property_report_quotes_facts_witness :
  Py.contains "Property location: Lake Road. Survey records and mutation documents are crucial."
    (analyze Scenario.clock "property"
       (add_entity KnowledgeGraph_init "locations" "Lake Road")) = true.
Proof.
  destruct (property_report_quotes_facts Scenario.clock
              (add_entity KnowledgeGraph_init "locations" "Lake Road"))
    as (_ & Hloc & _).
  exact (Hloc "Lake Road" [] eq_refl).
Defined.
